(** * Pennywise: the SMS-to-transaction pipeline, embedded and verified

    A shallow embedding of the service layer of the backend
    ([sms_parser.py], [backup_service.py], [sms_service.py],
    [transaction_service.py], [models.py]) together with the properties
    of the extraction, normalisation, recurrence and analytics pipeline.

    Conventions of the embedding:
    - JSON / BSON / Python values are the dynamic type [value];
    - Python dicts and MongoDB documents are [gmap string value];
    - a MongoDB collection is a list of documents in insertion order,
      each paired with its [_id], plus the counter the next [_id] is
      drawn from;
    - Python floats are idealised as rationals ([Qc]);
    - instants are milliseconds since the epoch ([Z]), the resolution
      of a BSON date; every reading of [datetime.utcnow()] is an
      explicit argument;
    - an exception is the [Raise] outcome of the monad [py]. *)

From Stdlib Require Import ZArith QArith Qcanon String Ascii List Lia.
From stdpp Require Import base option list gmap strings sorting numbers pretty.

#[local] Set Warnings "-register-all".
#[local] Open Scope string_scope.
#[local] Open Scope Z_scope.

(** ** Dynamic values *)

Inductive value : Type :=
| VNone
| VBool (b : bool)
| VNum (q : Qc)
| VStr (s : string)
| VDate (t : Z)
| VList (l : list value)
| VDict (kvs : list (string * value)).

Fixpoint value_eqb (a b : value) {struct a} : bool :=
  match a, b with
  | VNone, VNone => true
  | VBool x, VBool y => bool_decide (x = y)
  | VNum x, VNum y => bool_decide (x = y)
  | VStr x, VStr y => bool_decide (x = y)
  | VDate x, VDate y => bool_decide (x = y)
  | VList xs, VList ys =>
      (fix go (xs ys : list value) {struct xs} : bool :=
         match xs, ys with
         | [], [] => true
         | x :: xs', y :: ys' => value_eqb x y && go xs' ys'
         | _, _ => false
         end) xs ys
  | VDict xs, VDict ys =>
      (fix go (xs ys : list (string * value)) {struct xs} : bool :=
         match xs, ys with
         | [], [] => true
         | (k, x) :: xs', (k', y) :: ys' =>
             bool_decide (k = k') && value_eqb x y && go xs' ys'
         | _, _ => false
         end) xs ys
  | _, _ => false
  end.

(** Python truthiness, [bool(v)]. *)
Definition truthy (v : value) : bool :=
  match v with
  | VNone => false
  | VBool b => b
  | VNum q => negb (bool_decide (q = Q2Qc 0))
  | VStr s => negb (bool_decide (s = ""))
  | VDate _ => true
  | VList l => negb (bool_decide (l = []))
  | VDict kvs => negb (bool_decide (kvs = []))
  end.

Definition is_None (v : value) : bool :=
  match v with VNone => true | _ => false end.

(** The dict [json.loads] builds from a JSON object: a repeated key keeps
    its last value. *)
Definition dict_of_items (kvs : list (string * value)) : gmap string value :=
  list_to_map (reverse kvs).

(** [d.get(k, dflt)]. *)
Definition get (d : gmap string value) (k : string) (dflt : value) : value :=
  default dflt (d !! k).

(** ** Strings *)

Definition ascii_lower (c : ascii) : ascii :=
  let n := N_of_ascii c in
  if ((65 <=? n) && (n <=? 90))%N then ascii_of_N (n + 32) else c.

(** [str.lower()] on the ASCII range; other bytes are kept. *)
Fixpoint lower (s : string) : string :=
  match s with
  | EmptyString => EmptyString
  | String c s' => String (ascii_lower c) (lower s')
  end.

(** [date_str.replace('Z', '+00:00')]. *)
Fixpoint replace_Z (s : string) : string :=
  match s with
  | EmptyString => EmptyString
  | String c s' =>
      if Ascii.eqb c "Z"%char then "+00:00" ++ replace_Z s'
      else String c (replace_Z s')
  end.

(** [needle in s] for two strings. *)
Fixpoint contains (needle s : string) : bool :=
  String.prefix needle s ||
  match s with
  | EmptyString => false
  | String _ s' => contains needle s'
  end.

(** ** Exceptions *)

Inductive py (A : Type) : Type :=
| Return (a : A)
| Raise.
Arguments Return {A} a.
Arguments Raise {A}.

Definition py_bind {A B} (m : py A) (k : A -> py B) : py B :=
  match m with
  | Return a => k a
  | Raise => Raise
  end.

Notation "x <- m ;; k" := (py_bind m (fun x => k))
  (at level 100, m at next level, right associativity).

(** [try: ... except Exception: return dflt]. *)
Definition except {A} (m : py A) (dflt : A) : A :=
  match m with
  | Return a => a
  | Raise => dflt
  end.

Definition of_option {A} (o : option A) : py A :=
  match o with
  | Some a => Return a
  | None => Raise
  end.

(** ** Library functions the code calls

    The parts of the Python runtime, of pydantic and of MongoDB whose
    result depends on text formats are kept abstract. *)

Class PyRuntime : Type := {
  (** [float(s)] on a [str]; [None] is [ValueError]. *)
  float_of_str : string -> option Qc;
  (** [str(x)] on a number. *)
  str_of_float : Qc -> string;
  (** [datetime.fromisoformat(s)]; [None] is [ValueError]. *)
  fromisoformat : string -> option Z;
  (** pydantic's coercion to [datetime] of a value that is not one. *)
  parse_datetime : value -> option Z;
  (** MongoDB's [$regex] with option [i]: [None] if the pattern is
      refused, else the search predicate. *)
  regex_search_i : string -> option (string -> bool)
}.

(** ** models.py: the enumerations *)

Inductive TransactionType : Type :=
| CREDIT | DEBIT | PAYMENT | TRANSFER | SPENT | RECEIVED.

Inductive PaymentMethod : Type :=
| UPI | CARD | NEFT | IMPS | RTGS | CASH | WALLET.

Definition TransactionType_value (t : TransactionType) : string :=
  match t with
  | CREDIT => "credit" | DEBIT => "debit" | PAYMENT => "payment"
  | TRANSFER => "transfer" | SPENT => "spent" | RECEIVED => "received"
  end.

Definition PaymentMethod_value (m : PaymentMethod) : string :=
  match m with
  | UPI => "upi" | CARD => "card" | NEFT => "neft" | IMPS => "imps"
  | RTGS => "rtgs" | CASH => "cash" | WALLET => "wallet"
  end.

(** [TransactionType(s)]: the member whose value is [s]. *)
Definition TransactionType_of_value (s : string) : option TransactionType :=
  list_find (fun t => TransactionType_value t = s)
    [CREDIT; DEBIT; PAYMENT; TRANSFER; SPENT; RECEIVED] ≫= fun p => Some p.2.

Definition PaymentMethod_of_value (s : string) : option PaymentMethod :=
  list_find (fun m => PaymentMethod_value m = s)
    [UPI; CARD; NEFT; IMPS; RTGS; CASH; WALLET] ≫= fun p => Some p.2.

Definition opt_value {A} (f : A -> value) (o : option A) : value :=
  match o with
  | Some a => f a
  | None => VNone
  end.

Definition VType (t : TransactionType) : value := VStr (TransactionType_value t).
Definition VMethod (m : PaymentMethod) : value := VStr (PaymentMethod_value m).

(** ** sms_parser.py *)

(** What one call to the model, followed by the cleaning of the text and
    [json.loads], can come to. *)
Inductive gemini_reply : Type :=
| CallFailed          (* [generate_content_async] raises *)
| EmptyText           (* [response.text] is empty *)
| NotJson             (* [json.loads] raises [JSONDecodeError] *)
| Json (v : value).   (* the decoded JSON document *)

Section SmsParser.
Context `{PyRuntime}.

(** [float(x)]; [Raise] is [TypeError] or [ValueError]. *)
Definition py_float (v : value) : py Qc :=
  match v with
  | VNum q => Return q
  | VBool b => Return (if b then Q2Qc 1 else Q2Qc 0)
  | VStr s => of_option (float_of_str s)
  | _ => Raise
  end.

(** [type_mapping.get(type_str.lower())]; a [type_str] without
    [.lower] raises [AttributeError]. *)
Definition _convert_transaction_type (type_str : value)
  : py (option TransactionType) :=
  match type_str with
  | VStr s => Return (TransactionType_of_value (lower s))
  | _ => Raise
  end.

Definition _convert_payment_method (method_str : value)
  : py (option PaymentMethod) :=
  match method_str with
  | VStr s => Return (PaymentMethod_of_value (lower s))
  | _ => Raise
  end.

(** The bare [except:] turns every failure, a [date_str] that is not a
    string included, into the current time. *)
Definition _parse_date_from_gemini (now : Z) (date_str : value) : Z :=
  match date_str with
  | VStr s => default now (fromisoformat (replace_Z s))
  | _ => now
  end.

(** [parsed_data.get] exists only on a dict. *)
Definition as_dict (v : value) : py (gmap string value) :=
  match v with
  | VDict kvs => Return (dict_of_items kvs)
  | _ => Raise
  end.

(** The body of the inner [try] of [process_sms_intelligently], from
    [parsed_data = json.loads(...)] on. *)
Definition sms_fields (now : Z) (v : value)
  : py (option (gmap string value)) :=
  parsed_data <- as_dict v ;;
  if negb (truthy (get parsed_data "is_transaction" (VBool false)))
  then Return None
  else
    match parsed_data !! "amount" with
    | None => Return None
    | Some amount =>
        transaction_type <-
          _convert_transaction_type (get parsed_data "transaction_type" (VStr "")) ;;
        match transaction_type with
        | None => Return None
        | Some transaction_type =>
            payment_method <-
              _convert_payment_method (get parsed_data "payment_method" (VStr "")) ;;
            let transaction_date :=
              _parse_date_from_gemini now
                (get parsed_data "transaction_date" (VStr "")) in
            amount <- py_float amount ;;
            Return (Some (list_to_map
              [ ("transaction_type", VType transaction_type);
                ("amount", VNum amount);
                ("currency", get parsed_data "currency" (VStr "INR"));
                ("merchant", get parsed_data "merchant" VNone);
                ("transaction_date", VDate transaction_date);
                ("reference_number", get parsed_data "reference_number" VNone);
                ("account_number", get parsed_data "account_number" VNone);
                ("card_number", get parsed_data "card_number" VNone);
                ("payment_method", opt_value VMethod payment_method);
                ("remarks", get parsed_data "remarks" VNone);
                ("is_failed", get parsed_data "is_failed" (VBool false));
                ("detection_confidence",
                  get parsed_data "confidence" (VNum (Q2Qc 0)));
                ("detection_reason",
                  get parsed_data "reason" (VStr "Unknown")) ]))
        end
    end.

Definition process_sms_intelligently (now : Z) (reply : gemini_reply)
  : option (gmap string value) :=
  match reply with
  | CallFailed => None
  | EmptyText => None
  | NotJson => None
  | Json v => except (sms_fields now v) None
  end.

(** One turn of the loop of [parse_backup_file_with_gemini]:
    [Return None] is [continue]. *)
Definition lacks_amount (tx_data : value) : py bool :=
  match tx_data with
  | VDict kvs => Return (bool_decide (dict_of_items kvs !! "amount" = None))
  | VStr s => Return (negb (contains "amount" s))
  | VList l => Return (negb (existsb (value_eqb (VStr "amount")) l))
  | _ => Raise
  end.

Definition backup_entry (now : Z) (tx_data : value)
  : py (option (gmap string value)) :=
  if negb (truthy tx_data) then Return None
  else
    missing <- lacks_amount tx_data ;;
    if (missing : bool) then Return None
    else
      tx <- as_dict tx_data ;;
      transaction_type <-
        _convert_transaction_type (get tx "transaction_type" (VStr "")) ;;
      match transaction_type with
      | None => Return None
      | Some transaction_type =>
          payment_method <-
            _convert_payment_method (get tx "payment_method" (VStr "")) ;;
          let transaction_date :=
            _parse_date_from_gemini now (get tx "transaction_date" (VStr "")) in
          amount <- py_float (get tx "amount" VNone) ;;
          Return (Some (list_to_map
            [ ("transaction_type", VType transaction_type);
              ("amount", VNum amount);
              ("currency", get tx "currency" (VStr "INR"));
              ("merchant", get tx "merchant" VNone);
              ("transaction_date", VDate transaction_date);
              ("reference_number", get tx "reference_number" VNone);
              ("account_number", get tx "account_number" VNone);
              ("card_number", get tx "card_number" VNone);
              ("payment_method", opt_value VMethod payment_method);
              ("remarks", get tx "remarks" VNone);
              ("is_failed", get tx "is_failed" (VBool false)) ]))
      end.

Fixpoint backup_entries (now : Z) (transactions_data : list value)
  : py (list (gmap string value)) :=
  match transactions_data with
  | [] => Return []
  | tx_data :: rest =>
      entry <- backup_entry now tx_data ;;
      valid_transactions <- backup_entries now rest ;;
      Return (match entry with
              | Some tx => tx :: valid_transactions
              | None => valid_transactions
              end)
  end.

Definition parse_backup_file_with_gemini (now : Z) (reply : gemini_reply)
  : list (gmap string value) :=
  match reply with
  | CallFailed => []
  | EmptyText => []
  | NotJson => []
  | Json (VList transactions_data) =>
      except (backup_entries now transactions_data) []
  | Json _ => []
  end.

End SmsParser.

(** ** Decidable equality of values *)

#[global] Instance value_eq_dec : EqDecision value.
Proof.
  assert (Hspec : forall a b : value, value_eqb a b = true <-> a = b).
  { fix IH 1.
    intros [ | x | x | x | x | xs | xs] [ | y | y | y | y | ys | ys]; simpl;
      try (split; [discriminate | discriminate]);
      try (rewrite bool_decide_eq_true; split;
           [intros ->; reflexivity | intros [= ->]; reflexivity]).
    - split; reflexivity.
    - revert ys. induction xs as [ | x xs' IHxs]; intros [ | y ys'];
        try (split; [discriminate | discriminate]).
      + split; reflexivity.
      + rewrite andb_true_iff, IH. split.
        * intros [-> Hgo]. apply IHxs in Hgo. injection Hgo as ->. reflexivity.
        * intros [= -> ->]. split; [reflexivity | ]. apply IHxs. reflexivity.
    - revert ys. induction xs as [ | [k x] xs' IHxs]; intros [ | [k' y] ys'];
        try (split; [discriminate | discriminate]).
      + split; reflexivity.
      + rewrite !andb_true_iff, bool_decide_eq_true, IH. split.
        * intros [[-> ->] Hgo]. apply IHxs in Hgo. injection Hgo as ->.
          reflexivity.
        * intros [= -> -> ->]. split; [split; reflexivity | ].
          apply IHxs. reflexivity. }
  intros a b. destruct (value_eqb a b) eqn:E.
  - left. apply Hspec. exact E.
  - right. intros Heq. apply Hspec in Heq. congruence.
Defined.

(** ** The calendar of BSON dates (UTC, proleptic Gregorian) *)

Definition ms_per_day : Z := 86400000.

Definition civil_from_days (z : Z) : Z * Z * Z :=
  let z := z + 719468 in
  let era := z / 146097 in
  let doe := z - era * 146097 in
  let yoe := (doe - doe / 1460 + doe / 36524 - doe / 146096) / 365 in
  let y := yoe + era * 400 in
  let doy := doe - (365 * yoe + yoe / 4 - yoe / 100) in
  let mp := (5 * doy + 2) / 153 in
  let d := doy - (153 * mp + 2) / 5 + 1 in
  let m := if mp <? 10 then mp + 3 else mp - 9 in
  (if m <=? 2 then y + 1 else y, m, d).

Definition days_from_civil (y m d : Z) : Z :=
  let y := if m <=? 2 then y - 1 else y in
  let era := y / 400 in
  let yoe := y - era * 400 in
  let doy := (153 * (if 2 <? m then m - 3 else m + 9) + 2) / 5 + d - 1 in
  let doe := yoe * 365 + yoe / 4 - yoe / 100 + doy in
  era * 146097 + doe - 719468.

(** [$year], [$month] and [$dayOfMonth] of a date. *)
Definition year_of (t : Z) : Z := (civil_from_days (t / ms_per_day)).1.1.
Definition month_of (t : Z) : Z := (civil_from_days (t / ms_per_day)).1.2.
Definition day_of_month (t : Z) : Z := (civil_from_days (t / ms_per_day)).2.

(** [datetime(y, m, d, hh, mm, ss)] as an instant. *)
Definition datetime (y m d hh mm ss : Z) : Z :=
  (days_from_civil y m d * 86400 + hh * 3600 + mm * 60 + ss) * 1000.

(** [timedelta(days=n)]. *)
Definition timedelta_days (n : Z) : Z := n * ms_per_day.

(** ** models.py: the pydantic models *)

Module Transaction.
Record t : Type := mk {
  id : option string;
  user_id : string;
  sms_message_id : option string;
  transaction_type : TransactionType;
  amount : Qc;
  currency : string;
  merchant : option string;
  category : option string;
  transaction_date : Z;
  reference_number : option string;
  account_number : option string;
  card_number : option string;
  payment_method : option PaymentMethod;
  remarks : option string;
  tags : list string;
  is_failed : bool;
  is_recurring : bool;
  created_at : Z;
  updated_at : Z
}.
End Transaction.

Module SMSMessage.
Record t : Type := mk {
  id : option string;
  user_id : string;
  sender : string;
  message_text : string;
  timestamp : Z;
  parsed : bool;
  created_at : Z;
  updated_at : Z
}.
End SMSMessage.

Module SMSRequest.
Record t : Type := mk {
  sender : string;
  message_text : string;
  timestamp : Z
}.
End SMSRequest.

Definition is_alnum (c : ascii) : bool :=
  let n := N_of_ascii c in
  ((48 <=? n) && (n <=? 57) || (65 <=? n) && (n <=? 90)
   || (97 <=? n) && (n <=? 122))%N.

(** [re.match(r'^[A-Za-z0-9]+$', s)]: [$] also matches before a final
    newline. *)
Fixpoint reference_number_re (s : string) : bool :=
  match s with
  | EmptyString => false
  | String c s' =>
      is_alnum c &&
      match s' with
      | EmptyString => true
      | String "010"%char EmptyString => true
      | _ => reference_number_re s'
      end
  end.

Section Models.
Context `{PyRuntime}.

(** The field validators of pydantic (version 1, as [@validator] shows). *)

Definition str_validator (v : value) : option string :=
  match v with
  | VStr s => Some s
  | VNum q => Some (str_of_float q)
  | VBool b => Some (if b then "True" else "False")
  | _ => None
  end.

Definition float_validator (v : value) : option Qc :=
  match py_float v with
  | Return q => Some q
  | Raise => None
  end.

Definition bool_validator (v : value) : option bool :=
  match v with
  | VBool b => Some b
  | VNum q =>
      if bool_decide (q = Q2Qc 0) then Some false
      else if bool_decide (q = Q2Qc 1) then Some true
      else None
  | VStr s =>
      let s := lower s in
      if bool_decide (s ∈ ["1"; "on"; "t"; "true"; "y"; "yes"]) then Some true
      else if bool_decide (s ∈ ["0"; "off"; "f"; "false"; "n"; "no"]) then Some false
      else None
  | _ => None
  end.

Definition datetime_validator (v : value) : option Z :=
  match v with
  | VDate t => Some t
  | _ => parse_datetime v
  end.

Definition list_str_validator (v : value) : option (list string) :=
  match v with
  | VList l => mapM str_validator l
  | _ => None
  end.

Definition TransactionType_validator (v : value) : option TransactionType :=
  match v with
  | VStr s => TransactionType_of_value s
  | _ => None
  end.

Definition PaymentMethod_validator (v : value) : option PaymentMethod :=
  match v with
  | VStr s => PaymentMethod_of_value s
  | _ => None
  end.

(** A required field. *)
Definition required {A} (validator : value -> option A) (o : option value)
  : option A :=
  o ≫= validator.

(** A field [Optional[A] = None]. *)
Definition optional {A} (validator : value -> option A) (o : option value)
  : option (option A) :=
  match o with
  | None | Some VNone => Some None
  | Some v => Some <$> validator v
  end.

(** A field [A = dflt]: absent it takes its default, present it is
    validated, and [None] is refused. *)
Definition with_default {A} (dflt : A) (validator : value -> option A)
    (o : option value) : option A :=
  match o with
  | None => Some dflt
  | Some v => validator v
  end.

(** [Transaction.validate_amount]. *)
Definition validate_amount (v : Qc) : option Qc :=
  if bool_decide (v <= Q2Qc 0)%Qc then None else Some v.

(** [Transaction.validate_reference_number]. *)
Definition validate_reference_number (v : option string) : option (option string) :=
  match v with
  | Some s =>
      if negb (bool_decide (s = "")) && negb (reference_number_re s)
      then None else Some v
  | None => Some None
  end.

(** The construction of a [Transaction] from the keyword arguments
    [data]; [None] is pydantic's [ValidationError].
    [now] fills [created_at] and [updated_at] when they are absent. *)
Definition Transaction_validate (now : Z) (data : gmap string value)
  : option Transaction.t :=
  id ← optional str_validator (data !! "id");
  user_id ← required str_validator (data !! "user_id");
  sms_message_id ← optional str_validator (data !! "sms_message_id");
  transaction_type ← required TransactionType_validator (data !! "transaction_type");
  amount ← required float_validator (data !! "amount") ≫= validate_amount;
  currency ← with_default "INR" str_validator (data !! "currency");
  merchant ← optional str_validator (data !! "merchant");
  category ← optional str_validator (data !! "category");
  transaction_date ← required datetime_validator (data !! "transaction_date");
  reference_number ←
    optional str_validator (data !! "reference_number") ≫= validate_reference_number;
  account_number ← optional str_validator (data !! "account_number");
  card_number ← optional str_validator (data !! "card_number");
  payment_method ← optional PaymentMethod_validator (data !! "payment_method");
  remarks ← optional str_validator (data !! "remarks");
  tags ← with_default [] list_str_validator (data !! "tags");
  is_failed ← with_default false bool_validator (data !! "is_failed");
  is_recurring ← with_default false bool_validator (data !! "is_recurring");
  created_at ← with_default now datetime_validator (data !! "created_at");
  updated_at ← with_default now datetime_validator (data !! "updated_at");
  Some (Transaction.mk id user_id sms_message_id transaction_type amount
          currency merchant category transaction_date reference_number
          account_number card_number payment_method remarks tags is_failed
          is_recurring created_at updated_at).

(** The construction of an [SMSMessage] from the keyword arguments [data]. *)
Definition SMSMessage_validate (now : Z) (data : gmap string value)
  : option SMSMessage.t :=
  id ← optional str_validator (data !! "id");
  user_id ← required str_validator (data !! "user_id");
  sender ← required str_validator (data !! "sender");
  message_text ← required str_validator (data !! "message_text");
  timestamp ← required datetime_validator (data !! "timestamp");
  parsed ← with_default false bool_validator (data !! "parsed");
  created_at ← with_default now datetime_validator (data !! "created_at");
  updated_at ← with_default now datetime_validator (data !! "updated_at");
  Some (SMSMessage.mk id user_id sender message_text timestamp parsed
          created_at updated_at).

End Models.

(** [transaction.dict()]. *)
Definition Transaction_dict (x : Transaction.t) : gmap string value :=
  list_to_map
    [ ("id", opt_value VStr (Transaction.id x));
      ("user_id", VStr (Transaction.user_id x));
      ("sms_message_id", opt_value VStr (Transaction.sms_message_id x));
      ("transaction_type", VType (Transaction.transaction_type x));
      ("amount", VNum (Transaction.amount x));
      ("currency", VStr (Transaction.currency x));
      ("merchant", opt_value VStr (Transaction.merchant x));
      ("category", opt_value VStr (Transaction.category x));
      ("transaction_date", VDate (Transaction.transaction_date x));
      ("reference_number", opt_value VStr (Transaction.reference_number x));
      ("account_number", opt_value VStr (Transaction.account_number x));
      ("card_number", opt_value VStr (Transaction.card_number x));
      ("payment_method", opt_value VMethod (Transaction.payment_method x));
      ("remarks", opt_value VStr (Transaction.remarks x));
      ("tags", VList (VStr <$> Transaction.tags x));
      ("is_failed", VBool (Transaction.is_failed x));
      ("is_recurring", VBool (Transaction.is_recurring x));
      ("created_at", VDate (Transaction.created_at x));
      ("updated_at", VDate (Transaction.updated_at x)) ].

(** [sms_message.dict()]. *)
Definition SMSMessage_dict (x : SMSMessage.t) : gmap string value :=
  list_to_map
    [ ("id", opt_value VStr (SMSMessage.id x));
      ("user_id", VStr (SMSMessage.user_id x));
      ("sender", VStr (SMSMessage.sender x));
      ("message_text", VStr (SMSMessage.message_text x));
      ("timestamp", VDate (SMSMessage.timestamp x));
      ("parsed", VBool (SMSMessage.parsed x));
      ("created_at", VDate (SMSMessage.created_at x));
      ("updated_at", VDate (SMSMessage.updated_at x)) ].

Definition Transaction_with_id (i : string) (x : Transaction.t) : Transaction.t :=
  Transaction.mk (Some i) (Transaction.user_id x) (Transaction.sms_message_id x)
    (Transaction.transaction_type x) (Transaction.amount x)
    (Transaction.currency x) (Transaction.merchant x) (Transaction.category x)
    (Transaction.transaction_date x) (Transaction.reference_number x)
    (Transaction.account_number x) (Transaction.card_number x)
    (Transaction.payment_method x) (Transaction.remarks x) (Transaction.tags x)
    (Transaction.is_failed x) (Transaction.is_recurring x)
    (Transaction.created_at x) (Transaction.updated_at x).

Definition SMSMessage_with_id (i : string) (x : SMSMessage.t) : SMSMessage.t :=
  SMSMessage.mk (Some i) (SMSMessage.user_id x) (SMSMessage.sender x)
    (SMSMessage.message_text x) (SMSMessage.timestamp x) (SMSMessage.parsed x)
    (SMSMessage.created_at x) (SMSMessage.updated_at x).

(** ** database.py: collections

    An [ObjectId] and its [str] are identified: [_id] is a string, and a
    string that names no document selects nothing. Field names of a
    document are top-level names. *)

Record collection : Type := {
  docs : list (string * gmap string value);
  next_id : N
}.

Definition empty_collection : collection := {| docs := []; next_id := 0%N |}.

(** [insert_one(d)]: the new document gets an [_id] never seen before. *)
Definition insert_one (c : collection) (d : gmap string value)
  : collection * string :=
  let inserted_id := pretty (next_id c) in
  ({| docs := (docs c ++ [(inserted_id, d)])%list; next_id := N.succ (next_id c) |},
   inserted_id).

(** [find(q)], in insertion order. *)
Definition find (c : collection) (q : string * gmap string value -> bool)
  : list (string * gmap string value) :=
  List.filter q (docs c).

(** [find_one(q)]. *)
Definition find_one (c : collection) (q : string * gmap string value -> bool)
  : option (string * gmap string value) :=
  List.find q (docs c).

(** [{"$set": upd}] applied to one document. *)
Definition set_fields (upd d : gmap string value) : gmap string value :=
  upd ∪ d.

Fixpoint update_first (q : string * gmap string value -> bool)
    (upd : gmap string value) (l : list (string * gmap string value))
  : list (string * gmap string value) * nat :=
  match l with
  | [] => ([], 0%nat)
  | (i, d) :: l' =>
      if q (i, d)
      then ((i, set_fields upd d) :: l',
            if bool_decide (set_fields upd d = d) then 0%nat else 1%nat)
      else let '(l'', n) := update_first q upd l' in ((i, d) :: l'', n)
  end.

(** [update_one(q, {"$set": upd})]: the first match is written; the
    second component is [modified_count]. *)
Definition update_one (c : collection) (q : string * gmap string value -> bool)
    (upd : gmap string value) : collection * nat :=
  let '(l, n) := update_first q upd (docs c) in
  ({| docs := l; next_id := next_id c |}, n).

(** The query [{"_id": i, "user_id": u}]. *)
Definition by_id_and_user (i u : string) (x : string * gmap string value) : bool :=
  bool_decide (x.1 = i) && bool_decide (x.2 !! "user_id" = Some (VStr u)).

(** The query [{"_id": i}]. *)
Definition by_id (i : string) (x : string * gmap string value) : bool :=
  bool_decide (x.1 = i).

(** A date field as a sort key: a value that is not a date sorts below
    every date. *)
Definition date_rank (o : option value) : option Z :=
  match o with
  | Some (VDate t) => Some t
  | _ => None
  end.

Definition rank_le (a b : option Z) : Prop :=
  match a, b with
  | None, _ => True
  | Some _, None => False
  | Some x, Some y => x <= y
  end.

#[global] Instance rank_le_dec a b : Decision (rank_le a b).
Proof. destruct a, b; simpl; apply _. Defined.

(** [.sort(field, -1)]. *)
Definition sort_desc (field : string) (l : list (string * gmap string value))
  : list (string * gmap string value) :=
  merge_sort (fun x y => rank_le (date_rank (y.2 !! field)) (date_rank (x.2 !! field))) l.

(** ** transaction_service.py: create, read, update *)

Definition category_mapping : list (string * list string) :=
  [ ("grocery", ["grocery"; "supermarket"; "food"; "restaurant"; "cafe";
                 "swiggy"; "zomato"; "blinkit"; "bigbasket"]);
    ("transport", ["uber"; "ola"; "metro"; "bus"; "train"; "fuel"; "petrol";
                   "diesel"]);
    ("shopping", ["amazon"; "flipkart"; "myntra"; "shopping"; "mall"; "store"]);
    ("entertainment", ["netflix"; "prime"; "hotstar"; "movie"; "cinema";
                       "theatre"]);
    ("utilities", ["electricity"; "water"; "gas"; "internet"; "mobile";
                   "airtel"; "jio"]);
    ("healthcare", ["hospital"; "clinic"; "pharmacy"; "medical"; "doctor"]);
    ("education", ["school"; "college"; "university"; "course"; "training"]);
    ("travel", ["hotel"; "flight"; "booking"; "travel"; "tourism"]) ].

Section TransactionService.
Context `{PyRuntime}.

Definition get_transaction (now : Z) (c : collection)
    (user_id transaction_id : string) : option Transaction.t :=
  match find_one c (by_id_and_user transaction_id user_id) with
  | Some (i, result) => Transaction_validate now (<["id" := VStr i]> result)
  | None => None
  end.

(** [update_transaction]. The store refuses a write to [_id]; the
    [except] then returns [None]. *)
Definition update_transaction (now : Z) (c : collection)
    (user_id transaction_id : string) (update_data : gmap string value)
  : collection * option Transaction.t :=
  let update_data := filter (fun kv => kv.2 ≠ VNone) update_data in
  let update_data := <["updated_at" := VDate now]> update_data in
  if bool_decide (is_Some (update_data !! "_id")) then (c, None)
  else
    let '(c', modified_count) :=
      update_one c (by_id_and_user transaction_id user_id) update_data in
    if (0 <? modified_count)%nat
    then (c', get_transaction now c' user_id transaction_id)
    else (c', None).

Definition _auto_categorize_transaction (now : Z) (c : collection)
    (transaction : Transaction.t) : collection :=
  match Transaction.merchant transaction with
  | None => c
  | Some merchant =>
      if bool_decide (merchant = "")
         || truthy (opt_value VStr (Transaction.category transaction))
      then c
      else
        let merchant_lower := lower merchant in
        match List.find
                (fun '(category, keywords) =>
                   existsb (fun keyword => contains keyword merchant_lower) keywords)
                category_mapping with
        | Some (category, _) =>
            match Transaction.id transaction with
            | Some i =>
                (update_transaction now c (Transaction.user_id transaction) i
                   {[ "category" := VStr category ]}).1
            | None => c
            end
        | None => c
        end
  end.

Definition create_transaction (now : Z) (c : collection) (user_id : string)
    (transaction_data : gmap string value) : collection * option Transaction.t :=
  let transaction_data := <["user_id" := VStr user_id]> transaction_data in
  match Transaction_validate now transaction_data with
  | None => (c, None)
  | Some transaction =>
      let '(c, inserted_id) := insert_one c (Transaction_dict transaction) in
      let transaction := Transaction_with_id inserted_id transaction in
      let c := _auto_categorize_transaction now c transaction in
      (c, Some transaction)
  end.

End TransactionService.

(** ** sms_service.py and the SMS router *)

Record world : Type := {
  sms_messages : collection;
  transactions : collection
}.

Definition empty_world : world :=
  {| sms_messages := empty_collection; transactions := empty_collection |}.

(** The query [{"user_id": u, "parsed": False}]. *)
Definition unparsed_of (u : string) (x : string * gmap string value) : bool :=
  bool_decide (x.2 !! "user_id" = Some (VStr u))
  && bool_decide (x.2 !! "parsed" = Some (VBool false)).

Section SmsService.
Context `{PyRuntime}.

Definition save_sms (now : Z) (c : collection) (user_id : string)
    (sms_data : SMSRequest.t) : collection * option SMSMessage.t :=
  let sms_message :=
    SMSMessage.mk None user_id (SMSRequest.sender sms_data)
      (SMSRequest.message_text sms_data) (SMSRequest.timestamp sms_data)
      false now now in
  let '(c, inserted_id) := insert_one c (SMSMessage_dict sms_message) in
  (c, Some (SMSMessage_with_id inserted_id sms_message)).

(** With no [sms_id], [ObjectId(None)] is a new identifier and selects
    nothing. *)
Definition mark_sms_as_parsed (now : Z) (c : collection) (sms_id : option string)
  : collection * bool :=
  match sms_id with
  | Some i =>
      let '(c, modified_count) :=
        update_one c (by_id i)
          (list_to_map [("parsed", VBool true); ("updated_at", VDate now)]) in
      (c, (0 <? modified_count)%nat)
  | None => (c, false)
  end.

Definition process_sms_for_transactions (now : Z) (w : world) (user_id : string)
    (sms_message : SMSMessage.t) (reply : gemini_reply)
  : world * option (gmap string value) :=
  match process_sms_intelligently now reply with
  | None => (w, None)
  | Some parsed_data =>
      let transaction_data :=
        parsed_data ∪
        list_to_map [ ("user_id", VStr user_id);
                      ("sms_message_id", opt_value VStr (SMSMessage.id sms_message)) ] in
      let '(txs, created) :=
        create_transaction now (transactions w) user_id transaction_data in
      match created with
      | Some transaction =>
          let '(sms, _) :=
            mark_sms_as_parsed now (sms_messages w) (SMSMessage.id sms_message) in
          ({| sms_messages := sms; transactions := txs |},
           Some (list_to_map
             [ ("sms_id", opt_value VStr (SMSMessage.id sms_message));
               ("transaction_id", opt_value VStr (Transaction.id transaction));
               ("transaction_type", VType (Transaction.transaction_type transaction));
               ("amount", VNum (Transaction.amount transaction));
               ("merchant", opt_value VStr (Transaction.merchant transaction));
               ("detection_confidence", get parsed_data "detection_confidence" VNone);
               ("detection_reason", get parsed_data "detection_reason" VNone) ]))
      | None => ({| sms_messages := sms_messages w; transactions := txs |}, None)
      end
  end.

Definition get_unparsed_sms_messages (now : Z) (c : collection) (user_id : string)
  : list SMSMessage.t :=
  let cursor := sort_desc "timestamp" (find c (unparsed_of user_id)) in
  default []
    (mapM (fun '(i, doc) => SMSMessage_validate now (<["id" := VStr i]> doc)) cursor).

(** [replies] is what the classifier answers, in this run, for each of
    the messages it is asked about. *)
Definition reprocess_unparsed_sms (now : Z) (w : world) (user_id : string)
    (replies : SMSMessage.t -> gemini_reply)
  : world * list (gmap string value) :=
  let unparsed_sms := get_unparsed_sms_messages now (sms_messages w) user_id in
  foldl
    (fun '(w, processed_results) sms =>
       let '(w, result) :=
         process_sms_for_transactions now w user_id sms (replies sms) in
       match result with
       | Some r => (w, (processed_results ++ [r])%list)
       | None => (w, processed_results)
       end)
    (w, []) unparsed_sms.

(** The route [POST /sms/]: save the message, then process it. *)
Definition receive_sms (now : Z) (w : world) (user_id : string)
    (sms_data : SMSRequest.t) (reply : gemini_reply)
  : world * option (gmap string value) :=
  match save_sms now (sms_messages w) user_id sms_data with
  | (sms, Some sms_message) =>
      process_sms_for_transactions now
        {| sms_messages := sms; transactions := transactions w |}
        user_id sms_message reply
  | (sms, None) => ({| sms_messages := sms; transactions := transactions w |}, None)
  end.

End SmsService.

(** ** backup_service.py *)

(** An entry of [errors]: the message
    ["Failed to create transaction: {amount} - {merchant}"]. *)
Inductive backup_error : Type :=
| FailedToCreate (amount merchant : value).

Record backup_result : Type := {
  success : bool;
  transactions_found : nat;
  transactions_created : nat;
  (** [None] where the dict returned has no such key *)
  created_transactions : option (list Transaction.t);
  errors : list backup_error
}.

Section BackupService.
Context `{PyRuntime}.

(** The loop over [transactions_data]. *)
Fixpoint create_all (now : Z) (c : collection) (user_id : string)
    (transactions_data : list (gmap string value))
  : collection * list Transaction.t * list backup_error :=
  match transactions_data with
  | [] => (c, [], [])
  | tx_data :: rest =>
      let tx_data := <["user_id" := VStr user_id]> tx_data in
      let '(c, created) := create_transaction now c user_id tx_data in
      let '(c, created_transactions, errors) := create_all now c user_id rest in
      match created with
      | Some transaction => (c, transaction :: created_transactions, errors)
      | None =>
          (c, created_transactions,
           FailedToCreate (get tx_data "amount" (VStr "Unknown"))
                          (get tx_data "merchant" (VStr "Unknown")) :: errors)
      end
  end.

(** [process_backup_file], from the decoded file content on: [reply] is
    the answer of the classifier to the prompt built from it. *)
Definition process_backup_file (now : Z) (c : collection) (user_id : string)
    (reply : gemini_reply) : collection * backup_result :=
  let transactions_data := parse_backup_file_with_gemini now reply in
  match transactions_data with
  | [] =>
      (c, {| success := true; transactions_found := 0; transactions_created := 0;
             created_transactions := None; errors := [] |})
  | _ =>
      let '(c, created, errors) := create_all now c user_id transactions_data in
      (c, {| success := true;
             transactions_found := length transactions_data;
             transactions_created := length created;
             created_transactions := Some created;
             errors := errors |})
  end.

End BackupService.

(** ** transaction_service.py: listing *)

Module TransactionFilter.
Record t : Type := mk {
  start_date : option Z;
  end_date : option Z;
  min_amount : option Qc;
  max_amount : option Qc;
  transaction_type : option TransactionType;
  merchant : option string;
  category : option string;
  payment_method : option PaymentMethod;
  is_failed : option bool;
  tags : option (list string);
  limit : Z;
  offset : Z
}.
End TransactionFilter.

(** The query document that [get_transactions] builds, one field for
    each constraint it can hold. *)
Record query : Type := {
  q_user_id : string;
  q_date_gte : option Z;
  q_date_lte : option Z;
  q_amount_gte : option Qc;
  q_amount_lte : option Qc;
  q_transaction_type : option TransactionType;
  q_merchant_regex : option string;
  q_category : option string;
  q_payment_method : option PaymentMethod;
  q_is_failed : option bool;
  q_tags_in : option (list string)
}.

(** [if x:] on an optional number, string or list. *)
Definition truthy_num (o : option Qc) : option Qc :=
  match o with
  | Some q => if bool_decide (q = Q2Qc 0) then None else Some q
  | None => None
  end.

Definition truthy_str (o : option string) : option string :=
  match o with
  | Some s => if bool_decide (s = "") then None else Some s
  | None => None
  end.

Definition truthy_list {A} (o : option (list A)) : option (list A) :=
  match o with
  | Some [] => None
  | _ => o
  end.

Definition build_query (user_id : string) (filters : TransactionFilter.t) : query :=
  {| q_user_id := user_id;
     q_date_gte := TransactionFilter.start_date filters;
     q_date_lte := TransactionFilter.end_date filters;
     q_amount_gte := truthy_num (TransactionFilter.min_amount filters);
     q_amount_lte := truthy_num (TransactionFilter.max_amount filters);
     q_transaction_type := TransactionFilter.transaction_type filters;
     q_merchant_regex := truthy_str (TransactionFilter.merchant filters);
     q_category := truthy_str (TransactionFilter.category filters);
     q_payment_method := TransactionFilter.payment_method filters;
     q_is_failed := TransactionFilter.is_failed filters;
     q_tags_in := truthy_list (TransactionFilter.tags filters) |}.

(** A range constraint [{"$gte": lo, "$lte": hi}] on a date field. *)
Definition date_in_range (lo hi : option Z) (o : option value) : bool :=
  match lo, hi with
  | None, None => true
  | _, _ =>
      match o with
      | Some (VDate t) =>
          from_option (fun l => bool_decide (l <= t)) true lo
          && from_option (fun h => bool_decide (t <= h)) true hi
      | _ => false
      end
  end.

Definition amount_in_range (lo hi : option Qc) (o : option value) : bool :=
  match lo, hi with
  | None, None => true
  | _, _ =>
      match o with
      | Some (VNum a) =>
          from_option (fun l => bool_decide (l <= a)%Qc) true lo
          && from_option (fun h => bool_decide (a <= h)%Qc) true hi
      | _ => false
      end
  end.

(** An equality constraint, absent when [want] is [None]. *)
Definition field_is (want : option value) (o : option value) : bool :=
  match want with
  | None => true
  | Some v => bool_decide (o = Some v)
  end.

(** [{"tags": {"$in": l}}]. *)
Definition tags_in (want : option (list string)) (o : option value) : bool :=
  match want with
  | None => true
  | Some l =>
      match o with
      | Some (VList xs) => existsb (fun x => bool_decide (x ∈ VStr <$> l)) xs
      | Some v => bool_decide (v ∈ VStr <$> l)
      | None => false
      end
  end.

Section Listing.
Context `{PyRuntime}.

(** The predicate a query denotes; [None] when the store refuses the
    regular expression. *)
Definition query_matches (q : query)
  : option (string * gmap string value -> bool) :=
  let base (re : string -> bool) (x : string * gmap string value) : bool :=
    let d := x.2 in
    bool_decide (d !! "user_id" = Some (VStr (q_user_id q)))
    && date_in_range (q_date_gte q) (q_date_lte q) (d !! "transaction_date")
    && amount_in_range (q_amount_gte q) (q_amount_lte q) (d !! "amount")
    && field_is (VType <$> q_transaction_type q) (d !! "transaction_type")
    && match d !! "merchant" with
       | Some (VStr m) => re m
       | _ => negb (bool_decide (is_Some (q_merchant_regex q)))
       end
    && field_is (VStr <$> q_category q) (d !! "category")
    && field_is (VMethod <$> q_payment_method q) (d !! "payment_method")
    && field_is (VBool <$> q_is_failed q) (d !! "is_failed")
    && tags_in (q_tags_in q) (d !! "tags") in
  match q_merchant_regex q with
  | None => Some (base (fun _ => true))
  | Some pattern => base <$> regex_search_i pattern
  end.

(** [.skip(offset).limit(limit)]: a limit of 0 is no limit, a negative
    one counts as its absolute value, a negative offset is refused. *)
Definition skip_limit {A} (offset limit : Z) (l : list A) : option (list A) :=
  if offset <? 0 then None
  else
    let l := drop (Z.to_nat offset) l in
    Some (if limit =? 0 then l else take (Z.to_nat (Z.abs limit)) l).

Definition get_transactions (now : Z) (c : collection) (user_id : string)
    (filters : TransactionFilter.t) : list Transaction.t :=
  default []
    (q ← query_matches (build_query user_id filters);
     cursor ← skip_limit (TransactionFilter.offset filters)
                (TransactionFilter.limit filters)
                (sort_desc "transaction_date" (find c q));
     mapM (fun '(i, doc) => Transaction_validate now (<["id" := VStr i]> doc)) cursor).

End Listing.

(** ** transaction_service.py: aggregation pipelines *)

(** [$group]: one group for each key, in the order the keys first occur,
    holding the members in input order. *)
Definition group_by {K A : Type} `{EqDecision K} (key : A -> K) (l : list A)
  : list (K * list A) :=
  (fun k => (k, filter (fun a => key a = k) l)) <$> remove_dups (key <$> l).

Definition Qc_of_nat (n : nat) : Qc := Q2Qc (inject_Z (Z.of_nat n)).
Definition Qc_of_Z (z : Z) : Qc := Q2Qc (inject_Z z).

(** The numeric [amount]s of some documents; [$sum] and [$avg] skip a
    value that is not a number. *)
Definition amounts (l : list (string * gmap string value)) : list Qc :=
  omap (fun x => match x.2 !! "amount" with Some (VNum a) => Some a | _ => None end) l.

Definition Qc_sum (l : list Qc) : Qc := foldr Qcplus (Q2Qc 0) l.

(** [$avg]: null when there is nothing to average. *)
Definition Qc_avg (l : list Qc) : option Qc :=
  match l with
  | [] => None
  | _ => Some (Qc_sum l / Qc_of_nat (length l))%Qc
  end.

(** The boolean that [$cond] reads in a field. *)
Definition mongo_truthy (o : option value) : bool :=
  match o with
  | None | Some VNone | Some (VBool false) => false
  | Some (VNum q) => negb (bool_decide (q = Q2Qc 0))
  | Some _ => true
  end.

(** *** Recurrence detection *)

Module RecurringGroup.
Record t : Type := mk {
  merchant : value;
  amount : value;
  day_of_month : Z;
  frequency : nat;
  (** [id], [transaction_date] and [amount] of each member *)
  transactions : list (string * Z * option value)
}.
End RecurringGroup.

(** The [$match] stage of the recurrence pipeline. *)
Definition recurring_match (user_id : string) (six_months_ago : Z)
    (x : string * gmap string value) : bool :=
  bool_decide (x.2 !! "user_id" = Some (VStr user_id))
  && match x.2 !! "transaction_date" with
     | Some (VDate t) => bool_decide (six_months_ago <= t)
     | _ => false
     end
  && match x.2 !! "merchant" with
     | Some v => negb (is_None v)
     | None => false
     end.

(** The [_id] of the [$group] stage: merchant, amount (absent when the
    document has none) and day of the month. *)
Definition recurring_key (x : string * gmap string value)
  : value * option value * Z :=
  (default VNone (x.2 !! "merchant"),
   x.2 !! "amount",
   match x.2 !! "transaction_date" with
   | Some (VDate t) => day_of_month t
   | _ => 0
   end).

Definition recurring_member (x : string * gmap string value)
  : string * Z * option value :=
  (x.1,
   match x.2 !! "transaction_date" with Some (VDate t) => t | _ => 0 end,
   x.2 !! "amount").

(** The order of [{"$sort": {"count": -1}}]. *)
Definition count_desc {K A : Type} (g1 g2 : K * list A) : Prop :=
  (length g2.2 <= length g1.2)%nat.

#[global] Instance count_desc_dec {K A} (g1 g2 : K * list A)
  : Decision (count_desc g1 g2).
Proof. unfold count_desc. apply _. Defined.

(** The whole pipeline: [$match], [$group] with its [$push] of [id],
    [transaction_date] and [amount] of every member, [$match] on the
    count, [$sort] by descending count. *)
Definition recurring_pipeline (user_id : string) (six_months_ago : Z)
    (c : collection)
  : list ((value * option value * Z) * list (string * Z * option value)) :=
  merge_sort count_desc
    (List.filter (fun g => (2 <=? length g.2)%nat)
       ((fun g : (value * option value * Z) * list (string * gmap string value) =>
           (g.1, recurring_member <$> g.2))
          <$> group_by recurring_key
                (find c (recurring_match user_id six_months_ago)))).

Section Recurring.
Context `{PyRuntime}.

(** The inner loop: mark every member of one group. *)
Definition mark_recurring (stamp : Z) (c : collection) (user_id : string)
    (members : list (string * Z * option value)) : collection :=
  foldl
    (fun c tx =>
       (update_transaction stamp c user_id tx.1.1
          {[ "is_recurring" := VBool true ]}).1)
    c members.

(** The outer loop. Reading [amount] in an [_id] that has none raises
    [KeyError], after the members of that group have been marked. *)
Fixpoint recurring_loop (stamp : Z) (c : collection) (user_id : string)
    (results : list ((value * option value * Z) * list (string * Z * option value)))
  : collection * py (list RecurringGroup.t) :=
  match results with
  | [] => (c, Return [])
  | result :: rest =>
      if (2 <=? length result.2)%nat
      then
        let c := mark_recurring stamp c user_id result.2 in
        match result.1.1.2 with
        | None => (c, Raise)
        | Some amount =>
            let group :=
              RecurringGroup.mk result.1.1.1 amount result.1.2
                (length result.2) result.2 in
            let '(c, recurring_transactions) :=
              recurring_loop stamp c user_id rest in
            (c, l <- recurring_transactions ;; Return (group :: l))
        end
      else recurring_loop stamp c user_id rest
  end.

(** [detect_recurring_transactions]. [now] is the clock when the window
    is computed, [stamp] the clock when the members are updated. *)
Definition detect_recurring_transactions (now stamp : Z) (c : collection)
    (user_id : string) : collection * list RecurringGroup.t :=
  let six_months_ago := now - timedelta_days 180 in
  let results := recurring_pipeline user_id six_months_ago c in
  let '(c, recurring_transactions) := recurring_loop stamp c user_id results in
  (c, except recurring_transactions []).

End Recurring.

(** *** Analytics *)

Module AnalyticsResponse.
Record t : Type := mk {
  total_transactions : nat;
  total_amount : Qc;
  average_amount : Qc;
  transaction_count_by_type : gmap string nat;
  amount_by_type : gmap string Qc;
  top_merchants : list (gmap string value);
  top_categories : list (gmap string value);
  monthly_trends : list (gmap string value);
  failed_transactions : nat;
  recurring_transactions : nat
}.
End AnalyticsResponse.

(** The response of both the empty case and the [except] branch. *)
Definition zero_analytics : AnalyticsResponse.t :=
  AnalyticsResponse.mk 0 (Q2Qc 0) (Q2Qc 0) ∅ ∅ [] [] [] 0 0.

(** The query [{"user_id": u, "transaction_date": date_filter}]; the
    date constraint is left out when [date_filter] is empty. *)
Definition analytics_match (user_id : string) (start_date end_date : option Z)
    (x : string * gmap string value) : bool :=
  bool_decide (x.2 !! "user_id" = Some (VStr user_id))
  && date_in_range start_date end_date (x.2 !! "transaction_date").

(** A [$group] by one field with [count] and [amount] accumulators; a
    document without the field falls in the group of null. *)
Definition group_totals (field : string) (l : list (string * gmap string value))
  : list (value * nat * Qc) :=
  (fun g => (g.1, length g.2, Qc_sum (amounts g.2)))
    <$> group_by (fun x => default VNone (x.2 !! field)) l.

(** The order of [{"$sort": {"amount": -1}}]. *)
Definition amount_desc (a b : value * nat * Qc) : Prop := (b.2 <= a.2)%Qc.

#[global] Instance amount_desc_dec a b : Decision (amount_desc a b).
Proof. unfold amount_desc. apply _. Defined.

(** [$group], [$sort] by descending amount, [$limit] 10, then the
    comprehension that keeps the items with a truthy [_id]. *)
Definition top_by (field label : string) (l : list (string * gmap string value))
  : list (gmap string value) :=
  (fun item : value * nat * Qc =>
     list_to_map [ (label, item.1.1);
                   ("count", VNum (Qc_of_nat item.1.2));
                   ("amount", VNum item.2) ])
    <$> List.filter (fun item : value * nat * Qc => truthy item.1.1)
          (take 10 (merge_sort amount_desc (group_totals field l))).

(** [$year] and [$month]: null on a missing or null date, an error on
    any other value that is not a date. *)
Definition year_month (o : option value) : py (option (Z * Z)) :=
  match o with
  | Some (VDate t) => Return (Some (year_of t, month_of t))
  | None | Some VNone => Return None
  | Some _ => Raise
  end.

Fixpoint year_months (l : list (string * gmap string value))
  : py (list (option (Z * Z) * (string * gmap string value))) :=
  match l with
  | [] => Return []
  | x :: l' =>
      ym <- year_month (x.2 !! "transaction_date") ;;
      rest <- year_months l' ;;
      Return ((ym, x) :: rest)
  end.

(** The order of [{"$sort": {"_id.year": 1, "_id.month": 1}}]. *)
Definition month_asc {A} (a b : option (Z * Z) * A) : Prop :=
  match a.1, b.1 with
  | None, _ => True
  | Some _, None => False
  | Some (y1, m1), Some (y2, m2) => y1 < y2 \/ (y1 = y2 /\ m1 <= m2)
  end.

#[global] Instance month_asc_dec {A} (a b : option (Z * Z) * A)
  : Decision (month_asc a b).
Proof.
  unfold month_asc. destruct a.1 as [[? ?] | ], b.1 as [[? ?] | ]; apply _.
Defined.

Definition opt_num (o : option Z) : value :=
  match o with
  | Some z => VNum (Qc_of_Z z)
  | None => VNone
  end.

Definition monthly (l : list (string * gmap string value))
  : py (list (gmap string value)) :=
  tagged <- year_months l ;;
  Return
    ((fun g : option (Z * Z) * list (option (Z * Z) * (string * gmap string value)) =>
        list_to_map [ ("year", opt_num (fst <$> g.1));
                      ("month", opt_num (snd <$> g.1));
                      ("count", VNum (Qc_of_nat (length g.2)));
                      ("amount", VNum (Qc_sum (amounts (snd <$> g.2)))) ])
       <$> merge_sort month_asc (group_by fst tagged)).

Section Analytics.
Context `{PyRuntime}.

(** The two dict comprehensions over the groups by type, as the response
    model takes them: every key has to validate as a [str]. *)
Fixpoint by_type {A} (pick : value * nat * Qc -> A)
    (type_results : list (value * nat * Qc)) : py (gmap string A) :=
  match type_results with
  | [] => Return ∅
  | item :: rest =>
      k <- of_option (str_validator item.1.1) ;;
      m <- by_type pick rest ;;
      Return (<[k := pick item]> m)
  end.

Definition get_analytics (c : collection) (user_id : string)
    (start_date end_date : option Z) : AnalyticsResponse.t :=
  let matched := find c (analytics_match user_id start_date end_date) in
  match matched with
  | [] => zero_analytics
  | _ =>
      except
        (average_amount <- of_option (Qc_avg (amounts matched)) ;;
         let type_results := group_totals "transaction_type" matched in
         transaction_count_by_type <-
           by_type (fun item => item.1.2) (reverse type_results) ;;
         amount_by_type <- by_type (fun item => item.2) (reverse type_results) ;;
         monthly_trends <- monthly matched ;;
         Return
           (AnalyticsResponse.mk
              (length matched)
              (Qc_sum (amounts matched))
              average_amount
              transaction_count_by_type
              amount_by_type
              (top_by "merchant" "merchant" matched)
              (top_by "category" "category" matched)
              monthly_trends
              (length (List.filter (fun x => mongo_truthy (x.2 !! "is_failed")) matched))
              (length (List.filter (fun x => mongo_truthy (x.2 !! "is_recurring")) matched))))
        zero_analytics
  end.

End Analytics.

(** ** transaction_service.py and sms_service.py: the other operations *)

Fixpoint delete_first (q : string * gmap string value -> bool)
    (l : list (string * gmap string value))
  : list (string * gmap string value) * nat :=
  match l with
  | [] => ([], 0%nat)
  | x :: l' =>
      if q x then (l', 1%nat)
      else let '(l'', n) := delete_first q l' in (x :: l'', n)
  end.

(** [delete_one(q)]: the first match is removed; the second component
    is [deleted_count]. *)
Definition delete_one (c : collection) (q : string * gmap string value -> bool)
  : collection * nat :=
  let '(l, n) := delete_first q (docs c) in
  ({| docs := l; next_id := next_id c |}, n).

Definition delete_transaction (c : collection) (user_id transaction_id : string)
  : collection * bool :=
  let '(c, deleted_count) :=
    delete_one c (by_id_and_user transaction_id user_id) in
  (c, (0 <? deleted_count)%nat).

Definition delete_sms_message (c : collection) (user_id sms_id : string)
  : collection * bool :=
  let '(c, deleted_count) := delete_one c (by_id_and_user sms_id user_id) in
  (c, (0 <? deleted_count)%nat).

(** The query [{"user_id": u}]. *)
Definition by_user (u : string) (x : string * gmap string value) : bool :=
  bool_decide (x.2 !! "user_id" = Some (VStr u)).

(** The query [{"user_id": u, "parsed": True}]. *)
Definition parsed_of (u : string) (x : string * gmap string value) : bool :=
  bool_decide (x.2 !! "user_id" = Some (VStr u))
  && bool_decide (x.2 !! "parsed" = Some (VBool true)).

Record sms_statistics : Type := {
  total_sms : nat;
  parsed_sms : nat;
  unparsed_sms : nat;
  parsing_rate : Qc;
  top_senders : list (value * nat)
}.

(** [get_sms_statistics]: three [count_documents] and the pipeline that
    groups by sender, sorts by descending count and keeps ten. *)
Definition get_sms_statistics (c : collection) (user_id : string) : sms_statistics :=
  let total_sms := length (find c (by_user user_id)) in
  let parsed_sms := length (find c (parsed_of user_id)) in
  let unparsed_sms := length (find c (unparsed_of user_id)) in
  let sender_stats :=
    take 10
      (merge_sort count_desc
         (group_by (fun x : string * gmap string value => default VNone (x.2 !! "sender"))
            (find c (by_user user_id)))) in
  {| total_sms := total_sms;
     parsed_sms := parsed_sms;
     unparsed_sms := unparsed_sms;
     parsing_rate :=
       if (0 <? total_sms)%nat
       then (Qc_of_nat parsed_sms / Qc_of_nat total_sms * Qc_of_Z 100)%Qc
       else Q2Qc 0;
     top_senders := (fun g => (g.1, length g.2)) <$> sender_stats |}.

Section SmsReading.
Context `{PyRuntime}.

Definition get_sms_message (now : Z) (c : collection) (user_id sms_id : string)
  : option SMSMessage.t :=
  match find_one c (by_id_and_user sms_id user_id) with
  | Some (i, result) => SMSMessage_validate now (<["id" := VStr i]> result)
  | None => None
  end.

Definition get_sms_messages (now : Z) (c : collection) (user_id : string)
    (limit offset : Z) : list SMSMessage.t :=
  default []
    (cursor ← skip_limit offset limit (sort_desc "timestamp" (find c (by_user user_id)));
     mapM (fun '(i, doc) => SMSMessage_validate now (<["id" := VStr i]> doc)) cursor).

End SmsReading.

(** ** routers/transactions.py: the bodies of the requests *)

Module TransactionCreate.
Record t : Type := mk {
  transaction_type : TransactionType;
  amount : Qc;
  currency : string;
  merchant : option string;
  category : option string;
  transaction_date : Z;
  reference_number : option string;
  account_number : option string;
  card_number : option string;
  payment_method : option PaymentMethod;
  remarks : option string;
  tags : list string
}.
End TransactionCreate.

(** In a [TransactionUpdate] a field may be left unset, which is the
    outer [None]; [tags] cannot be null. *)
Module TransactionUpdate.
Record t : Type := mk {
  merchant : option (option string);
  category : option (option string);
  remarks : option (option string);
  tags : option (list string)
}.
End TransactionUpdate.

(** [transaction_data.dict()]. *)
Definition TransactionCreate_dict (x : TransactionCreate.t) : gmap string value :=
  list_to_map
    [ ("transaction_type", VType (TransactionCreate.transaction_type x));
      ("amount", VNum (TransactionCreate.amount x));
      ("currency", VStr (TransactionCreate.currency x));
      ("merchant", opt_value VStr (TransactionCreate.merchant x));
      ("category", opt_value VStr (TransactionCreate.category x));
      ("transaction_date", VDate (TransactionCreate.transaction_date x));
      ("reference_number", opt_value VStr (TransactionCreate.reference_number x));
      ("account_number", opt_value VStr (TransactionCreate.account_number x));
      ("card_number", opt_value VStr (TransactionCreate.card_number x));
      ("payment_method", opt_value VMethod (TransactionCreate.payment_method x));
      ("remarks", opt_value VStr (TransactionCreate.remarks x));
      ("tags", VList (VStr <$> TransactionCreate.tags x)) ].

(** [update_data.dict(exclude_unset=True)]. *)
Definition TransactionUpdate_dict (x : TransactionUpdate.t) : gmap string value :=
  list_to_map
    (omap (fun kv : string * option value => pair kv.1 <$> kv.2)
       [ ("merchant", opt_value VStr <$> TransactionUpdate.merchant x);
         ("category", opt_value VStr <$> TransactionUpdate.category x);
         ("remarks", opt_value VStr <$> TransactionUpdate.remarks x);
         ("tags", (fun l => VList (VStr <$> l)) <$> TransactionUpdate.tags x) ]).

(** ** A runtime for the examples

    A small instance of [PyRuntime], used where a statement is evaluated
    on concrete data: decimal numerals, dates written
    [YYYY-MM-DDTHH:MM:SS], and patterns matched as plain substrings. *)

Definition digit_of (c : ascii) : option Z :=
  let n := N_of_ascii c in
  if ((48 <=? n) && (n <=? 57))%N then Some (Z.of_N n - 48) else None.

Fixpoint number_of (acc : Z) (s : string) : option Z :=
  match s with
  | EmptyString => Some acc
  | String c s' => d ← digit_of c; number_of (10 * acc + d) s'
  end.

Definition digits (s : string) : option Z :=
  if bool_decide (s = "") then None else number_of 0 s.

Definition iso_seconds (s : string) : option Z :=
  if bool_decide (String.length s = 19%nat)
     && bool_decide (substring 4 1 s = "-") && bool_decide (substring 7 1 s = "-")
     && bool_decide (substring 10 1 s = "T")
     && bool_decide (substring 13 1 s = ":") && bool_decide (substring 16 1 s = ":")
  then
    y ← digits (substring 0 4 s);
    m ← digits (substring 5 2 s);
    d ← digits (substring 8 2 s);
    hh ← digits (substring 11 2 s);
    mm ← digits (substring 14 2 s);
    ss ← digits (substring 17 2 s);
    if bool_decide (civil_from_days (days_from_civil y m d) = (y, m, d))
       && bool_decide (1 <= y) && bool_decide (hh < 24)
       && bool_decide (mm < 60) && bool_decide (ss < 60)
    then Some (datetime y m d hh mm ss)
    else None
  else None.

Definition example_runtime : PyRuntime := {|
  float_of_str s := Qc_of_Z <$> digits s;
  str_of_float q := pretty (Qnum q) +:+ "/" +:+ pretty (Zpos (Qden q));
  fromisoformat := iso_seconds;
  parse_datetime v := match v with VStr s => iso_seconds s | _ => None end;
  regex_search_i pattern := Some (fun s => contains (lower pattern) (lower s))
|}.

(** ** Data for the examples *)

Definition num (z : Z) : value := VNum (Qc_of_Z z).

(** The two replies of the tests of [test_sms_parser.py]. *)
Definition amazon_reply : value :=
  VDict [ ("is_transaction", VBool true);
          ("transaction_type", VStr "spent");
          ("amount", num 500);
          ("currency", VStr "INR");
          ("merchant", VStr "Amazon");
          ("transaction_date", VStr "2025-01-15T12:00:00");
          ("payment_method", VStr "card");
          ("remarks", VStr "Card transaction at Amazon");
          ("is_failed", VBool false);
          ("confidence", VNum (Q2Qc (95 # 100)));
          ("reason", VStr "Contains amount and spending information") ].

Definition otp_reply : value :=
  VDict [ ("is_transaction", VBool false);
          ("confidence", VNum (Q2Qc (9 # 10)));
          ("reason", VStr "OTP message, no transaction details") ].


(** A transaction whose amount is not positive. *)
Definition refund_reply : value :=
  VDict [ ("is_transaction", VBool true);
          ("transaction_type", VStr "credit");
          ("amount", num (-50));
          ("merchant", VStr "Store") ].

Definition example_sms : SMSMessage.t :=
  SMSMessage.mk (Some "0") "u1" "TEST-BANK" "Rs 500 spent on card at Amazon"
    1000 false 1000 1000.

(** A statement of three lines, as the classifier returns it: the
    second entry has no [amount]. *)
Definition statement_entry (kind merchant : string) (amount : Z) : value :=
  VDict [ ("transaction_type", VStr kind);
          ("amount", num amount);
          ("currency", VStr "INR");
          ("merchant", VStr merchant);
          ("transaction_date", VStr "2025-01-15T12:00:00") ].

Definition entry_without_amount : value :=
  VDict [ ("transaction_type", VStr "spent");
          ("currency", VStr "INR");
          ("merchant", VStr "Cafe") ].

Definition three_line_statement : list value :=
  [ statement_entry "spent" "Amazon" 500;
    entry_without_amount;
    statement_entry "received" "Salary" 1000 ].

(** A stored transaction, written at time 0. *)
Definition sample_transaction : Transaction.t :=
  Transaction.mk None "u1" None SPENT (Qc_of_Z 500) "INR" (Some "Corner shop")
    (Some "grocery") (datetime 2025 1 15 12 0 0) None None None (Some CARD)
    None [] false false 0 0.

Definition sample_store : collection :=
  {| docs := [("0", Transaction_dict sample_transaction)]; next_id := 1%N |}.

(** The body of a manual entry: a purchase at Amazon, without a
    category. *)
Definition amazon_purchase : TransactionCreate.t :=
  TransactionCreate.mk SPENT (Qc_of_Z 500) "INR" (Some "Amazon") None
    (datetime 2025 1 15 12 0 0) (Some "REF123") None None (Some CARD) None [].

(** The keys an update payload does not give, or gives as [None]. *)
Definition not_given (update_data : gmap string value) (k : string) : Prop :=
  update_data !! k = None \/ update_data !! k = Some VNone.

(** A filter with its lower, or upper, amount bound replaced. *)
Definition with_min_amount (bound : option Qc) (f : TransactionFilter.t)
  : TransactionFilter.t :=
  TransactionFilter.mk (TransactionFilter.start_date f) (TransactionFilter.end_date f)
    bound (TransactionFilter.max_amount f) (TransactionFilter.transaction_type f)
    (TransactionFilter.merchant f) (TransactionFilter.category f)
    (TransactionFilter.payment_method f) (TransactionFilter.is_failed f)
    (TransactionFilter.tags f) (TransactionFilter.limit f) (TransactionFilter.offset f).

Definition with_max_amount (bound : option Qc) (f : TransactionFilter.t)
  : TransactionFilter.t :=
  TransactionFilter.mk (TransactionFilter.start_date f) (TransactionFilter.end_date f)
    (TransactionFilter.min_amount f) bound (TransactionFilter.transaction_type f)
    (TransactionFilter.merchant f) (TransactionFilter.category f)
    (TransactionFilter.payment_method f) (TransactionFilter.is_failed f)
    (TransactionFilter.tags f) (TransactionFilter.limit f) (TransactionFilter.offset f).

(** Three payments to Netflix on the 5th of three months, and a fourth
    transaction of the same amount to another merchant. *)
Definition subscription (merchant : string) (amount : Z) (y m d : Z)
  : gmap string value :=
  Transaction_dict
    (Transaction.mk None "u1" None DEBIT (Qc_of_Z amount) "INR" (Some merchant)
       None (datetime y m d 9 30 0) None None None (Some CARD) None [] false
       false 0 0).

Definition netflix_store : collection :=
  {| docs := [ ("0", subscription "Netflix" 199 2025 1 5);
               ("1", subscription "Netflix" 199 2025 2 5);
               ("2", subscription "Spotify" 199 2025 3 5);
               ("3", subscription "Netflix" 199 2025 3 5) ];
     next_id := 4%N |}.

(** ** Vocabulary of the statements on recurrence *)

(** The update that marks one member of a group. *)
Definition recurring_update (stamp : Z) : gmap string value :=
  <["updated_at" := VDate stamp]> {[ "is_recurring" := VBool true ]}.

(** The documents once the transactions [targets] have been marked, one
    after the other. *)
Definition marked (stamp : Z) (user_id : string)
    (l : list (string * gmap string value)) (targets : list string)
  : list (string * gmap string value) :=
  foldl (fun l i => (update_first (by_id_and_user i user_id)
                       (recurring_update stamp) l).1) l targets.

(** The members the outer loop marks, and the groups it returns. *)
Fixpoint loop_targets
    (results : list ((value * option value * Z) * list (string * Z * option value)))
  : list string :=
  match results with
  | [] => []
  | result :: rest =>
      if (2 <=? length result.2)%nat
      then (((fun tx : string * Z * option value => tx.1.1) <$> result.2)
            ++ match result.1.1.2 with
               | None => []
               | Some _ => loop_targets rest
               end)%list
      else loop_targets rest
  end.

Fixpoint loop_groups
    (results : list ((value * option value * Z) * list (string * Z * option value)))
  : py (list RecurringGroup.t) :=
  match results with
  | [] => Return []
  | result :: rest =>
      if (2 <=? length result.2)%nat
      then match result.1.1.2 with
           | None => Raise
           | Some amount =>
               l <- loop_groups rest ;;
               Return (RecurringGroup.mk result.1.1.1 amount result.1.2
                         (length result.2) result.2 :: l)
           end
      else loop_groups rest
  end.

Definition flagged (d : gmap string value) : Prop :=
  d !! "is_recurring" = Some (VBool true).

(** The document that [{"_id": i, "user_id": u}] selects is marked. *)
Definition marked_at (user_id : string) (l : list (string * gmap string value))
    (i : string) : Prop :=
  exists x, List.find (by_id_and_user i user_id) l = Some x /\ flagged x.2.

(** What the recurrence pipeline reads of a document is the same in two
    collections. *)
Definition related (x x' : string * gmap string value) : Prop :=
  x'.1 = x.1 /\
  forall k, k <> "is_recurring" -> k <> "updated_at" -> x'.2 !! k = x.2 !! k.

Definition same_view (l l' : list (string * gmap string value)) : Prop :=
  Forall2 related l l'.

(** One turn of the inner loop, on the documents. *)
Definition mark_step (stamp : Z) (user_id : string)
    (l : list (string * gmap string value)) (i : string)
  : list (string * gmap string value) :=
  (update_first (by_id_and_user i user_id) (recurring_update stamp) l).1.

(** The [is_recurring] flag of every document. *)
Definition flags (l : list (string * gmap string value))
  : list (string * option value) :=
  (fun x => (x.1, x.2 !! "is_recurring")) <$> l.

(** The key of a returned group. *)
Definition group_key (g : RecurringGroup.t) : value * option value * Z :=
  (RecurringGroup.merchant g, Some (RecurringGroup.amount g),
   RecurringGroup.day_of_month g).

(** The group the loop returns for one result of the pipeline. *)
Definition group_of
    (r : (value * option value * Z) * list (string * Z * option value))
  : RecurringGroup.t :=
  RecurringGroup.mk r.1.1.1 (default VNone r.1.1.2) r.1.2 (length r.2) r.2.

(** ** Vocabulary of the statements on ingestion *)

(** The operations of the ingestion controller, each with the time it
    runs at and the answers the classifier gives during it. *)
Inductive operation : Type :=
| Ingest (now : Z) (user_id : string) (sms_data : SMSRequest.t)
    (reply : gemini_reply)
| Rescan (now : Z) (user_id : string) (replies : SMSMessage.t -> gemini_reply).

Definition run_operation `{PyRuntime} (w : world) (o : operation) : world :=
  match o with
  | Ingest now user_id sms_data reply =>
      (receive_sms now w user_id sms_data reply).1
  | Rescan now user_id replies =>
      (reprocess_unparsed_sms now w user_id replies).1
  end.

Definition run `{PyRuntime} (w : world) (ops : list operation) : world :=
  foldl run_operation w ops.

(** The [sms_message_id] of every stored transaction. *)
Definition references (c : collection) : list (option value) :=
  (fun x => x.2 !! "sms_message_id") <$> docs c.

(** How many transactions were derived from the message [s]. *)
Definition derived (s : string) (w : world) : nat :=
  length (filter (fun r => r = Some (VStr s)) (references (transactions w))).

(** The update that marks a message as parsed. *)
Definition parsed_update (now : Z) : gmap string value :=
  list_to_map [("parsed", VBool true); ("updated_at", VDate now)].

Definition is_parsed (d : gmap string value) : Prop :=
  d !! "parsed" = Some (VBool true).

(** The invariant of the two collections. *)
Record consistent (w : world) : Prop := {
  ids_distinct : NoDup (docs (sms_messages w)).*1;
  ids_issued : forall i, i ∈ (docs (sms_messages w)).*1 ->
               exists n, i = pretty n /\ (n < next_id (sms_messages w))%N;
  referenced_parsed : forall s, Some (VStr s) ∈ references (transactions w) ->
               exists d, (s, d) ∈ docs (sms_messages w) /\ is_parsed d;
  at_most_one : forall s, (derived s w <= 1)%nat
}.


(** An entry of the batch that is a JSON object without [amount]. *)
Definition without_amount (e : value) : Prop :=
  exists kvs, e = VDict kvs /\ dict_of_items kvs !! "amount" = None.

(** An entry that the gateway converts and the [Transaction] model
    takes. *)
Definition accepted `{PyRuntime} (now : Z) (user_id : string) (e : value) : bool :=
  match backup_entry now e with
  | Return (Some d) =>
      bool_decide (is_Some (Transaction_validate now (<["user_id" := VStr user_id]> d)))
  | _ => false
  end.

(** Go on past the first field of a model that validates. *)
Ltac next_field H :=
  match type of H with
  | mbind _ ?o = Some _ =>
      let E := fresh "E" in
      destruct o eqn:E; [cbn [mbind option_bind] in H | discriminate H]
  end.

(** A message whose first classification fails, then two rescans. *)
Definition example_request : SMSRequest.t :=
  SMSRequest.mk "TEST-BANK" "Rs 500 spent on card at Amazon" 1000.

Definition retried_ingestion : list operation :=
  [ Ingest 7 "u1" example_request CallFailed;
    Rescan 8 "u1" (fun _ => Json amazon_reply);
    Rescan 9 "u1" (fun _ => Json amazon_reply) ].

(** The document of that message once the first rescan has marked it. *)
Definition retried_message : gmap string value :=
  set_fields (parsed_update 8)
    (SMSMessage_dict
       (SMSMessage.mk None "u1" (SMSRequest.sender example_request)
          (SMSRequest.message_text example_request)
          (SMSRequest.timestamp example_request) false 7 7)).

(** The reply of the test [test_process_sms_intelligently_invalid_transaction_type]. *)
Definition invalid_type_fields : list (string * value) :=
  [ ("is_transaction", VBool true);
    ("transaction_type", VStr "invalid_type");
    ("amount", num 500);
    ("currency", VStr "INR");
    ("merchant", VStr "Amazon") ].

(** ** Vocabulary of the further statements *)

(** What the gateway hands on: a kind of the closed set, a number as
    amount, a date, and a payment method of the closed set or none. *)
Definition normalised (d : gmap string value) : Prop :=
  (exists t, d !! "transaction_type" = Some (VType t))
  /\ (exists q, d !! "amount" = Some (VNum q))
  /\ (exists t, d !! "transaction_date" = Some (VDate t))
  /\ (d !! "payment_method" = Some VNone
      \/ exists m, d !! "payment_method" = Some (VMethod m))
  /\ d !! "sms_message_id" = None
  /\ d !! "user_id" = None.

(** A batch entry with a usable kind whose amount [float] refuses. *)
Definition statement_entry_with (amount : value) : value :=
  VDict [ ("transaction_type", VStr "spent");
          ("amount", amount);
          ("merchant", VStr "Amazon") ].

(** The identifiers of a collection are distinct and were all drawn
    from its counter. *)
Definition issued (c : collection) : Prop :=
  NoDup (docs c).*1
  /\ forall i, i ∈ (docs c).*1 -> exists n, i = pretty n /\ (n < next_id c)%N.

(** What the two validators of [Transaction] let through. *)
Definition valid_transaction (x : Transaction.t) : Prop :=
  (Q2Qc 0 < Transaction.amount x)%Qc
  /\ match Transaction.reference_number x with
     | Some s => s = "" \/ reference_number_re s = true
     | None => True
     end.

(** A transaction as the categoriser rewrites it in the store. *)
Definition with_category (category : string) (now : Z) (x : Transaction.t)
  : Transaction.t :=
  Transaction.mk (Transaction.id x) (Transaction.user_id x)
    (Transaction.sms_message_id x) (Transaction.transaction_type x)
    (Transaction.amount x) (Transaction.currency x) (Transaction.merchant x)
    (Some category) (Transaction.transaction_date x)
    (Transaction.reference_number x) (Transaction.account_number x)
    (Transaction.card_number x) (Transaction.payment_method x)
    (Transaction.remarks x) (Transaction.tags x) (Transaction.is_failed x)
    (Transaction.is_recurring x) (Transaction.created_at x) now.

(** The category the table gives a merchant: the first entry one of
    whose keywords occurs in the lower-cased name. *)
Definition table_category (merchant : string) : option string :=
  fst <$> List.find
            (fun '(category, keywords) =>
               existsb (fun keyword => contains keyword (lower merchant)) keywords)
            category_mapping.

(** What is stored once [create_transaction] has categorised. *)
Definition categorised (now : Z) (x : Transaction.t) : Transaction.t :=
  match Transaction.merchant x with
  | None => x
  | Some merchant =>
      if bool_decide (merchant = "")
         || truthy (opt_value VStr (Transaction.category x))
      then x
      else match table_category merchant with
           | Some category => with_category category now x
           | None => x
           end
  end.

(** The documents of [c] that do not belong to [user_id], in their
    order. *)
Definition documents_of_others (user_id : string) (c : collection)
  : list (string * gmap string value) :=
  filter (fun x : string * gmap string value =>
            x.2 !! "user_id" <> Some (VStr user_id)) (docs c).

(** No document of [c] under [transaction_id] belongs to [user_id]. *)
Definition not_owned (c : collection) (user_id transaction_id : string) : Prop :=
  forall d, (transaction_id, d) ∈ docs c -> d !! "user_id" <> Some (VStr user_id).

(** A collection that holds the sample transaction of [u1] and one of
    another user. *)
Definition shared_store : collection :=
  {| docs := [ ("0", Transaction_dict sample_transaction);
               ("1", <["user_id" := VStr "u2"]> (Transaction_dict sample_transaction)) ];
     next_id := 2%N |}.

(** The [parsed] flag of every message is a boolean, and a message
    that is flagged has a transaction that refers to it. *)
Record flags_exact (w : world) : Prop := {
  parsed_boolean : forall i d, (i, d) ∈ docs (sms_messages w) ->
                   exists b, d !! "parsed" = Some (VBool b);
  parsed_has_transaction : forall i d, (i, d) ∈ docs (sms_messages w) ->
                   is_parsed d -> Some (VStr i) ∈ references (transactions w)
}.

(** Every message of [c] is in [c'] under its identifier, with the
    fields it had, [parsed] and [updated_at] apart, and still flagged
    if it was. *)
Definition messages_kept (c c' : collection) : Prop :=
  forall i d, (i, d) ∈ docs c ->
    exists d', (i, d') ∈ docs c'
               /\ (forall k, k <> "parsed" -> k <> "updated_at" -> d' !! k = d !! k)
               /\ (is_parsed d -> is_parsed d').

(** [w'] holds the transactions of [w], unchanged and in front, and
    keeps its messages. *)
Definition grows (w w' : world) : Prop :=
  docs (transactions w) `prefix_of` docs (transactions w')
  /\ messages_kept (sms_messages w) (sms_messages w').

(** The filter that asks for every transaction of the user: no
    constraint, no limit, no offset. *)
Definition all_transactions : TransactionFilter.t :=
  TransactionFilter.mk None None None None None None None None None None 0 0.


(** In the words of the claim on recurrence: [d] is a transaction of
    [user_id] dated [t], no more than 180 days before [now], on the day
    [day] of its month, with the counterparty [m], which is not null,
    and the amount [a]. *)
Definition recurring_candidate (now : Z) (user_id : string)
    (d : gmap string value) (m a : value) (day t : Z) : Prop :=
  d !! "user_id" = Some (VStr user_id)
  /\ d !! "transaction_date" = Some (VDate t)
  /\ now - 180 * 86400000 <= t
  /\ day_of_month t = day
  /\ d !! "merchant" = Some m
  /\ m <> VNone
  /\ d !! "amount" = Some a.

(** A payment of [u1] without a merchant. *)
Definition unnamed_payment (amount : Z) (y m d : Z) : gmap string value :=
  Transaction_dict
    (Transaction.mk None "u1" None DEBIT (Qc_of_Z amount) "INR" None None
       (datetime y m d 9 30 0) None None None (Some CARD) None [] false false 0 0).

(** The subscriptions of [netflix_store] among transactions that are
    not to be grouped: two payments of 2019 to one merchant, two
    payments without a merchant and two Netflix payments of another
    user, each pair of one amount and on one day of the month. *)
Definition history_store : collection :=
  {| docs := [ ("0", subscription "Netflix" 199 2025 1 5);
               ("1", subscription "Netflix" 199 2025 2 5);
               ("2", subscription "Spotify" 199 2025 3 5);
               ("3", subscription "Netflix" 199 2025 3 5);
               ("4", subscription "Gym" 49 2019 1 10);
               ("5", subscription "Gym" 49 2019 2 10);
               ("6", unnamed_payment 75 2025 1 12);
               ("7", unnamed_payment 75 2025 2 12);
               ("8", <["user_id" := VStr "u2"]> (subscription "Netflix" 199 2025 1 5));
               ("9", <["user_id" := VStr "u2"]> (subscription "Netflix" 199 2025 2 5)) ];
     next_id := 10%N |}.

(** * Properties *)

(** ** The classifier gateway and the normaliser *)

Section ParserFacts.
Context `{PyRuntime}.

Lemma parse_date_of_iso now s t :
  fromisoformat (replace_Z s) = Some t ->
  _parse_date_from_gemini now (VStr s) = t.
Proof. intros Hs. unfold _parse_date_from_gemini. rewrite Hs. reflexivity. Qed.

Lemma process_sms_call_failed now :
  process_sms_intelligently now CallFailed = None.
Proof. reflexivity. Qed.

(** Whatever [process_sms_intelligently] returns has the thirteen keys
    of its dict literal; among them, the coerced amount. *)
Lemma sms_fields_amount now v p :
  sms_fields now v = Return (Some p) ->
  exists kvs a q,
    v = VDict kvs /\ dict_of_items kvs !! "amount" = Some a
    /\ py_float a = Return q /\ p !! "amount" = Some (VNum q).
Proof.
  unfold sms_fields. destruct v as [ | | | | | | kvs]; simpl; try discriminate.
  destruct (negb _); [discriminate | ].
  destruct (dict_of_items kvs !! "amount") as [a | ] eqn:Ha; [ | discriminate].
  destruct (_convert_transaction_type _) as [[ty | ] | ]; simpl; try discriminate.
  destruct (_convert_payment_method _) as [pm | ]; simpl; try discriminate.
  destruct (py_float a) as [q | ] eqn:Hq; simpl; try discriminate.
  intros [= <-]. exists kvs, a, q. repeat split; try assumption.
Qed.

Lemma sms_fields_date now v p :
  sms_fields now v = Return (Some p) ->
  exists kvs,
    v = VDict kvs /\
    p !! "transaction_date" =
      Some (VDate (_parse_date_from_gemini now
                     (get (dict_of_items kvs) "transaction_date" (VStr "")))).
Proof.
  unfold sms_fields. destruct v as [ | | | | | | kvs]; simpl; try discriminate.
  destruct (negb _); [discriminate | ].
  destruct (dict_of_items kvs !! "amount") as [a | ] eqn:Ha; [ | discriminate].
  destruct (_convert_transaction_type _) as [[ty | ] | ]; simpl; try discriminate.
  destruct (_convert_payment_method _) as [pm | ]; simpl; try discriminate.
  destruct (py_float a) as [q | ] eqn:Hq; simpl; try discriminate.
  intros [= <-]. exists kvs. split; reflexivity.
Qed.

Lemma sms_fields_no_message_id now v p :
  sms_fields now v = Return (Some p) ->
  p !! "sms_message_id" = None /\ p !! "user_id" = None.
Proof.
  unfold sms_fields. destruct v as [ | | | | | | kvs]; simpl; try discriminate.
  destruct (negb _); [discriminate | ].
  destruct (dict_of_items kvs !! "amount") as [a | ] eqn:Ha; [ | discriminate].
  destruct (_convert_transaction_type _) as [[ty | ] | ]; simpl; try discriminate.
  destruct (_convert_payment_method _) as [pm | ]; simpl; try discriminate.
  destruct (py_float a) as [q | ] eqn:Hq; simpl; try discriminate.
  intros [= <-]. split; reflexivity.
Qed.


(** [validate_amount] decides the construction of a [Transaction]. *)
Lemma Transaction_validate_nonpositive now data q :
  data !! "amount" = Some (VNum q) -> (q <= Q2Qc 0)%Qc ->
  Transaction_validate now data = None.
Proof.
  intros Ha Hq. unfold Transaction_validate. rewrite Ha.
  destruct (optional str_validator (data !! "id")); simpl; [ | reflexivity].
  destruct (required str_validator (data !! "user_id")); simpl; [ | reflexivity].
  destruct (optional str_validator (data !! "sms_message_id")); simpl; [ | reflexivity].
  destruct (required TransactionType_validator _); simpl; [ | reflexivity].
  unfold validate_amount. rewrite bool_decide_eq_true_2 by exact Hq. reflexivity.
Qed.

End ParserFacts.

(** C2, as stated, fails: a failed call to the classifier and a message
    that is no transaction have the same outcome. *)
Lemma call_failure_same_as_unclassifiable :
  ~ (process_sms_intelligently (H := example_runtime) 0 CallFailed
     <> process_sms_intelligently (H := example_runtime) 0 (Json otp_reply)).
Proof. intros Hne. apply Hne. vm_compute. reflexivity. Qed.

(** C2, amended: when the call to the external classifier fails,
    [process_sms_intelligently] catches the error and returns [None],
    the outcome it also has for a message that is no transaction; the
    ingestion of the message then returns [None] and leaves both
    collections as they were, the message still unparsed. *)
Theorem classifier_failure_returns_None `{PyRuntime}
    (now : Z) (w : world) (user_id : string) (sms_message : SMSMessage.t)
    (confidence reason : value) :
  process_sms_intelligently now CallFailed = None
  /\ process_sms_intelligently now
       (Json (VDict [ ("is_transaction", VBool false);
                      ("confidence", confidence); ("reason", reason) ])) = None
  /\ process_sms_for_transactions now w user_id sms_message CallFailed = (w, None).
Proof. repeat split. Qed.




Section AmountFacts.
Context `{PyRuntime}.

Lemma process_sms_Some now v p :
  process_sms_intelligently now (Json v) = Some p ->
  sms_fields now v = Return (Some p).
Proof.
  unfold process_sms_intelligently, except.
  destruct (sms_fields now v) as [[q | ] | ]; intros [= ->]. reflexivity.
Qed.

Lemma create_transaction_invalid now c user_id data :
  Transaction_validate now (<["user_id" := VStr user_id]> data) = None ->
  create_transaction now c user_id data = (c, None).
Proof. intros Hv. unfold create_transaction. rewrite Hv. reflexivity. Qed.

End AmountFacts.

(** C4: a classifier output whose amount is missing, or coerces to a
    number that is not positive, yields no transaction, whatever its
    other fields are: either [process_sms_intelligently] returns [None],
    or the [Transaction] model refuses what it returned. Processing the
    message returns [None] and writes nothing. *)
Theorem missing_or_nonpositive_amount_rejected `{PyRuntime}
    (now : Z) (w : world) (user_id : string) (sms_message : SMSMessage.t)
    (kvs : list (string * value)) :
  dict_of_items kvs !! "amount" = None
  \/ (exists a q, dict_of_items kvs !! "amount" = Some a
                  /\ py_float a = Return q /\ (q <= Q2Qc 0)%Qc) ->
  match process_sms_intelligently now (Json (VDict kvs)) with
  | None => True
  | Some parsed_data =>
      forall extra,
        Transaction_validate now
          (<["user_id" := VStr user_id]> (parsed_data ∪ extra)) = None
  end
  /\ process_sms_for_transactions now w user_id sms_message (Json (VDict kvs))
     = (w, None).
Proof.
  intros Hamount.
  assert (Hrej : forall p, process_sms_intelligently now (Json (VDict kvs)) = Some p ->
                 forall extra, Transaction_validate now
                   (<["user_id" := VStr user_id]> (p ∪ extra)) = None).
  { intros p Hp extra. apply process_sms_Some in Hp.
    destruct (sms_fields_amount _ _ _ Hp) as (kvs' & a & q & [= <-] & Ha & Hq & Hpa).
    destruct Hamount as [Hnone | (a' & q' & Ha' & Hq' & Hle)]; [congruence | ].
    rewrite Ha in Ha'. injection Ha' as <-. rewrite Hq in Hq'. injection Hq' as <-.
    apply Transaction_validate_nonpositive with (q := q); [ | exact Hle].
    rewrite lookup_insert_ne by discriminate.
    apply lookup_union_Some_l. exact Hpa. }
  split.
  - destruct (process_sms_intelligently now (Json (VDict kvs))) as [p | ] eqn:Hp;
      [ | exact I]. apply Hrej. reflexivity.
  - unfold process_sms_for_transactions.
    destruct (process_sms_intelligently now (Json (VDict kvs))) as [p | ] eqn:Hp;
      [ | reflexivity].
    rewrite create_transaction_invalid by (apply Hrej; reflexivity).
    destruct w; reflexivity.
Qed.

(** The parser alone lets a negative amount through; it is the model
    that refuses it. *)
Example nonpositive_amount_passes_parser :
  (process_sms_intelligently (H := example_runtime) 7 (Json refund_reply)
     ≫= fun p => p !! "amount") = Some (num (-50)).
Proof. vm_compute. reflexivity. Qed.

Lemma missing_or_nonpositive_amount_rejected_witness :
  process_sms_for_transactions (H := example_runtime) 7 empty_world "u1"
    example_sms (Json refund_reply) = (empty_world, None).
Proof.
  apply (missing_or_nonpositive_amount_rejected (H := example_runtime)
           7 empty_world "u1" example_sms
           [ ("is_transaction", VBool true);
             ("transaction_type", VStr "credit");
             ("amount", num (-50));
             ("merchant", VStr "Store") ]).
  right. exists (num (-50)), (Qc_of_Z (-50)).
  split; [vm_compute; reflexivity | ]. split; [reflexivity | ].
  vm_compute. discriminate.
Defined.

(** ** Bulk import *)

Section BackupFacts.
Context `{PyRuntime}.

Lemma backup_entry_without_amount now e :
  without_amount e -> backup_entry now e = Return None.
Proof.
  intros (kvs & -> & Ha). unfold backup_entry.
  destruct (negb (truthy (VDict kvs))); [reflexivity | ].
  simpl. rewrite Ha. reflexivity.
Qed.

Lemma backup_entries_skip now l1 e l2 :
  backup_entry now e = Return None ->
  backup_entries now (l1 ++ e :: l2) = backup_entries now (l1 ++ l2).
Proof.
  intros He. induction l1 as [ | x l1 IH]; simpl.
  - rewrite He. simpl. destruct (backup_entries now l2); reflexivity.
  - rewrite IH. reflexivity.
Qed.

Lemma backup_entries_accepted now user_id l :
  Forall (fun e => accepted now user_id e = true) l ->
  exists ds, backup_entries now l = Return ds
             /\ length ds = length l
             /\ Forall (fun d => is_Some (Transaction_validate now
                                   (<["user_id" := VStr user_id]> d))) ds.
Proof.
  induction 1 as [ | e l He _ (ds & Hds & Hlen & Hall)].
  - exists []. repeat split. constructor.
  - unfold accepted in He.
    destruct (backup_entry now e) as [[d | ] | ] eqn:Hd'; try discriminate He.
    apply bool_decide_eq_true_1 in He. rename He into Hd. rename Hd' into He.
    exists (d :: ds). simpl. rewrite He, Hds. simpl.
    repeat split; [congruence | constructor; assumption].
Qed.

Lemma create_all_valid now user_id ds :
  Forall (fun d => is_Some (Transaction_validate now
                     (<["user_id" := VStr user_id]> d))) ds ->
  forall c, length (create_all now c user_id ds).1.2 = length ds
            /\ (create_all now c user_id ds).2 = [].
Proof.
  induction 1 as [ | d ds [t Ht] _ IH]; intros c; [split; reflexivity | ].
  simpl. unfold create_transaction. rewrite insert_insert_eq, Ht.
  destruct (insert_one c (Transaction_dict t)) as [c1 i].
  destruct (IH (_auto_categorize_transaction now c1 (Transaction_with_id i t)))
    as [Hlen Herr].
  destruct (create_all now _ user_id ds) as [[c2 created] errs].
  simpl in *. subst errs. split; [congruence | reflexivity].
Qed.

End BackupFacts.

(** C1, as stated, fails: of the three entries the classifier returns,
    the one without [amount] is dropped by the gateway, so two are
    found, two are created and no error is recorded. *)
Lemma bulk_import_drops_before_counting :
  let r := (process_backup_file (H := example_runtime) 7 empty_collection "u1"
              (Json (VList three_line_statement))).2 in
  ~ (transactions_found r = 3%nat /\ transactions_created r = 2%nat
     /\ length (errors r) = 1%nat).
Proof. vm_compute. intros [Hfound _]. discriminate Hfound. Qed.

(** C1, amended: for a bulk import whose classifier output has 3
    entries, of which exactly one lacks [amount] and the other two are
    accepted, [process_backup_file] returns found = 2, created = 2 and
    an empty list of errors: the gateway drops the entry without
    [amount] before it is counted. *)
Theorem bulk_import_without_amount `{PyRuntime}
    (now : Z) (c : collection) (user_id : string) (l1 l2 : list value) (e : value) :
  length (l1 ++ e :: l2) = 3%nat ->
  without_amount e ->
  Forall (fun x => accepted now user_id x = true) (l1 ++ l2) ->
  let r := (process_backup_file now c user_id (Json (VList (l1 ++ e :: l2)))).2 in
  transactions_found r = 2%nat /\ transactions_created r = 2%nat /\ errors r = [].
Proof.
  intros Hlen He Hall.
  destruct (backup_entries_accepted _ _ _ Hall) as (ds & Hds & Hlen' & Hvalid).
  assert (Hds_len : length ds = 2%nat).
  { rewrite Hlen'. rewrite !length_app in *. simpl in Hlen. lia. }
  unfold process_backup_file, parse_backup_file_with_gemini.
  rewrite backup_entries_skip by (apply backup_entry_without_amount; exact He).
  rewrite Hds. simpl.
  destruct (create_all_valid now user_id ds Hvalid c) as [Hcreated Herr].
  destruct ds as [ | d ds]; [discriminate Hds_len | ].
  destruct (create_all now c user_id (d :: ds)) as [[c' created] errs].
  simpl in *. repeat split; congruence.
Qed.

Lemma bulk_import_without_amount_witness :
  let r := (process_backup_file (H := example_runtime) 7 empty_collection "u1"
              (Json (VList three_line_statement))).2 in
  transactions_found r = 2%nat /\ transactions_created r = 2%nat /\ errors r = [].
Proof.
  apply (bulk_import_without_amount (H := example_runtime) 7 empty_collection "u1"
           [statement_entry "spent" "Amazon" 500]
           [statement_entry "received" "Salary" 1000]
           entry_without_amount).
  - reflexivity.
  - exists [ ("transaction_type", VStr "spent"); ("currency", VStr "INR");
             ("merchant", VStr "Cafe") ].
    split; [reflexivity | vm_compute; reflexivity].
  - repeat constructor; vm_compute; reflexivity.
Defined.

(** ** Updates *)

Section UpdateFacts.
Context `{PyRuntime}.

(** [update_first] keeps the length, the order and every [_id]; each
    document is kept or overwritten with the fields of the update. *)
Lemma update_first_frame q upd l :
  Forall2 (fun x x' => x'.1 = x.1 /\ (x'.2 = x.2 \/ x'.2 = set_fields upd x.2))
    l (update_first q upd l).1.
Proof.
  induction l as [ | [i d] l IH]; simpl; [constructor | ].
  destruct (q (i, d)).
  - simpl. constructor; [split; [reflexivity | right; reflexivity] | ].
    clear IH. induction l; constructor; auto.
  - destruct (update_first q upd l) as [l' n]. simpl in *.
    constructor; [split; [reflexivity | left; reflexivity] | exact IH].
Qed.

Lemma update_transaction_docs now c user_id transaction_id update_data :
  let upd := <["updated_at" := VDate now]>
               (filter (fun kv => kv.2 ≠ VNone) update_data) in
  Forall2 (fun x x' => x'.1 = x.1 /\ (x'.2 = x.2 \/ x'.2 = set_fields upd x.2))
    (docs c) (docs (update_transaction now c user_id transaction_id update_data).1).
Proof.
  intros upd. unfold update_transaction. fold upd.
  destruct (bool_decide (is_Some (upd !! "_id"))).
  - simpl. induction (docs c); constructor; auto.
  - unfold update_one.
    pose proof (update_first_frame (by_id_and_user transaction_id user_id) upd (docs c)) as Hf.
    destruct (update_first _ upd (docs c)) as [l n]. simpl in *.
    destruct (0 <? n)%nat; exact Hf.
Qed.

End UpdateFacts.



(** ** Listing and analytics *)

Lemma truthy_num_zero : truthy_num (Some (Q2Qc 0)) = None.
Proof. unfold truthy_num. rewrite bool_decide_eq_true_2; reflexivity. Qed.

(** C10: in the listing, an amount bound equal to 0 is ignored. The
    query built from a filter with [min_amount = 0] (or [max_amount = 0])
    holds no lower (upper) amount constraint, and the result is that of
    the same filter without the bound. *)
Theorem zero_amount_bound_ignored `{PyRuntime}
    (now : Z) (c : collection) (user_id : string) (f : TransactionFilter.t) :
  q_amount_gte (build_query user_id (with_min_amount (Some (Q2Qc 0)) f)) = None
  /\ q_amount_lte (build_query user_id (with_max_amount (Some (Q2Qc 0)) f)) = None
  /\ get_transactions now c user_id (with_min_amount (Some (Q2Qc 0)) f)
     = get_transactions now c user_id (with_min_amount None f)
  /\ get_transactions now c user_id (with_max_amount (Some (Q2Qc 0)) f)
     = get_transactions now c user_id (with_max_amount None f).
Proof.
  assert (Hmin : build_query user_id (with_min_amount (Some (Q2Qc 0)) f)
                 = build_query user_id (with_min_amount None f)).
  { unfold build_query, with_min_amount. cbn -[truthy_num].
    rewrite truthy_num_zero. reflexivity. }
  assert (Hmax : build_query user_id (with_max_amount (Some (Q2Qc 0)) f)
                 = build_query user_id (with_max_amount None f)).
  { unfold build_query, with_max_amount. cbn -[truthy_num].
    rewrite truthy_num_zero. reflexivity. }
  split; [rewrite Hmin; reflexivity | ].
  split; [rewrite Hmax; reflexivity | ].
  unfold get_transactions. rewrite Hmin, Hmax. split; reflexivity.
Qed.

Lemma find_nothing (c : collection) (q : string * gmap string value -> bool) :
  Forall (fun x => q x = false) (docs c) -> find c q = [].
Proof.
  unfold find. induction 1 as [ | x l Hx _ IH]; simpl; [reflexivity | ].
  rewrite Hx. exact IH.
Qed.

(** C8: for every owner and optional time window, if no transaction
    matches the filter, [get_analytics] returns the zero snapshot: no
    transactions, total and average amount 0, no failed and no
    recurring transactions, empty maps by kind and empty lists of top
    merchants, top categories and monthly trends. *)
Theorem analytics_of_no_transactions `{PyRuntime}
    (c : collection) (user_id : string) (start_date end_date : option Z) :
  Forall (fun x => analytics_match user_id start_date end_date x = false) (docs c) ->
  get_analytics c user_id start_date end_date
  = AnalyticsResponse.mk 0 (Q2Qc 0) (Q2Qc 0) ∅ ∅ [] [] [] 0 0.
Proof.
  intros Hnone. unfold get_analytics.
  rewrite (find_nothing _ _ Hnone). reflexivity.
Qed.

Lemma analytics_of_no_transactions_witness :
  get_analytics (H := example_runtime) sample_store "u2" (Some 0) None
  = AnalyticsResponse.mk 0 (Q2Qc 0) (Q2Qc 0) ∅ ∅ [] [] [] 0 0.
Proof.
  apply (analytics_of_no_transactions (H := example_runtime)).
  repeat constructor.
Defined.

(** ** Recurrence detection *)

Lemma recurring_update_user stamp d :
  set_fields (recurring_update stamp) d !! "user_id" = d !! "user_id".
Proof.
  unfold set_fields, recurring_update. apply lookup_union_r.
  rewrite lookup_insert_ne by discriminate. apply lookup_singleton_ne. discriminate.
Qed.

Lemma recurring_update_flagged stamp d :
  flagged (set_fields (recurring_update stamp) d).
Proof.
  unfold flagged, set_fields, recurring_update. apply lookup_union_Some_l.
  rewrite lookup_insert_ne by discriminate. apply lookup_singleton_eq.
Qed.

Lemma recurring_update_other stamp d k :
  k <> "is_recurring" -> k <> "updated_at" ->
  set_fields (recurring_update stamp) d !! k = d !! k.
Proof.
  intros H1 H2. unfold set_fields, recurring_update. apply lookup_union_r.
  rewrite lookup_insert_ne by congruence. apply lookup_singleton_ne. congruence.
Qed.

Lemma by_id_and_user_update stamp j u a d :
  by_id_and_user j u (a, set_fields (recurring_update stamp) d)
  = by_id_and_user j u (a, d).
Proof. unfold by_id_and_user. simpl. rewrite recurring_update_user. reflexivity. Qed.

Lemma by_id_and_user_id i u x : by_id_and_user i u x = true -> x.1 = i.
Proof.
  unfold by_id_and_user. intros Hq. apply andb_true_iff in Hq as [Hq _].
  apply bool_decide_eq_true_1 in Hq. exact Hq.
Qed.

Section LoopFacts.
Context `{PyRuntime}.

(** Marking one member is one [update_first] on the documents. *)
Lemma mark_one stamp c user_id i :
  (update_transaction stamp c user_id i {[ "is_recurring" := VBool true ]}).1
  = {| docs := (update_first (by_id_and_user i user_id)
                  (recurring_update stamp) (docs c)).1;
       next_id := next_id c |}.
Proof.
  unfold update_transaction.
  rewrite map_filter_singleton_True by discriminate.
  fold (recurring_update stamp).
  rewrite bool_decide_eq_false_2.
  2: { unfold recurring_update. rewrite lookup_insert_ne by discriminate.
       rewrite lookup_singleton_ne by discriminate. apply is_Some_None. }
  unfold update_one.
  destruct (update_first _ _ (docs c)) as [l n]. simpl.
  destruct (0 <? n)%nat; reflexivity.
Qed.

Lemma mark_recurring_docs stamp user_id members c :
  mark_recurring stamp c user_id members
  = {| docs := marked stamp user_id (docs c)
                 ((fun tx : string * Z * option value => tx.1.1) <$> members);
       next_id := next_id c |}.
Proof.
  unfold mark_recurring, marked. revert c.
  induction members as [ | tx members IH]; intros c; simpl.
  - destruct c; reflexivity.
  - rewrite IH, mark_one. reflexivity.
Qed.

Lemma recurring_loop_groups stamp user_id results c :
  (recurring_loop stamp c user_id results).2 = loop_groups results.
Proof.
  revert c. induction results as [ | r results IH]; intros c;
    cbn [recurring_loop loop_groups]; [reflexivity | ].
  destruct (2 <=? length r.2)%nat; [ | apply IH].
  destruct r.1.1.2 as [amount | ]; [ | reflexivity].
  specialize (IH (mark_recurring stamp c user_id r.2)).
  destruct (recurring_loop stamp _ user_id results) as [c' l]. simpl in *.
  rewrite IH. reflexivity.
Qed.

Lemma recurring_loop_docs stamp user_id results c :
  (recurring_loop stamp c user_id results).1
  = {| docs := marked stamp user_id (docs c) (loop_targets results);
       next_id := next_id c |}.
Proof.
  revert c. induction results as [ | r results IH]; intros c;
    cbn [recurring_loop loop_targets].
  - destruct c; reflexivity.
  - destruct (2 <=? length r.2)%nat; [ | apply IH].
    unfold marked. rewrite foldl_app. fold (marked stamp user_id (docs c)
      ((fun tx : string * Z * option value => tx.1.1) <$> r.2)).
    destruct r.1.1.2 as [amount | ].
    + specialize (IH (mark_recurring stamp c user_id r.2)).
      destruct (recurring_loop stamp _ user_id results) as [c' l]. simpl in *.
      rewrite IH, mark_recurring_docs. reflexivity.
    + simpl. apply mark_recurring_docs.
Qed.

End LoopFacts.

Lemma update_first_cons q upd a d l :
  (update_first q upd ((a, d) :: l)).1
  = if q (a, d) then (a, set_fields upd d) :: l
    else (a, d) :: (update_first q upd l).1.
Proof.
  simpl. destruct (q (a, d)); [reflexivity | ].
  destruct (update_first q upd l); reflexivity.
Qed.

Lemma same_view_refl l : same_view l l.
Proof. induction l; constructor; [split; auto | assumption]. Qed.

Lemma same_view_trans l1 l2 l3 :
  same_view l1 l2 -> same_view l2 l3 -> same_view l1 l3.
Proof.
  unfold same_view. intros H12. revert l3.
  induction H12 as [ | x y l1 l2 [Hxy Hk] _ IH]; intros l3 H23;
    inversion H23 as [ | ? z ? l3' [Hyz Hk'] Hrest]; subst; constructor.
  - split; [congruence | ]. intros k H1 H2.
    rewrite Hk' by assumption. apply Hk; assumption.
  - apply IH. exact Hrest.
Qed.

Lemma same_view_ids l l' : same_view l l' -> l'.*1 = l.*1.
Proof.
  induction 1 as [ | x x' l l' [Hx _] _ IH]; [reflexivity | ].
  rewrite !fmap_cons, Hx, IH. reflexivity.
Qed.

Section MarkFacts.
Variables (stamp : Z) (u : string).

Let step := mark_step stamp u.

Lemma step_present l i j :
  is_Some (List.find (by_id_and_user j u) l) ->
  is_Some (List.find (by_id_and_user j u) (step l i)).
Proof.
  unfold step, mark_step. induction l as [ | [a d] l IH]; [auto | ].
  rewrite update_first_cons. cbn [List.find].
  destruct (by_id_and_user i u (a, d)); cbn [List.find].
  - rewrite by_id_and_user_update.
    destruct (by_id_and_user j u (a, d)); [eauto | auto].
  - destruct (by_id_and_user j u (a, d)); [eauto | auto].
Qed.

Lemma step_marks l i :
  is_Some (List.find (by_id_and_user i u) l) -> marked_at u (step l i) i.
Proof.
  unfold step, mark_step, marked_at. induction l as [ | [a d] l IH]; [intros [x Hx]; discriminate | ].
  rewrite update_first_cons. cbn [List.find].
  destruct (by_id_and_user i u (a, d)) eqn:Hi; cbn [List.find].
  - rewrite by_id_and_user_update, Hi. intros _. eexists. split; [reflexivity | ].
    apply recurring_update_flagged.
  - rewrite Hi. exact IH.
Qed.

Lemma step_keeps l i j : marked_at u l j -> marked_at u (step l i) j.
Proof.
  unfold step, mark_step, marked_at. induction l as [ | [a d] l IH];
    [intros (x & Hx & _); discriminate | ].
  rewrite update_first_cons. cbn [List.find].
  destruct (by_id_and_user i u (a, d)); cbn [List.find].
  - rewrite by_id_and_user_update.
    destruct (by_id_and_user j u (a, d)); [ | auto].
    intros _. eexists. split; [reflexivity | ]. apply recurring_update_flagged.
  - destruct (by_id_and_user j u (a, d)); auto.
Qed.

Lemma step_flags l i : marked_at u l i -> flags (step l i) = flags l.
Proof.
  unfold step, mark_step, marked_at, flags. induction l as [ | [a d] l IH]; [reflexivity | ].
  rewrite update_first_cons. cbn [List.find].
  destruct (by_id_and_user i u (a, d)); cbn [List.find fmap list_fmap].
  - intros (x & [= <-] & Hx). simpl in Hx. unfold flagged in Hx. simpl.
    pose proof (recurring_update_flagged stamp d) as Hf. unfold flagged in Hf.
    rewrite Hx, Hf. reflexivity.
  - intros Hm. simpl. f_equal. apply IH. exact Hm.
Qed.

Lemma step_same_view l i : same_view l (step l i).
Proof.
  unfold step, mark_step, same_view.
  eapply Forall2_impl; [apply update_first_frame | ].
  intros [a d] [a' d']. simpl. intros [-> [-> | ->]]; split; auto.
  intros k Hk1 Hk2. apply recurring_update_other; assumption.
Qed.


(** After the loop, every target that selects a document selects a
    marked one. *)
Lemma marked_marks targets : forall l,
  Forall (fun i => is_Some (List.find (by_id_and_user i u) l)) targets ->
  Forall (marked_at u (marked stamp u l targets)) targets.
Proof.
  assert (Hkeep : forall targets l j,
             marked_at u l j -> marked_at u (marked stamp u l targets) j).
  { intros ts. induction ts as [ | i ts IH]; intros l j Hj; simpl; [exact Hj | ].
    apply IH. apply step_keeps. exact Hj. }
  induction targets as [ | i targets IH]; intros l Hall; [constructor | ].
  inversion Hall as [ | ? ? Hi Hrest]; subst. simpl. constructor.
  - apply Hkeep. apply step_marks. exact Hi.
  - apply IH. eapply Forall_impl; [exact Hrest | ].
    intros j Hj. apply step_present. exact Hj.
Qed.

(** Marking again what is marked leaves every flag as it is. *)
Lemma marked_flags targets : forall l,
  Forall (marked_at u l) targets ->
  flags (marked stamp u l targets) = flags l.
Proof.
  induction targets as [ | i targets IH]; intros l Hall; [reflexivity | ].
  inversion Hall as [ | ? ? Hi Hrest]; subst. simpl.
  fold (step l i). rewrite IH.
  - apply step_flags. exact Hi.
  - eapply Forall_impl; [exact Hrest | ]. intros j Hj. apply step_keeps. exact Hj.
Qed.

Lemma marked_same_view targets : forall l, same_view l (marked stamp u l targets).
Proof.
  induction targets as [ | i targets IH]; intros l; simpl.
  - apply same_view_refl.
  - eapply same_view_trans; [apply (step_same_view l i) | apply IH].
Qed.

Lemma marked_ids targets l : (marked stamp u l targets).*1 = l.*1.
Proof. apply same_view_ids, marked_same_view. Qed.

End MarkFacts.

Section PipelineFacts.
Variables (u : string) (t : Z).


Lemma view_match x x' : related x x' -> recurring_match u t x' = recurring_match u t x.
Proof.
  intros [_ Hk]. unfold recurring_match. rewrite !Hk by discriminate. reflexivity.
Qed.

Lemma view_key x x' : related x x' -> recurring_key x' = recurring_key x.
Proof.
  intros [_ Hk]. unfold recurring_key. rewrite !Hk by discriminate. reflexivity.
Qed.

Lemma view_member x x' : related x x' -> recurring_member x' = recurring_member x.
Proof.
  intros [Hi Hk]. unfold recurring_member. rewrite Hi, !Hk by discriminate. reflexivity.
Qed.

Lemma same_view_matched l l' :
  same_view l l' ->
  same_view (List.filter (recurring_match u t) l) (List.filter (recurring_match u t) l').
Proof.
  induction 1 as [ | x x' l l' Hx _ IH]; simpl; [constructor | ].
  rewrite (view_match x x' Hx).
  destruct (recurring_match u t x); [constructor; assumption | exact IH].
Qed.

Lemma same_view_group k l l' :
  same_view l l' ->
  same_view (filter (fun a => recurring_key a = k) l)
            (filter (fun a => recurring_key a = k) l').
Proof.
  induction 1 as [ | x x' l l' Hx _ IH]; [constructor | ].
  rewrite !filter_cons, (view_key x x' Hx).
  destruct (decide (recurring_key x = k)); [constructor; assumption | exact IH].
Qed.

Lemma same_view_fmap {B} (f : string * gmap string value -> B) l l' :
  (forall x x', related x x' -> f x' = f x) ->
  same_view l l' -> f <$> l' = f <$> l.
Proof.
  intros Hf. induction 1 as [ | x x' l l' Hx _ IH]; [reflexivity | ].
  rewrite !fmap_cons, IH, (Hf x x' Hx). reflexivity.
Qed.

(** The pipeline reads nothing that marking a member writes. *)
Lemma pipeline_same_view c c' :
  same_view (docs c) (docs c') ->
  recurring_pipeline u t c' = recurring_pipeline u t c.
Proof.
  intros Hv. unfold recurring_pipeline, find, group_by.
  apply same_view_matched in Hv.
  rewrite <- !list_fmap_compose.
  rewrite (same_view_fmap recurring_key _ _ view_key Hv).
  do 2 f_equal. apply list_fmap_ext. intros _ k _. simpl. f_equal.
  apply (same_view_fmap recurring_member); [exact view_member | ].
  apply same_view_group. exact Hv.
Qed.

(** What the pipeline returns: the groups of at least two members. *)
Lemma pipeline_elem c r :
  r ∈ recurring_pipeline u t c <->
  (2 <= length r.2)%nat
  /\ r.1 ∈ recurring_key <$> find c (recurring_match u t)
  /\ r.2 = recurring_member
             <$> filter (fun x => recurring_key x = r.1) (find c (recurring_match u t)).
Proof.
  unfold recurring_pipeline. rewrite merge_sort_Permutation.
  rewrite list_elem_of_In, filter_In, <- list_elem_of_In.
  rewrite Nat.leb_le. unfold group_by.
  rewrite <- list_fmap_compose, list_elem_of_fmap.
  setoid_rewrite elem_of_remove_dups. simpl. split.
  - intros [(k & -> & Hk) Hlen]. simpl in *. auto.
  - intros (Hlen & Hk & Hr). split; [ | exact Hlen].
    exists r.1. split; [ | exact Hk]. destruct r as [k ms]. simpl in *. congruence.
Qed.

#[local] Instance count_desc_trans {K A} : Transitive (@count_desc K A).
Proof. unfold count_desc. intros x y z Hxy Hyz. lia. Qed.

#[local] Instance count_desc_total {K A} : Total (@count_desc K A).
Proof. unfold count_desc. intros x y. lia. Qed.

Lemma pipeline_sorted c : StronglySorted count_desc (recurring_pipeline u t c).
Proof. unfold recurring_pipeline. apply StronglySorted_merge_sort; apply _. Qed.

End PipelineFacts.

(** When every result holds an amount, the loop marks every member and
    returns one group for each result. *)
Lemma loop_complete results :
  Forall (fun r : (value * option value * Z) * list (string * Z * option value) =>
            is_Some r.1.1.2 /\ (2 <= length r.2)%nat) results ->
  loop_groups results = Return (group_of <$> results)
  /\ loop_targets results
     = results ≫= (fun r => (fun tx : string * Z * option value => tx.1.1) <$> r.2).
Proof.
  induction 1 as [ | r results [[a Ha] Hlen] _ [IHg IHt]]; [split; reflexivity | ].
  cbn [loop_groups loop_targets]. apply Nat.leb_le in Hlen. rewrite Hlen, Ha, IHg, IHt.
  split; [ | reflexivity]. simpl. unfold group_of at 2. rewrite Ha. reflexivity.
Qed.

Lemma find_is_Some {A} (q : A -> bool) (l : list A) (x : A) :
  x ∈ l -> q x = true -> is_Some (List.find q l).
Proof.
  intros Hx Hq. destruct (List.find q l) eqn:Hf; [eauto | ].
  apply list_elem_of_In in Hx.
  rewrite (find_none _ _ Hf _ Hx) in Hq. discriminate Hq.
Qed.

Lemma recurring_match_selects u t x :
  recurring_match u t x = true -> by_id_and_user x.1 u x = true.
Proof.
  unfold recurring_match, by_id_and_user. intros Hm.
  apply andb_true_iff in Hm as [Hm _]. apply andb_true_iff in Hm as [Hm _].
  rewrite Hm. rewrite bool_decide_eq_true_2; reflexivity.
Qed.

Section DetectFacts.
Context `{PyRuntime}.

(** The two components of [detect_recurring_transactions]. *)
Lemma detect_recurring_unfold now stamp c user_id :
  detect_recurring_transactions now stamp c user_id
  = ({| docs := marked stamp user_id (docs c)
                  (loop_targets
                     (recurring_pipeline user_id (now - timedelta_days 180) c));
        next_id := next_id c |},
     except (loop_groups (recurring_pipeline user_id (now - timedelta_days 180) c)) []).
Proof.
  unfold detect_recurring_transactions.
  pose proof (recurring_loop_docs stamp user_id
                (recurring_pipeline user_id (now - timedelta_days 180) c) c) as Hd.
  pose proof (recurring_loop_groups stamp user_id
                (recurring_pipeline user_id (now - timedelta_days 180) c) c) as Hg.
  destruct (recurring_loop stamp c user_id _) as [c1 rt]. simpl in *.
  rewrite Hd, Hg. reflexivity.
Qed.

End DetectFacts.

Lemma NoDup_fst_unique {A B} (l : list (A * B)) x y1 y2 :
  NoDup l.*1 -> (x, y1) ∈ l -> (x, y2) ∈ l -> y1 = y2.
Proof.
  induction l as [ | [a b] l IH]; intros Hnd H1 H2.
  - apply not_elem_of_nil in H1. destruct H1.
  - rewrite fmap_cons in Hnd. apply NoDup_cons in Hnd as [Hnot Hnd].
    apply elem_of_cons in H1. apply elem_of_cons in H2.
    assert (Hin : forall y, (a, y) ∈ l -> a ∈ l.*1).
    { intros y Hy. apply list_elem_of_fmap. exists (a, y). split; [reflexivity | exact Hy]. }
    destruct H1 as [H1 | H1], H2 as [H2 | H2]; simplify_eq.
    + reflexivity.
    + destruct Hnot. eapply Hin. exact H2.
    + destruct Hnot. eapply Hin. exact H1.
    + apply IH; assumption.
Qed.

(** The groups by the key of the pipeline: every key shared by at
    least two of the matched documents is returned as one group holding
    exactly these documents; nothing else is returned; the groups come
    by descending count; and every member is flagged afterwards. *)
Lemma detect_recurring_by_key `{PyRuntime}
    (now stamp : Z) (c : collection) (user_id : string) :
  NoDup (docs c).*1 ->
  Forall (fun x => is_Some (x.2 !! "amount"))
    (find c (recurring_match user_id (now - timedelta_days 180))) ->
  let matched := find c (recurring_match user_id (now - timedelta_days 180)) in
  let c' := (detect_recurring_transactions now stamp c user_id).1 in
  let groups := (detect_recurring_transactions now stamp c user_id).2 in
  (forall k,
     (2 <= length (filter (fun x => recurring_key x = k) matched))%nat ->
     exists g,
       g ∈ groups /\ group_key g = k
       /\ RecurringGroup.frequency g
          = length (filter (fun x => recurring_key x = k) matched)
       /\ RecurringGroup.transactions g
          = recurring_member <$> filter (fun x => recurring_key x = k) matched)
  /\ (forall g, g ∈ groups ->
        (2 <= RecurringGroup.frequency g)%nat
        /\ RecurringGroup.frequency g = length (RecurringGroup.transactions g)
        /\ RecurringGroup.transactions g
           = recurring_member
               <$> filter (fun x => recurring_key x = group_key g) matched)
  /\ StronglySorted
       (fun g1 g2 => (RecurringGroup.frequency g2 <= RecurringGroup.frequency g1)%nat)
       groups
  /\ (forall g tx, g ∈ groups -> tx ∈ RecurringGroup.transactions g ->
        (exists d, (tx.1.1, d) ∈ docs c')
        /\ forall d, (tx.1.1, d) ∈ docs c' -> flagged d).
Proof.
  intros Hnd Hamount matched c' groups.
  set (t := now - timedelta_days 180) in *.
  set (results := recurring_pipeline user_id t c).
  assert (Hkey : forall r, r ∈ results ->
            is_Some r.1.1.2 /\ group_key (group_of r) = r.1).
  { intros r Hr. apply pipeline_elem in Hr as (_ & Hk & _).
    apply list_elem_of_fmap in Hk as (x & Hrk & Hx).
    rewrite Forall_forall in Hamount. destruct (Hamount x Hx) as [a Ha].
    destruct r as [[[m a'] d] ms]. simpl in *.
    unfold recurring_key in Hrk. rewrite Ha in Hrk. injection Hrk as -> -> ->.
    split; [eauto | reflexivity]. }
  assert (Hok : Forall (fun r : (value * option value * Z)
                                * list (string * Z * option value) =>
                          is_Some r.1.1.2 /\ (2 <= length r.2)%nat) results).
  { apply Forall_forall. intros r Hr. split; [apply Hkey, Hr | ].
    apply pipeline_elem in Hr. tauto. }
  destruct (loop_complete results Hok) as [Hg Ht].
  assert (Hgroups : groups = group_of <$> results).
  { subst groups. rewrite detect_recurring_unfold. simpl. fold t. fold results.
    rewrite Hg. reflexivity. }
  assert (Hdocs : docs c' = marked stamp user_id (docs c) (loop_targets results)).
  { subst c'. rewrite detect_recurring_unfold. reflexivity. }
  clearbody groups c'. subst groups.
  split; [ | split; [ | split]].
  - intros k Hlen.
    set (r := (k, recurring_member <$> filter (fun x => recurring_key x = k) matched)).
    assert (Hr : r ∈ results).
    { apply pipeline_elem. subst r. simpl. rewrite length_fmap.
      split; [exact Hlen | split; [ | reflexivity]].
      destruct (filter (fun x => recurring_key x = k) matched) as [ | x ms] eqn:Hf;
        [simpl in Hlen; lia | ].
      assert (Hx : x ∈ filter (fun x => recurring_key x = k) matched)
        by (rewrite Hf; left).
      apply list_elem_of_filter in Hx as [Hxk Hx].
      apply list_elem_of_fmap. exists x. split; [congruence | exact Hx]. }
    exists (group_of r). split; [apply list_elem_of_fmap_2; exact Hr | ].
    split; [apply (Hkey r Hr) | ]. subst r. simpl. rewrite length_fmap.
    split; reflexivity.
  - intros g Hg'. apply list_elem_of_fmap in Hg' as (r & -> & Hr).
    destruct (Hkey r Hr) as [_ Hk]. rewrite Hk.
    apply pipeline_elem in Hr as (Hlen & _ & Hms). simpl.
    split; [exact Hlen | split; [reflexivity | exact Hms]].
  - apply (StronglySorted_fmap group_of count_desc); [ | apply pipeline_sorted].
    intros x y Hxy. exact Hxy.
  - intros g tx Hg' Htx. apply list_elem_of_fmap in Hg' as (r & -> & Hr).
    simpl in Htx.
    assert (Hpresent : Forall (fun i => is_Some (List.find (by_id_and_user i user_id)
                                                   (docs c))) (loop_targets results)).
    { rewrite Ht. apply Forall_forall. intros i Hi.
      apply list_elem_of_bind in Hi as (r' & Hi & Hr').
      apply list_elem_of_fmap in Hi as (tx' & -> & Htx').
      apply pipeline_elem in Hr' as (_ & _ & Hms). rewrite Hms in Htx'.
      apply list_elem_of_fmap in Htx' as (x & -> & Hx).
      apply list_elem_of_filter in Hx as [_ Hx].
      apply list_elem_of_In, filter_In in Hx as [Hx Hm].
      apply list_elem_of_In in Hx.
      apply (find_is_Some _ _ x Hx). simpl.
      apply (recurring_match_selects _ _ _ Hm). }
    apply (marked_marks stamp) in Hpresent. rewrite <- Hdocs in Hpresent.
    rewrite Forall_forall in Hpresent.
    assert (Hi : tx.1.1 ∈ loop_targets results).
    { rewrite Ht. apply list_elem_of_bind. exists r. split; [ | exact Hr].
      apply list_elem_of_fmap. exists tx. split; [reflexivity | exact Htx]. }
    destruct (Hpresent _ Hi) as ([i0 d0] & Hfind & Hflag).
    apply find_some in Hfind as [Hin Hq]. apply list_elem_of_In in Hin.
    apply by_id_and_user_id in Hq. simpl in Hq, Hflag. subst i0.
    split; [exists d0; exact Hin | ].
    intros d Hd. rewrite (NoDup_fst_unique (docs c') tx.1.1 d d0); try assumption.
    rewrite Hdocs, marked_ids. exact Hnd.
Qed.

Lemma List_filter_sublist {A} (q : A -> bool) (l : list A) :
  sublist (List.filter q l) l.
Proof.
  induction l as [ | x l IH]; [constructor | ].
  cbn [List.filter]. destruct (q x); [apply sublist_skip | apply sublist_cons]; exact IH.
Qed.

Lemma two_elements {A} (l : list A) (x y : A) :
  x ∈ l -> y ∈ l -> x <> y -> (2 <= length l)%nat.
Proof.
  destruct l as [ | a [ | b l]]; intros Hx Hy Hne; [inversion Hx | | simpl; lia].
  apply list_elem_of_singleton in Hx. apply list_elem_of_singleton in Hy. congruence.
Qed.

(** What the [$match] stage of the pipeline selects. *)
Lemma recurring_match_iff u t0 (x : string * gmap string value) :
  recurring_match u t0 x = true <->
  x.2 !! "user_id" = Some (VStr u)
  /\ (exists t, x.2 !! "transaction_date" = Some (VDate t) /\ t0 <= t)
  /\ (exists m, x.2 !! "merchant" = Some m /\ m <> VNone).
Proof.
  unfold recurring_match. rewrite !andb_true_iff, bool_decide_eq_true. split.
  - intros [[Hu Hd] Hm]. split; [exact Hu | ]. split.
    + destruct (x.2 !! "transaction_date") as [[ | | | | t | | ] | ]; try discriminate Hd.
      exists t. split; [reflexivity | ]. apply bool_decide_eq_true_1 in Hd. exact Hd.
    + destruct (x.2 !! "merchant") as [v | ]; [ | discriminate Hm].
      exists v. split; [reflexivity | ]. intros ->. discriminate Hm.
  - intros (Hu & (t & Hd & Ht) & (m & Hm & Hne)). rewrite Hd, Hm.
    split; [split; [exact Hu | apply bool_decide_eq_true_2, Ht] | ].
    destruct m; try reflexivity. destruct Hne. reflexivity.
Qed.

(** The pipeline returns one result for each key. *)
Lemma pipeline_keys u t c : NoDup (recurring_pipeline u t c).*1.
Proof.
  unfold recurring_pipeline. rewrite merge_sort_Permutation.
  eapply sublist_NoDup; [ | apply fmap_sublist, List_filter_sublist].
  unfold group_by.
  generalize (NoDup_remove_dups (recurring_key <$> find c (recurring_match u t))).
  generalize (remove_dups (recurring_key <$> find c (recurring_match u t))).
  intros ks Hks.
  replace (((fun g : value * option value * Z * list (string * gmap string value) =>
               (g.1, recurring_member <$> g.2))
            <$> ((fun k : value * option value * Z =>
                    (k, filter (fun a : string * gmap string value => recurring_key a = k)
                          (find c (recurring_match u t)))) <$> ks)).*1)
    with ks; [exact Hks | ].
  induction ks as [ | k ks IH]; [reflexivity | ].
  apply NoDup_cons in Hks as [_ Hks]. rewrite !fmap_cons. cbn [fst]. f_equal.
  apply IH, Hks.
Qed.

Section GroupFacts.
Context `{PyRuntime}.

(** When every matched document holds an amount, the call returns the
    group of every result of the pipeline, under the key of that
    result. *)
Lemma detect_recurring_results now stamp c user_id :
  Forall (fun x => is_Some (x.2 !! "amount"))
    (find c (recurring_match user_id (now - timedelta_days 180))) ->
  (detect_recurring_transactions now stamp c user_id).2
  = group_of <$> recurring_pipeline user_id (now - timedelta_days 180) c
  /\ forall r, r ∈ recurring_pipeline user_id (now - timedelta_days 180) c ->
       group_key (group_of r) = r.1.
Proof.
  intros Hamount.
  set (t := now - timedelta_days 180) in *.
  set (results := recurring_pipeline user_id t c).
  assert (Hkey : forall r, r ∈ results ->
            is_Some r.1.1.2 /\ group_key (group_of r) = r.1).
  { intros r Hr. apply pipeline_elem in Hr as (_ & Hk & _).
    apply list_elem_of_fmap in Hk as (x & Hrk & Hx).
    rewrite Forall_forall in Hamount. destruct (Hamount x Hx) as [a Ha].
    destruct r as [[[m a'] d] ms]. simpl in *.
    unfold recurring_key in Hrk. rewrite Ha in Hrk. injection Hrk as -> -> ->.
    split; [eauto | reflexivity]. }
  assert (Hok : Forall (fun r : (value * option value * Z)
                                * list (string * Z * option value) =>
                          is_Some r.1.1.2 /\ (2 <= length r.2)%nat) results).
  { apply Forall_forall. intros r Hr. split; [apply Hkey, Hr | ].
    apply pipeline_elem in Hr. tauto. }
  destruct (loop_complete results Hok) as [Hg _].
  split; [ | intros r Hr; apply Hkey, Hr].
  rewrite detect_recurring_unfold. cbn [snd]. fold t. fold results.
  rewrite Hg. reflexivity.
Qed.

End GroupFacts.

(** C6: [detect_recurring_transactions] groups the owner's transactions
    that are dated no more than 180 days before the call and have a
    counterparty that is not null, by the triple (counterparty, amount,
    day of the month of the date). A group that is returned holds
    exactly the transactions of its triple, each once and in the order
    of the collection, and at least two of them; every triple that two
    such transactions share has a group; no triple has two groups; the
    groups come by descending count; and in the collection the call
    leaves behind, every member of a returned group has its recurring
    flag set to true. (The window has no upper end in the code: a
    transaction dated after the call is in it. The documents have
    distinct [_id]s, and those of the owner an amount, as the
    [Transaction] model writes them.) The three Netflix payments of 199
    on the 5th, among transactions that must not be grouped, are the
    witness below. *)
Theorem detect_recurring_groups `{PyRuntime}
    (now stamp : Z) (c : collection) (user_id : string) :
  NoDup (docs c).*1 ->
  (forall i d, (i, d) ∈ docs c -> d !! "user_id" = Some (VStr user_id) ->
               is_Some (d !! "amount")) ->
  let c' := (detect_recurring_transactions now stamp c user_id).1 in
  let groups := (detect_recurring_transactions now stamp c user_id).2 in
  (forall g, g ∈ groups ->
     (forall i t a,
        (i, t, a) ∈ RecurringGroup.transactions g <->
        exists d,
          (i, d) ∈ docs c
          /\ recurring_candidate now user_id d (RecurringGroup.merchant g)
               (RecurringGroup.amount g) (RecurringGroup.day_of_month g) t
          /\ a = Some (RecurringGroup.amount g))
     /\ sublist ((fun tx : string * Z * option value => tx.1.1)
                   <$> RecurringGroup.transactions g) (docs c).*1
     /\ RecurringGroup.frequency g = length (RecurringGroup.transactions g)
     /\ (2 <= RecurringGroup.frequency g)%nat)
  /\ (forall m a day i1 d1 t1 i2 d2 t2,
        (i1, d1) ∈ docs c -> (i2, d2) ∈ docs c -> i1 <> i2 ->
        recurring_candidate now user_id d1 m a day t1 ->
        recurring_candidate now user_id d2 m a day t2 ->
        exists g, g ∈ groups
                  /\ RecurringGroup.merchant g = m
                  /\ RecurringGroup.amount g = a
                  /\ RecurringGroup.day_of_month g = day)
  /\ NoDup ((fun g => (RecurringGroup.merchant g, RecurringGroup.amount g,
                       RecurringGroup.day_of_month g)) <$> groups)
  /\ StronglySorted
       (fun g1 g2 => (RecurringGroup.frequency g2 <= RecurringGroup.frequency g1)%nat)
       groups
  /\ (forall g tx, g ∈ groups -> tx ∈ RecurringGroup.transactions g ->
        (exists d, (tx.1.1, d) ∈ docs c')
        /\ forall d, (tx.1.1, d) ∈ docs c' -> d !! "is_recurring" = Some (VBool true)).
Proof.
  intros Hnd Hamount c' groups. subst c' groups.
  set (matched := find c (recurring_match user_id (now - timedelta_days 180))).
  assert (Hmatched : forall x,
            x ∈ matched <->
            x ∈ docs c
            /\ x.2 !! "user_id" = Some (VStr user_id)
            /\ (exists t, x.2 !! "transaction_date" = Some (VDate t)
                          /\ now - 180 * 86400000 <= t)
            /\ (exists m, x.2 !! "merchant" = Some m /\ m <> VNone)).
  { intros x. unfold matched, find.
    rewrite list_elem_of_In, filter_In, <- list_elem_of_In, recurring_match_iff.
    unfold timedelta_days, ms_per_day. reflexivity. }
  assert (Hold : Forall (fun x : string * gmap string value => is_Some (x.2 !! "amount"))
                   matched).
  { apply Forall_forall. intros [i d] Hx. apply Hmatched in Hx as (Hin & Hu & _).
    exact (Hamount i d Hin Hu). }
  destruct (detect_recurring_by_key now stamp c user_id Hnd Hold)
    as (Hcomplete & Hsound & Hsorted & Hflags).
  cbv zeta in Hcomplete, Hsound, Hsorted, Hflags. fold matched in Hcomplete, Hsound.
  destruct (detect_recurring_results now stamp c user_id Hold) as [Hgroups Hkeys].
  split; [ | split; [ | split; [ | split]]].
  - intros g Hg. destruct (Hsound g Hg) as (Hlen & Hfreq & Htx).
    split; [ | split; [ | split; [exact Hfreq | exact Hlen]]].
    + intros i t a. rewrite Htx, list_elem_of_fmap. split.
      * intros ([j d] & Hmem & Hx). apply list_elem_of_filter in Hx as [Hk Hx].
        apply Hmatched in Hx as (Hin & Hu & (t' & Hd & Hw) & (m & Hm & Hne)).
        cbn [fst snd] in Hu, Hd, Hm.
        unfold recurring_member in Hmem. cbn [fst snd] in Hmem. rewrite Hd in Hmem.
        injection Hmem as -> -> ->.
        unfold recurring_key, group_key in Hk. cbn [fst snd] in Hk.
        rewrite Hm, Hd in Hk. cbn [default] in Hk. injection Hk as Hkm Hka Hkd.
        exists d. split; [exact Hin | ]. split; [ | exact Hka].
        unfold recurring_candidate. rewrite <- Hkm, <- Hkd. repeat split; assumption.
      * intros (d & Hin & (Hu & Hd & Hw & Hday & Hm & Hne & Ha) & ->).
        exists (i, d). split.
        { unfold recurring_member. cbn [fst snd]. rewrite Hd, Ha. reflexivity. }
        apply list_elem_of_filter. split.
        { unfold recurring_key, group_key. cbn [fst snd].
          rewrite Hm, Hd, Ha, Hday. reflexivity. }
        apply Hmatched. cbn [snd]. split; [exact Hin | ]. split; [exact Hu | ].
        split; [exists t; split; assumption | exists (RecurringGroup.merchant g)].
        split; assumption.
    + rewrite Htx, <- list_fmap_compose.
      replace ((fun tx : string * Z * option value => tx.1.1) ∘ recurring_member
               <$> filter (fun x => recurring_key x = group_key g) matched)
        with ((filter (fun x => recurring_key x = group_key g) matched).*1)
        by (apply list_fmap_ext; intros n x _; reflexivity).
      etransitivity; [apply fmap_sublist, sublist_filter | ].
      apply fmap_sublist, List_filter_sublist.
  - intros m a day i1 d1 t1 i2 d2 t2 Hin1 Hin2 Hne Hc1 Hc2.
    assert (Hmember : forall i d t,
              (i, d) ∈ docs c -> recurring_candidate now user_id d m a day t ->
              (i, d) ∈ filter (fun x => recurring_key x = (m, Some a, day)) matched).
    { intros i d t Hin (Hu & Hd & Hw & Hday & Hm & Hnone & Ha).
      apply list_elem_of_filter. split.
      - unfold recurring_key. cbn [fst snd]. rewrite Hm, Hd, Ha, Hday. reflexivity.
      - apply Hmatched. cbn [snd]. split; [exact Hin | ]. split; [exact Hu | ].
        split; [exists t; split; assumption | exists m; split; assumption]. }
    destruct (Hcomplete (m, Some a, day)) as (g & Hg & Hk & _).
    { apply (two_elements _ (i1, d1) (i2, d2));
        [eapply Hmember; eassumption | eapply Hmember; eassumption | congruence]. }
    exists g. split; [exact Hg | ]. unfold group_key in Hk.
    injection Hk as Hkm Hka Hkd. auto.
  - rewrite Hgroups.
    apply (NoDup_fmap_1 (fun k : value * value * Z => (k.1.1, Some k.1.2, k.2))).
    rewrite <- !list_fmap_compose.
    replace ((fun k : value * value * Z => (k.1.1, Some k.1.2, k.2))
             ∘ ((fun g => (RecurringGroup.merchant g, RecurringGroup.amount g,
                           RecurringGroup.day_of_month g)) ∘ group_of)
             <$> recurring_pipeline user_id (now - timedelta_days 180) c)
      with ((recurring_pipeline user_id (now - timedelta_days 180) c).*1);
      [apply pipeline_keys | ].
    apply list_fmap_ext. intros n r Hr. symmetry.
    apply (Hkeys r). apply list_elem_of_lookup. exists n. exact Hr.
  - exact Hsorted.
  - intros g tx Hg Htx. exact (Hflags g tx Hg Htx).
Qed.

Lemma detect_recurring_groups_witness :
  let r := detect_recurring_transactions (H := example_runtime)
             (datetime 2025 3 20 0 0 0) (datetime 2025 3 20 0 0 1)
             history_store "u1" in
  r.2 = [ RecurringGroup.mk (VStr "Netflix") (num 199) 5 3
            [ ("0", datetime 2025 1 5 9 30 0, Some (num 199));
              ("1", datetime 2025 2 5 9 30 0, Some (num 199));
              ("3", datetime 2025 3 5 9 30 0, Some (num 199)) ] ]
  /\ flags (docs r.1)
     = [ ("0", Some (VBool true)); ("1", Some (VBool true));
         ("2", Some (VBool false)); ("3", Some (VBool true));
         ("4", Some (VBool false)); ("5", Some (VBool false));
         ("6", Some (VBool false)); ("7", Some (VBool false));
         ("8", Some (VBool false)); ("9", Some (VBool false)) ]
  /\ NoDup ((fun g => (RecurringGroup.merchant g, RecurringGroup.amount g,
                       RecurringGroup.day_of_month g)) <$> r.2)
  /\ forall g, g ∈ r.2 ->
       forall i t a,
         (i, t, a) ∈ RecurringGroup.transactions g <->
         exists d,
           (i, d) ∈ docs history_store
           /\ recurring_candidate (datetime 2025 3 20 0 0 0) "u1" d
                (RecurringGroup.merchant g) (RecurringGroup.amount g)
                (RecurringGroup.day_of_month g) t
           /\ a = Some (RecurringGroup.amount g).
Proof.
  intros r. subst r.
  assert (Hnd : NoDup (docs history_store).*1).
  { apply (bool_decide_unpack _). vm_compute. exact I. }
  assert (Hall : Forall (fun x : string * gmap string value => is_Some (x.2 !! "amount"))
                   (docs history_store)).
  { apply (bool_decide_unpack _). vm_compute. exact I. }
  assert (Hamount : forall i d, (i, d) ∈ docs history_store ->
                      d !! "user_id" = Some (VStr "u1") -> is_Some (d !! "amount")).
  { intros i d Hin _. exact (proj1 (Forall_forall _ _) Hall (i, d) Hin). }
  destruct (detect_recurring_groups (H := example_runtime)
              (datetime 2025 3 20 0 0 0) (datetime 2025 3 20 0 0 1)
              history_store "u1" Hnd Hamount) as (Hsound & _ & Hkeys & _ & _).
  split; [vm_compute; reflexivity | ]. split; [vm_compute; reflexivity | ].
  split; [exact Hkeys | ].
  intros g Hg. exact (proj1 (Hsound g Hg)).
Defined.

Lemma loop_targets_members results i :
  i ∈ loop_targets results ->
  exists r tx, r ∈ results /\ tx ∈ r.2 /\ i = tx.1.1.
Proof.
  induction results as [ | r results IH]; cbn [loop_targets]; intros Hi.
  - apply not_elem_of_nil in Hi. destruct Hi.
  - assert (Hrest : i ∈ loop_targets results ->
                    exists r0 tx, r0 ∈ r :: results /\ tx ∈ r0.2 /\ i = tx.1.1).
    { intros Hi'. destruct (IH Hi') as (r0 & tx & Hr0 & Htx & ->).
      exists r0, tx. split; [right; exact Hr0 | split; [exact Htx | reflexivity]]. }
    destruct (2 <=? length r.2)%nat; [ | exact (Hrest Hi)].
    apply elem_of_app in Hi as [Hi | Hi].
    + apply list_elem_of_fmap in Hi as (tx & -> & Htx).
      exists r, tx. split; [left | split; [exact Htx | reflexivity]].
    + destruct r.1.1.2; [exact (Hrest Hi) | ].
      apply not_elem_of_nil in Hi. destruct Hi.
Qed.

(** Every member the loop marks is a document of the collection. *)
Lemma targets_present u t c :
  Forall (fun i => is_Some (List.find (by_id_and_user i u) (docs c)))
    (loop_targets (recurring_pipeline u t c)).
Proof.
  apply Forall_forall. intros i Hi.
  apply loop_targets_members in Hi as (r & tx & Hr & Htx & ->).
  apply pipeline_elem in Hr as (_ & _ & Hms). rewrite Hms in Htx.
  apply list_elem_of_fmap in Htx as (x & -> & Hx).
  apply list_elem_of_filter in Hx as [_ Hx].
  apply list_elem_of_In, filter_In in Hx as [Hx Hm].
  apply list_elem_of_In in Hx.
  apply (find_is_Some _ _ x Hx). simpl.
  apply (recurring_match_selects _ _ _ Hm).
Qed.

(** C7: [detect_recurring_transactions] is idempotent. Run a second time
    with the same reference time on the collection the first run left,
    it returns the same list of groups, and every transaction has the
    recurring flag it had after the first run (whatever the times
    [stamp1] and [stamp2] written to [updated_at]). *)
Theorem detect_recurring_idempotent `{PyRuntime}
    (now stamp1 stamp2 : Z) (c : collection) (user_id : string) :
  let run1 := detect_recurring_transactions now stamp1 c user_id in
  let run2 := detect_recurring_transactions now stamp2 run1.1 user_id in
  run2.2 = run1.2 /\ flags (docs run2.1) = flags (docs run1.1).
Proof.
  intros run1 run2. subst run2 run1.
  rewrite (detect_recurring_unfold now stamp1 c).
  rewrite detect_recurring_unfold. cbn [fst snd docs].
  set (t := now - timedelta_days 180).
  set (results := recurring_pipeline user_id t c).
  rewrite (pipeline_same_view user_id t c
             {| docs := marked stamp1 user_id (docs c) (loop_targets results);
                next_id := next_id c |})
    by (apply marked_same_view).
  fold results. split; [reflexivity | ].
  apply marked_flags. apply marked_marks. apply targets_present.
Qed.

(** ** Ingestion: at most one transaction for each message *)

Section ValidationFacts.
Context `{PyRuntime}.

Lemma optional_str_value (o : option string) (v : option value) x :
  v = Some (opt_value VStr o) -> optional str_validator v = Some x -> x = o.
Proof. intros -> Hx. destruct o; simpl in Hx; congruence. Qed.

Lemma Transaction_validate_message now data x o :
  data !! "sms_message_id" = Some (opt_value VStr o) ->
  Transaction_validate now data = Some x ->
  Transaction.sms_message_id x = o.
Proof.
  intros Hs Hv. unfold Transaction_validate in Hv.
  do 2 next_field Hv. next_field Hv.
  apply (optional_str_value _ _ _ Hs) in E1. subst.
  repeat next_field Hv. injection Hv as <-. reflexivity.
Qed.

Lemma SMSMessage_validate_id now data x i :
  data !! "id" = Some (VStr i) ->
  SMSMessage_validate now data = Some x ->
  SMSMessage.id x = Some i.
Proof.
  intros Hs Hv. unfold SMSMessage_validate in Hv. rewrite Hs in Hv.
  cbn [optional str_validator fmap option_fmap option_map mbind option_bind] in Hv.
  repeat next_field Hv. injection Hv as <-. reflexivity.
Qed.

End ValidationFacts.

Lemma frame_refs upd l l' :
  upd !! "sms_message_id" = None ->
  Forall2 (fun x x' : string * gmap string value =>
             x'.1 = x.1 /\ (x'.2 = x.2 \/ x'.2 = set_fields upd x.2)) l l' ->
  (fun x => x.2 !! "sms_message_id") <$> l'
  = (fun x => x.2 !! "sms_message_id") <$> l.
Proof.
  intros Hupd. induction 1 as [ | x x' l l' [_ Hx] _ IH]; [reflexivity | ].
  rewrite !fmap_cons, IH. f_equal.
  destruct Hx as [-> | ->]; [reflexivity | ].
  unfold set_fields. apply lookup_union_r. exact Hupd.
Qed.

Lemma frame_elem upd (l l' : list (string * gmap string value)) i d :
  Forall2 (fun x x' => x'.1 = x.1 /\ (x'.2 = x.2 \/ x'.2 = set_fields upd x.2)) l l' ->
  (i, d) ∈ l ->
  exists d', (i, d') ∈ l' /\ (d' = d \/ d' = set_fields upd d).
Proof.
  intros Hf Hin. apply list_elem_of_lookup in Hin as [n Hn].
  destruct (Forall2_lookup_l _ _ _ _ _ Hf Hn) as ([i' d'] & Hn' & Hi & Hd).
  simpl in *. subst i'. exists d'. split; [ | exact Hd].
  apply list_elem_of_lookup. exists n. exact Hn'.
Qed.

Lemma frame_ids upd (l l' : list (string * gmap string value)) :
  Forall2 (fun x x' => x'.1 = x.1 /\ (x'.2 = x.2 \/ x'.2 = set_fields upd x.2)) l l' ->
  l'.*1 = l.*1.
Proof.
  induction 1 as [ | x x' l l' [Hx _] _ IH]; [reflexivity | ].
  rewrite !fmap_cons, Hx, IH. reflexivity.
Qed.

(** The first document a query selects is written. *)
Lemma update_first_hits q upd l x :
  List.find q l = Some x ->
  (x.1, set_fields upd x.2) ∈ (update_first q upd l).1.
Proof.
  induction l as [ | [a d] l IH]; [discriminate | ].
  rewrite update_first_cons. cbn [List.find].
  destruct (q (a, d)).
  - intros [= <-]. left.
  - intros Hx. right. apply IH. exact Hx.
Qed.

Lemma parsed_update_parsed now d : is_parsed (set_fields (parsed_update now) d).
Proof. unfold is_parsed, set_fields. apply lookup_union_Some_l. reflexivity. Qed.

(** [mark_sms_as_parsed]: the message is marked, no other message is
    unmarked, and the identifiers stay. *)
Lemma mark_sms_as_parsed_effect `{PyRuntime} now c s :
  let c' := (mark_sms_as_parsed now c (Some s)).1 in
  (docs c').*1 = (docs c).*1
  /\ next_id c' = next_id c
  /\ (s ∈ (docs c).*1 -> exists d, (s, d) ∈ docs c' /\ is_parsed d)
  /\ (forall i d, (i, d) ∈ docs c -> is_parsed d ->
                  exists d', (i, d') ∈ docs c' /\ is_parsed d').
Proof.
  unfold mark_sms_as_parsed, update_one. fold (parsed_update now).
  pose proof (update_first_frame (by_id s) (parsed_update now) (docs c)) as Hf.
  pose proof (update_first_hits (by_id s) (parsed_update now) (docs c)) as Hh.
  destruct (update_first (by_id s) (parsed_update now) (docs c)) as [l n].
  simpl in *. split; [eapply frame_ids; exact Hf | ]. split; [reflexivity | ].
  split.
  - intros Hs. apply list_elem_of_fmap in Hs as ([i d] & -> & Hin).
    destruct (find_is_Some (by_id (i, d).1) (docs c) (i, d) Hin) as [x Hx].
    { unfold by_id. apply bool_decide_eq_true_2. reflexivity. }
    specialize (Hh x Hx). apply find_some in Hx as [_ Hq].
    apply bool_decide_eq_true_1 in Hq. simpl in Hq. rewrite Hq in Hh.
    eexists. split; [exact Hh | apply parsed_update_parsed].
  - intros i d Hin Hp. destruct (frame_elem _ _ _ _ _ Hf Hin) as (d' & Hin' & [-> | ->]).
    + eauto.
    + eexists. split; [exact Hin' | apply parsed_update_parsed].
Qed.

Section IngestFacts.
Context `{PyRuntime}.

Lemma update_transaction_references now c user_id i payload :
  payload !! "sms_message_id" = None ->
  references (update_transaction now c user_id i payload).1 = references c.
Proof.
  intros Hp. unfold references.
  eapply frame_refs; [ | apply update_transaction_docs].
  rewrite lookup_insert_ne by discriminate.
  apply map_lookup_filter_None. left. exact Hp.
Qed.

Lemma auto_categorize_references now c x :
  references (_auto_categorize_transaction now c x) = references c.
Proof.
  unfold _auto_categorize_transaction.
  destruct (Transaction.merchant x) as [m | ]; [ | reflexivity].
  destruct (_ || _); [reflexivity | ].
  destruct (List.find _ category_mapping) as [[category keywords] | ]; [ | reflexivity].
  destruct (Transaction.id x) as [i | ]; [ | reflexivity].
  apply update_transaction_references. apply lookup_singleton_ne. discriminate.
Qed.

(** [create_transaction] either refuses the data and writes nothing, or
    appends one document that carries the [sms_message_id] of the data. *)
Lemma create_transaction_references now c user_id data o :
  data !! "sms_message_id" = Some (opt_value VStr o) ->
  let r := create_transaction now c user_id data in
  (r.2 = None /\ r.1 = c)
  \/ (is_Some r.2
      /\ references r.1 = (references c ++ [Some (opt_value VStr o)])%list).
Proof.
  intros Hs. unfold create_transaction.
  destruct (Transaction_validate now (<["user_id" := VStr user_id]> data))
    as [x | ] eqn:Hv; [right | left; split; reflexivity].
  assert (Hx : Transaction.sms_message_id x = o).
  { eapply Transaction_validate_message; [ | exact Hv].
    rewrite lookup_insert_ne by discriminate. exact Hs. }
  unfold insert_one. cbn [fst snd]. split; [eauto | ].
  rewrite auto_categorize_references. unfold references. cbn [docs].
  rewrite fmap_app. f_equal. rewrite <- Hx. reflexivity.
Qed.

(** [process_sms_for_transactions] either changes nothing, or adds one
    transaction that refers to the message and marks the message. *)
Lemma process_sms_effect now w user_id m reply :
  let w' := (process_sms_for_transactions now w user_id m reply).1 in
  w' = w
  \/ (references (transactions w')
      = (references (transactions w)
           ++ [Some (opt_value VStr (SMSMessage.id m))])%list
      /\ sms_messages w'
         = (mark_sms_as_parsed now (sms_messages w) (SMSMessage.id m)).1).
Proof.
  unfold process_sms_for_transactions.
  destruct (process_sms_intelligently now reply) as [p | ] eqn:Hp; [ | left; reflexivity].
  assert (Hs : (p ∪ list_to_map
                   [ ("user_id", VStr user_id);
                     ("sms_message_id", opt_value VStr (SMSMessage.id m)) ])
               !! "sms_message_id" = Some (opt_value VStr (SMSMessage.id m))).
  { destruct reply as [ | | | v]; try discriminate Hp.
    apply process_sms_Some in Hp. apply sms_fields_no_message_id in Hp as [Hp _].
    rewrite lookup_union_r by exact Hp. reflexivity. }
  pose proof (create_transaction_references now (transactions w) user_id _ _ Hs) as Hc.
  simpl in Hc.
  destruct (create_transaction now (transactions w) user_id _) as [txs created].
  simpl in Hc. destruct Hc as [[-> ->] | [[x ->] Hrefs]].
  - left. destruct w; reflexivity.
  - right. destruct (mark_sms_as_parsed now (sms_messages w) (SMSMessage.id m))
      as [sms b]. simpl. split; [exact Hrefs | reflexivity].
Qed.

End IngestFacts.

Lemma derived_zero s w :
  derived s w = 0%nat <-> Some (VStr s) ∉ references (transactions w).
Proof.
  unfold derived. split.
  - intros Hz Hin.
    assert (Hf : Some (VStr s) ∈ filter (fun r => r = Some (VStr s))
                                   (references (transactions w)))
      by (apply list_elem_of_filter; split; [reflexivity | exact Hin]).
    destruct (filter _ _); [apply not_elem_of_nil in Hf; exact Hf | discriminate Hz].
  - intros Hnot.
    destruct (filter (fun r => r = Some (VStr s)) (references (transactions w)))
      as [ | r l] eqn:Hf; [reflexivity | ].
    assert (Hr : r ∈ filter (fun r => r = Some (VStr s))
                          (references (transactions w))) by (rewrite Hf; left).
    apply list_elem_of_filter in Hr as [-> Hr]. destruct (Hnot Hr).
Qed.

Lemma derived_app s s0 w w' :
  references (transactions w')
  = (references (transactions w) ++ [Some (VStr s0)])%list ->
  derived s w' = (derived s w + if decide (s = s0) then 1 else 0)%nat.
Proof.
  intros Hr. unfold derived. rewrite Hr, filter_app, length_app. f_equal.
  rewrite filter_cons, filter_nil.
  destruct (decide (s = s0)) as [-> | Hne].
  - rewrite decide_True by reflexivity. reflexivity.
  - rewrite decide_False by congruence. reflexivity.
Qed.

Section ConsistencyFacts.
Context `{PyRuntime}.

(** Processing a message no transaction was derived from keeps the
    collections consistent. *)
Lemma consistent_process now w user_id m reply s :
  consistent w ->
  SMSMessage.id m = Some s ->
  s ∈ (docs (sms_messages w)).*1 ->
  derived s w = 0%nat ->
  let w' := (process_sms_for_transactions now w user_id m reply).1 in
  consistent w'
  /\ (docs (sms_messages w')).*1 = (docs (sms_messages w)).*1
  /\ (forall s', s' <> s -> derived s' w' = derived s' w).
Proof.
  intros Hw Hid Hs Hzero w'.
  destruct (process_sms_effect now w user_id m reply) as [Heq | [Hrefs Hsms]];
    fold w' in Heq || fold w' in Hrefs, Hsms.
  { rewrite Heq. auto. }
  rewrite Hid in Hrefs, Hsms. simpl in Hrefs.
  destruct (mark_sms_as_parsed_effect now (sms_messages w) s)
    as (Hids & Hnext & Hmark & Hkeep).
  rewrite <- Hsms in Hids, Hnext, Hmark, Hkeep.
  assert (Hother : forall s', s' <> s -> derived s' w' = derived s' w).
  { intros s' Hne. rewrite (derived_app s' s w w' Hrefs).
    rewrite decide_False by exact Hne. lia. }
  split; [ | split; [exact Hids | exact Hother]].
  destruct Hw as [Hnd Hissued Hparsed Hone]. split.
  - rewrite Hids. exact Hnd.
  - intros i Hi. rewrite Hids in Hi. rewrite Hnext. apply Hissued, Hi.
  - intros s' Hin. rewrite Hrefs in Hin. apply elem_of_app in Hin as [Hin | Hin].
    + destruct (Hparsed s' Hin) as (d & Hd & Hp). eapply Hkeep; eassumption.
    + apply list_elem_of_singleton in Hin. injection Hin as ->. apply Hmark, Hs.
  - intros s'. destruct (decide (s' = s)) as [-> | Hne].
    + rewrite (derived_app s s w w' Hrefs), Hzero.
      rewrite decide_True by reflexivity. lia.
    + rewrite (Hother s' Hne). apply Hone.
Qed.

End ConsistencyFacts.

Lemma find_ids_NoDup (q : string * gmap string value -> bool) l :
  NoDup l.*1 -> NoDup (List.filter q l).*1.
Proof.
  induction l as [ | x l IH]; intros Hnd; [exact Hnd | ].
  rewrite fmap_cons in Hnd. apply NoDup_cons in Hnd as [Hx Hnd]. simpl.
  destruct (q x); [ | apply IH, Hnd].
  rewrite fmap_cons. apply NoDup_cons. split; [ | apply IH, Hnd].
  intros Hin. apply Hx. apply list_elem_of_fmap in Hin as (y & -> & Hy).
  apply list_elem_of_In, filter_In in Hy as [Hy _]. apply list_elem_of_In in Hy.
  apply list_elem_of_fmap_2. exact Hy.
Qed.

Section RescanFacts.
Context `{PyRuntime}.

(** Saving a message keeps the collections consistent; the message is
    new, and no transaction refers to it. *)
Lemma consistent_save now w user_id sms_data :
  consistent w ->
  let r := save_sms now (sms_messages w) user_id sms_data in
  let w1 := {| sms_messages := r.1; transactions := transactions w |} in
  consistent w1
  /\ exists m s, r.2 = Some m /\ SMSMessage.id m = Some s
                 /\ s ∈ (docs (sms_messages w1)).*1 /\ derived s w1 = 0%nat.
Proof.
  intros [Hnd Hissued Hparsed Hone]. unfold save_sms, insert_one. simpl.
  set (s := pretty (next_id (sms_messages w))).
  assert (Hfresh : s ∉ (docs (sms_messages w)).*1).
  { intros Hin. destruct (Hissued s Hin) as (n & Hn & Hlt).
    apply (inj pretty) in Hn. lia. }
  split; [split; simpl | ].
  - rewrite fmap_app. apply NoDup_app. split; [exact Hnd | ].
    split; [ | apply NoDup_singleton].
    intros i Hi Hi'. apply list_elem_of_singleton in Hi'. simpl in Hi'. congruence.
  - intros i Hi. rewrite fmap_app in Hi. apply elem_of_app in Hi as [Hi | Hi].
    + destruct (Hissued i Hi) as (n & -> & Hlt). exists n. split; [reflexivity | lia].
    + apply list_elem_of_singleton in Hi. simpl in Hi.
      exists (next_id (sms_messages w)). split; [exact Hi | lia].
  - intros s' Hin. destruct (Hparsed s' Hin) as (d & Hd & Hp).
    exists d. split; [apply elem_of_app; left; exact Hd | exact Hp].
  - exact Hone.
  - eexists. exists s. split; [reflexivity | ]. split; [reflexivity | ]. split.
    + rewrite fmap_app. apply elem_of_app. right. left.
    + apply derived_zero. simpl. intros Hin.
      destruct (Hparsed s Hin) as (d & Hd & _). apply Hfresh.
      apply list_elem_of_fmap. exists (s, d). split; [reflexivity | exact Hd].
Qed.

(** What a rescan selects: messages of the collection, each once, none
    of them parsed. *)
Lemma unparsed_messages now c user_id :
  NoDup (docs c).*1 ->
  NoDup (SMSMessage.id <$> get_unparsed_sms_messages now c user_id)
  /\ forall m, m ∈ get_unparsed_sms_messages now c user_id ->
       exists i d, SMSMessage.id m = Some i /\ (i, d) ∈ docs c
                   /\ d !! "parsed" = Some (VBool false).
Proof.
  intros Hnd. unfold get_unparsed_sms_messages.
  set (cursor := sort_desc "timestamp" (find c (unparsed_of user_id))).
  assert (Hperm : cursor ≡ₚ List.filter (unparsed_of user_id) (docs c))
    by apply merge_sort_Permutation.
  destruct (mapM _ cursor) as [ms | ] eqn:Hm; simpl;
    [ | split; [constructor | intros m Hm'; apply not_elem_of_nil in Hm'; destruct Hm']].
  apply mapM_Some in Hm.
  assert (Hid : forall x m,
             (let '(i, doc) := x in
              SMSMessage_validate now (<["id" := VStr i]> doc)) = Some m ->
             SMSMessage.id m = Some x.1).
  { intros [i doc] m Hv. eapply SMSMessage_validate_id; [ | exact Hv].
    apply lookup_insert_eq. }
  split.
  - assert (Hids : SMSMessage.id <$> ms = Some <$> cursor.*1).
    { clear Hperm. induction Hm as [ | x m l k Hx _ IH]; [reflexivity | ].
      rewrite !fmap_cons, IH, (Hid x m Hx). reflexivity. }
    rewrite Hids. apply NoDup_fmap_2; [apply _ | ].
    rewrite Hperm. apply find_ids_NoDup, Hnd.
  - intros m Hin. apply list_elem_of_lookup in Hin as [n Hn].
    destruct (Forall2_lookup_r _ _ _ _ _ Hm Hn) as ([i doc] & Hx & Hv).
    exists i, doc. split; [apply (Hid (i, doc) m Hv) | ].
    assert (Hin : (i, doc) ∈ cursor) by (apply list_elem_of_lookup; eauto).
    rewrite Hperm in Hin. apply list_elem_of_In, filter_In in Hin as [Hin Hq].
    apply list_elem_of_In in Hin. split; [exact Hin | ].
    unfold unparsed_of in Hq. apply andb_true_iff in Hq as [_ Hq].
    apply bool_decide_eq_true_1 in Hq. exact Hq.
Qed.

End RescanFacts.

Lemma consistent_empty : consistent empty_world.
Proof.
  split; simpl.
  - constructor.
  - intros i Hi. apply not_elem_of_nil in Hi. destruct Hi.
  - intros s Hs. apply not_elem_of_nil in Hs. destruct Hs.
  - intros s. unfold derived. simpl. lia.
Qed.

Section RunFacts.
Context `{PyRuntime}.

(** A message that is not parsed has no transaction derived from it. *)
Lemma unparsed_not_derived w i d :
  consistent w ->
  (i, d) ∈ docs (sms_messages w) -> d !! "parsed" = Some (VBool false) ->
  derived i w = 0%nat.
Proof.
  intros Hw Hin Hp. apply derived_zero. intros Href.
  destruct (referenced_parsed w Hw i Href) as (d' & Hd' & Hp').
  rewrite (NoDup_fst_unique _ i d d' (ids_distinct w Hw) Hin Hd') in Hp.
  unfold is_parsed in Hp'. congruence.
Qed.

Lemma rescan_loop now user_id replies ms : forall w acc,
  consistent w ->
  NoDup (SMSMessage.id <$> ms) ->
  (forall m, m ∈ ms ->
     exists s, SMSMessage.id m = Some s
               /\ s ∈ (docs (sms_messages w)).*1 /\ derived s w = 0%nat) ->
  consistent
    (foldl
       (fun '(w, processed_results) sms =>
          let '(w, result) :=
            process_sms_for_transactions now w user_id sms (replies sms) in
          match result with
          | Some r => (w, (processed_results ++ [r])%list)
          | None => (w, processed_results)
          end)
       (w, acc) ms).1.
Proof.
  induction ms as [ | m ms IH]; intros w acc Hw Hnd Hms; [exact Hw | ].
  rewrite fmap_cons in Hnd. apply NoDup_cons in Hnd as [Hm Hnd].
  destruct (Hms m) as (s & Hid & Hs & Hzero); [left | ].
  pose proof (consistent_process now w user_id m (replies m) s Hw Hid Hs Hzero)
    as (Hw' & Hids & Hother).
  cbn [foldl].
  destruct (process_sms_for_transactions now w user_id m (replies m))
    as [w' result]. simpl in Hw', Hids, Hother.
  assert (Hms' : forall m', m' ∈ ms ->
            exists s', SMSMessage.id m' = Some s'
                       /\ s' ∈ (docs (sms_messages w')).*1 /\ derived s' w' = 0%nat).
  { intros m' Hm'. destruct (Hms m') as (s' & Hid' & Hs' & Hzero'); [right; exact Hm' | ].
    exists s'. split; [exact Hid' | ]. rewrite Hids. split; [exact Hs' | ].
    rewrite Hother; [exact Hzero' | ]. intros ->. apply Hm.
    rewrite Hid, <- Hid'. apply list_elem_of_fmap_2. exact Hm'. }
  destruct result; apply IH; assumption.
Qed.

Lemma consistent_run_operation w o :
  consistent w -> consistent (run_operation w o).
Proof.
  intros Hw. destruct o as [now user_id sms_data reply | now user_id replies]; simpl.
  - unfold receive_sms.
    destruct (consistent_save now w user_id sms_data Hw)
      as (Hw1 & m & s & Hm & Hid & Hs & Hzero).
    destruct (save_sms now (sms_messages w) user_id sms_data) as [sms saved].
    simpl in *. subst saved.
    apply (consistent_process now _ user_id m reply s Hw1 Hid Hs Hzero).
  - unfold reprocess_unparsed_sms.
    destruct (unparsed_messages now (sms_messages w) user_id (ids_distinct w Hw))
      as [Hnd Hms].
    apply rescan_loop; [exact Hw | exact Hnd | ].
    intros m Hm. destruct (Hms m Hm) as (i & d & Hid & Hin & Hp).
    exists i. split; [exact Hid | ]. split.
    + apply list_elem_of_fmap. exists (i, d). split; [reflexivity | exact Hin].
    + eapply unparsed_not_derived; eassumption.
Qed.

Lemma consistent_run ops : forall w, consistent w -> consistent (run w ops).
Proof.
  unfold run. induction ops as [ | o ops IH]; intros w Hw; [exact Hw | ].
  simpl. apply IH. apply consistent_run_operation. exact Hw.
Qed.

End RunFacts.

(** C5: after any sequence of ingest and rescan operations, at most one
    transaction refers to any message. Once a transaction is derived
    from a message the message is marked parsed, and a rescan selects
    only messages that are not parsed, from which no transaction has
    been derived. *)
Theorem at_most_one_transaction_per_message `{PyRuntime}
    (ops : list operation) (s : string) :
  let w := run empty_world ops in
  (derived s w <= 1)%nat
  /\ (forall d, derived s w = 1%nat -> (s, d) ∈ docs (sms_messages w) -> is_parsed d)
  /\ (forall now user_id m,
        m ∈ get_unparsed_sms_messages now (sms_messages w) user_id ->
        exists i d, SMSMessage.id m = Some i
                    /\ (i, d) ∈ docs (sms_messages w)
                    /\ d !! "parsed" = Some (VBool false)
                    /\ derived i w = 0%nat).
Proof.
  intros w. assert (Hw : consistent w) by (apply consistent_run, consistent_empty).
  split; [apply (at_most_one w Hw) | split].
  - intros d Hone Hin.
    destruct (decide (Some (VStr s) ∈ references (transactions w))) as [Href | Hnot].
    + destruct (referenced_parsed w Hw s Href) as (d' & Hd' & Hp).
      rewrite (NoDup_fst_unique _ s d d' (ids_distinct w Hw) Hin Hd'). exact Hp.
    + apply derived_zero in Hnot. lia.
  - intros now user_id m Hm.
    destruct (unparsed_messages now (sms_messages w) user_id (ids_distinct w Hw))
      as [_ Hms].
    destruct (Hms m Hm) as (i & d & Hid & Hin & Hp).
    exists i, d. repeat split; try assumption.
    eapply unparsed_not_derived; eassumption.
Qed.

(** The message of the example: nothing is derived by the failed
    ingestion, one transaction by the first rescan, nothing more by the
    second. *)
Example retried_ingestion_derives_one :
  derived "0" (run (H := example_runtime) empty_world (take 1 retried_ingestion)) = 0%nat
  /\ derived "0" (run (H := example_runtime) empty_world (take 2 retried_ingestion)) = 1%nat
  /\ derived "0" (run (H := example_runtime) empty_world retried_ingestion) = 1%nat.
Proof. repeat split; vm_compute; reflexivity. Qed.

(** * Further properties of the services *)

(** ** Kinds and payment methods *)

Lemma TransactionType_of_value_Some (x : string) (t : TransactionType) :
  TransactionType_of_value x = Some t <-> x = TransactionType_value t.
Proof.
  unfold TransactionType_of_value. cbn [list_find].
  split.
  - repeat (case_decide; [cbn; intros [= <-]; congruence | ]). discriminate.
  - intros ->. destruct t; reflexivity.
Qed.

Lemma PaymentMethod_of_value_Some (x : string) (m : PaymentMethod) :
  PaymentMethod_of_value x = Some m <-> x = PaymentMethod_value m.
Proof.
  unfold PaymentMethod_of_value. cbn [list_find].
  split.
  - repeat (case_decide; [cbn; intros [= <-]; congruence | ]). discriminate.
  - intros ->. destruct m; reflexivity.
Qed.

Lemma unknown_kind (s : string) :
  lower s ∉ ["credit"; "debit"; "payment"; "transfer"; "spent"; "received"] ->
  TransactionType_of_value (lower s) = None.
Proof.
  intros Hnot. destruct (TransactionType_of_value (lower s)) as [t | ] eqn:Ht;
    [ | reflexivity].
  apply TransactionType_of_value_Some in Ht. destruct Hnot. rewrite Ht.
  destruct t; simpl; set_solver.
Qed.

(** X1: a classifier output whose kind, lower-cased, is none of the six
    kinds (a missing kind counts as the empty string) gives no
    transaction: the single-message parser returns [None], processing
    the message writes nothing, and the batch parser drops the entry. *)
Theorem unknown_kind_rejected `{PyRuntime}
    (now : Z) (w : world) (user_id : string) (sms_message : SMSMessage.t)
    (kvs : list (string * value)) (s : string) :
  get (dict_of_items kvs) "transaction_type" (VStr "") = VStr s ->
  lower s ∉ ["credit"; "debit"; "payment"; "transfer"; "spent"; "received"] ->
  process_sms_intelligently now (Json (VDict kvs)) = None
  /\ process_sms_for_transactions now w user_id sms_message (Json (VDict kvs))
     = (w, None)
  /\ backup_entry now (VDict kvs) = Return None.
Proof.
  intros Hs Hnot. apply unknown_kind in Hnot.
  assert (Hp : process_sms_intelligently now (Json (VDict kvs)) = None).
  { unfold process_sms_intelligently, sms_fields. cbn [as_dict py_bind].
    destruct (negb _); [reflexivity | ].
    destruct (dict_of_items kvs !! "amount"); [ | reflexivity].
    rewrite Hs. cbn [_convert_transaction_type py_bind]. rewrite Hnot. reflexivity. }
  split; [exact Hp | split].
  - unfold process_sms_for_transactions. rewrite Hp. reflexivity.
  - unfold backup_entry. destruct (negb _); [reflexivity | ].
    cbn [lacks_amount py_bind]. destruct (bool_decide _); [reflexivity | ].
    cbn [as_dict py_bind]. rewrite Hs.
    cbn [_convert_transaction_type py_bind]. rewrite Hnot. reflexivity.
Qed.

Lemma unknown_kind_rejected_witness :
  process_sms_intelligently (H := example_runtime) 7 (Json (VDict invalid_type_fields))
  = None.
Proof.
  apply (unknown_kind_rejected (H := example_runtime) 7 empty_world "u1" example_sms
           invalid_type_fields "invalid_type").
  - vm_compute. reflexivity.
  - apply (bool_decide_unpack _). vm_compute. exact I.
Defined.

(** ** What the gateway returns *)

Section GatewayFacts.
Context `{PyRuntime}.

Lemma sms_fields_normalised now v p :
  sms_fields now v = Return (Some p) -> normalised p.
Proof.
  unfold sms_fields. destruct v as [ | | | | | | kvs]; simpl; try discriminate.
  destruct (negb _); [discriminate | ].
  destruct (dict_of_items kvs !! "amount") as [a | ] eqn:Ha; [ | discriminate].
  destruct (_convert_transaction_type _) as [[ty | ] | ]; simpl; try discriminate.
  destruct (_convert_payment_method _) as [pm | ]; simpl; try discriminate.
  destruct (py_float a) as [q | ] eqn:Hq; simpl; try discriminate.
  intros [= <-]. unfold normalised.
  split; [exists ty; reflexivity | ]. split; [exists q; reflexivity | ].
  split; [eexists; reflexivity | ].
  split; [ | split; reflexivity].
  destruct pm as [m | ]; [right; exists m; reflexivity | left; reflexivity].
Qed.

Lemma backup_entry_normalised now e d :
  backup_entry now e = Return (Some d) -> normalised d.
Proof.
  unfold backup_entry. destruct (negb (truthy e)); [discriminate | ].
  destruct (lacks_amount e) as [[ | ] | ]; cbn [py_bind]; try discriminate.
  destruct (as_dict e) as [tx | ]; cbn [py_bind]; try discriminate.
  destruct (_convert_transaction_type _) as [[ty | ] | ]; cbn [py_bind]; try discriminate.
  destruct (_convert_payment_method _) as [pm | ]; cbn [py_bind]; try discriminate.
  destruct (py_float _) as [q | ]; cbn [py_bind]; try discriminate.
  intros [= <-]. unfold normalised.
  split; [exists ty; reflexivity | ]. split; [exists q; reflexivity | ].
  split; [eexists; reflexivity | ].
  split; [ | split; reflexivity].
  destruct pm as [m | ]; [right; exists m; reflexivity | left; reflexivity].
Qed.

Lemma backup_entries_normalised now l ds :
  backup_entries now l = Return ds ->
  Forall normalised ds /\ (length ds <= length l)%nat.
Proof.
  revert ds. induction l as [ | e l IH]; intros ds; cbn [backup_entries].
  - intros [= <-]. split; [constructor | reflexivity].
  - destruct (backup_entry now e) as [entry | ] eqn:He; cbn [py_bind]; [ | discriminate].
    destruct (backup_entries now l) as [ds' | ]; cbn [py_bind]; [ | discriminate].
    destruct (IH ds' eq_refl) as [Hall Hlen].
    destruct entry as [d | ]; intros [= <-]; simpl.
    + split; [constructor; [eapply backup_entry_normalised; exact He | exact Hall] | lia].
    + split; [exact Hall | lia].
Qed.

Lemma backup_entries_raise now l1 e l2 :
  backup_entry now e = Raise -> backup_entries now (l1 ++ e :: l2) = Raise.
Proof.
  intros He. induction l1 as [ | x l1 IH]; cbn [backup_entries app].
  - rewrite He. reflexivity.
  - rewrite IH. destruct (backup_entry now x); reflexivity.
Qed.

Lemma parse_backup_file_normalised now reply :
  Forall normalised (parse_backup_file_with_gemini now reply).
Proof.
  destruct reply as [ | | | v]; try constructor.
  destruct v; try constructor. simpl.
  destruct (backup_entries now l) as [ds | ] eqn:Hds; simpl; [ | constructor].
  apply (backup_entries_normalised _ _ _ Hds).
Qed.

End GatewayFacts.

(** X2: whatever the gateway returns is normalised. A candidate of the
    single-message parser, and every entry of the batch parser, has a
    kind of the closed set, a number as amount, a date, a payment method
    of the closed set or none, and neither owner nor message reference;
    the batch parser returns no more entries than the classifier gave. *)
Theorem gateway_output_normalised `{PyRuntime} (now : Z) (reply : gemini_reply) :
  (forall p, process_sms_intelligently now reply = Some p -> normalised p)
  /\ Forall normalised (parse_backup_file_with_gemini now reply)
  /\ (forall l, reply = Json (VList l) ->
        (length (parse_backup_file_with_gemini now reply) <= length l)%nat).
Proof.
  split; [ | split].
  - intros p Hp. destruct reply as [ | | | v]; try discriminate Hp.
    apply process_sms_Some in Hp. eapply sms_fields_normalised. exact Hp.
  - apply parse_backup_file_normalised.
  - intros l ->. simpl.
    destruct (backup_entries now l) as [ds | ] eqn:Hds; simpl; [ | lia].
    apply (backup_entries_normalised _ _ _ Hds).
Qed.

(** X3: the batch parser is all or nothing on an exception. If one entry
    is an object with a known kind and an amount that [float] refuses
    (JSON null, a list, a string that is no number), the whole batch is
    lost: the parser returns no entry at all, whatever the other entries
    are, and whatever the payment method of that entry is (one that is
    not a string raises before the amount is read). *)
Theorem batch_lost_on_unconvertible_amount `{PyRuntime}
    (now : Z) (l1 l2 : list value) (kvs : list (string * value))
    (amount : value) (kind : string) (t : TransactionType) :
  dict_of_items kvs !! "amount" = Some amount ->
  py_float amount = Raise ->
  dict_of_items kvs !! "transaction_type" = Some (VStr kind) ->
  lower kind = TransactionType_value t ->
  parse_backup_file_with_gemini now (Json (VList (l1 ++ VDict kvs :: l2))) = [].
Proof.
  intros Ha Hf Hk Ht. simpl. rewrite backup_entries_raise; [reflexivity | ].
  unfold backup_entry.
  assert (Htruthy : truthy (VDict kvs) = true).
  { destruct kvs; [discriminate Ha | reflexivity]. }
  rewrite Htruthy. cbn [negb lacks_amount py_bind].
  rewrite Ha. rewrite bool_decide_eq_false_2 by discriminate.
  assert (Hgk : get (dict_of_items kvs) "transaction_type" (VStr "") = VStr kind)
    by (unfold get; rewrite Hk; reflexivity).
  assert (Hga : get (dict_of_items kvs) "amount" VNone = amount)
    by (unfold get; rewrite Ha; reflexivity).
  cbn [as_dict py_bind]. rewrite Hgk, Hga.
  cbn [_convert_transaction_type py_bind].
  rewrite (proj2 (TransactionType_of_value_Some _ t) Ht).
  destruct (_convert_payment_method _) as [method | ]; cbn [py_bind]; [ | reflexivity].
  rewrite Hf. reflexivity.
Qed.

Lemma batch_lost_on_unconvertible_amount_witness :
  parse_backup_file_with_gemini (H := example_runtime) 7
    (Json (VList ([statement_entry "spent" "Amazon" 500]
                  ++ statement_entry_with VNone
                  :: [statement_entry "received" "Salary" 1000]))) = [].
Proof.
  apply (batch_lost_on_unconvertible_amount (H := example_runtime) 7
           [statement_entry "spent" "Amazon" 500]
           [statement_entry "received" "Salary" 1000]
           [ ("transaction_type", VStr "spent"); ("amount", VNone);
             ("merchant", VStr "Amazon") ]
           VNone "spent" SPENT);
    vm_compute; reflexivity.
Defined.

(** ** Bulk import: accounting and references *)

Section BulkFacts.
Context `{PyRuntime}.

Lemma create_all_count now user_id ds : forall c,
  (length (create_all now c user_id ds).1.2 + length (create_all now c user_id ds).2
   = length ds)%nat.
Proof.
  induction ds as [ | d ds IH]; intros c; [reflexivity | ].
  cbn [create_all].
  destruct (create_transaction now c user_id _) as [c1 created].
  specialize (IH c1). destruct (create_all now c1 user_id ds) as [[c2 l] errs].
  destruct created; simpl in *; lia.
Qed.

Lemma Transaction_validate_no_message now data x :
  data !! "sms_message_id" = None ->
  Transaction_validate now data = Some x ->
  Transaction.sms_message_id x = None.
Proof.
  intros Hs Hv. unfold Transaction_validate in Hv.
  do 2 next_field Hv. next_field Hv.
  rewrite Hs in E1. injection E1 as <-.
  repeat next_field Hv. injection Hv as <-. reflexivity.
Qed.

Lemma create_transaction_no_reference now c user_id data :
  data !! "sms_message_id" = None ->
  let r := create_transaction now c user_id data in
  (r.2 = None /\ r.1 = c)
  \/ (is_Some r.2 /\ references r.1 = (references c ++ [Some VNone])%list).
Proof.
  intros Hs. unfold create_transaction.
  destruct (Transaction_validate now (<["user_id" := VStr user_id]> data))
    as [x | ] eqn:Hv; [right | left; split; reflexivity].
  assert (Hx : Transaction.sms_message_id x = None).
  { eapply Transaction_validate_no_message; [ | exact Hv].
    rewrite lookup_insert_ne by discriminate. exact Hs. }
  unfold insert_one. cbn [fst snd]. split; [eauto | ].
  rewrite auto_categorize_references. unfold references. cbn [docs].
  rewrite fmap_app. f_equal.
  change ([Some (opt_value VStr (Transaction.sms_message_id x))]
          = [Some VNone]). rewrite Hx. reflexivity.
Qed.

Lemma create_all_references now user_id ds : forall c,
  Forall (fun d : gmap string value => d !! "sms_message_id" = None) ds ->
  references (create_all now c user_id ds).1.1
  = (references c
     ++ replicate (length (create_all now c user_id ds).1.2) (Some VNone))%list.
Proof.
  induction ds as [ | d ds IH]; intros c Hall.
  - simpl. rewrite app_nil_r. reflexivity.
  - inversion Hall as [ | ? ? Hd Hds]; subst. cbn [create_all].
    pose proof (create_transaction_no_reference now c user_id
                  (<["user_id" := VStr user_id]> d)) as Hc.
    rewrite lookup_insert_ne in Hc by discriminate. specialize (Hc Hd).
    simpl in Hc.
    destruct (create_transaction now c user_id _) as [c1 created].
    specialize (IH c1 Hds).
    destruct (create_all now c1 user_id ds) as [[c2 l] errs]. simpl in *.
    destruct Hc as [[-> ->] | [[x ->] Hrefs]]; simpl.
    + exact IH.
    + rewrite IH, Hrefs, <- app_assoc. reflexivity.
Qed.

End BulkFacts.

(** X4: the result of a bulk import adds up. Whatever the classifier
    answers, [process_backup_file] reports success, the number of
    transactions found is the number of entries the parser returned,
    and it is the number created plus the number of errors recorded.
    The result holds the key [created_transactions] exactly when the
    parser returned at least one entry, and the list then has the
    length reported; when the parser returned nothing (the classifier
    failed, or found nothing) the result has no such key. *)
Theorem bulk_import_accounting `{PyRuntime}
    (now : Z) (c : collection) (user_id : string) (reply : gemini_reply) :
  let r := (process_backup_file now c user_id reply).2 in
  success r = true
  /\ transactions_found r = length (parse_backup_file_with_gemini now reply)
  /\ transactions_found r = (transactions_created r + length (errors r))%nat
  /\ match created_transactions r with
     | Some created =>
         transactions_created r = length created
         /\ parse_backup_file_with_gemini now reply <> []
     | None => parse_backup_file_with_gemini now reply = []
     end.
Proof.
  unfold process_backup_file.
  destruct (parse_backup_file_with_gemini now reply) as [ | d ds];
    [repeat split | ].
  pose proof (create_all_count now user_id (d :: ds) c) as Hcount.
  destruct (create_all now c user_id (d :: ds)) as [[c' created] errs].
  cbn [fst snd success transactions_found transactions_created created_transactions
       errors] in *.
  split; [reflexivity | ]. split; [reflexivity | ]. split; [lia | ].
  split; [reflexivity | discriminate].
Qed.

Lemma derived_replicate s w w' k :
  references (transactions w')
  = (references (transactions w) ++ replicate k (Some VNone))%list ->
  derived s w' = derived s w.
Proof.
  intros Hr. unfold derived. rewrite Hr, filter_app, length_app.
  assert (Hnil : filter (fun r : option value => r = Some (VStr s))
                   (replicate k (Some VNone)) = []).
  { clear Hr. induction k as [ | k IH]; [reflexivity | ].
    simpl. rewrite filter_cons, decide_False by discriminate. exact IH. }
  rewrite Hnil. simpl. lia.
Qed.

(** X5: a bulk import never attaches a transaction to a message. After
    [process_backup_file], the number of transactions derived from any
    message is what it was, and collections that were consistent (at
    most one transaction for each message, every referenced message
    parsed) still are. *)
Theorem bulk_import_keeps_references `{PyRuntime}
    (now : Z) (w : world) (user_id : string) (reply : gemini_reply) :
  let w' := {| sms_messages := sms_messages w;
               transactions := (process_backup_file now (transactions w)
                                  user_id reply).1 |} in
  (forall s, derived s w' = derived s w)
  /\ (consistent w -> consistent w').
Proof.
  intros w'.
  assert (Hrefs : exists k,
             references (transactions w')
             = (references (transactions w) ++ replicate k (Some VNone))%list).
  { subst w'. cbn [transactions]. unfold process_backup_file.
    pose proof (parse_backup_file_normalised now reply) as Hnorm.
    destruct (parse_backup_file_with_gemini now reply) as [ | d ds].
    - exists 0%nat. simpl. rewrite app_nil_r. reflexivity.
    - assert (Hall : Forall (fun d : gmap string value =>
                               d !! "sms_message_id" = None) (d :: ds)).
      { eapply Forall_impl; [exact Hnorm | ]. intros x Hx. apply Hx. }
      pose proof (create_all_references now user_id (d :: ds) (transactions w) Hall)
        as Hr.
      destruct (create_all now (transactions w) user_id (d :: ds))
        as [[c' created] errs]. simpl in *. eauto. }
  destruct Hrefs as [k Hrefs].
  assert (Hd : forall s, derived s w' = derived s w)
    by (intros s; eapply derived_replicate; exact Hrefs).
  split; [exact Hd | ].
  intros [Hnd Hissued Hparsed Hone]. split.
  - exact Hnd.
  - exact Hissued.
  - intros s Hin. rewrite Hrefs in Hin. apply elem_of_app in Hin as [Hin | Hin].
    + apply Hparsed, Hin.
    + apply elem_of_replicate in Hin as [Hin _]. discriminate Hin.
  - intros s. rewrite Hd. apply Hone.
Qed.

(** ** The [Transaction] model and the store *)

Section ModelFacts.
Context `{PyRuntime}.

Lemma optional_str_dict (o : option string) :
  optional str_validator (Some (opt_value VStr o)) = Some o.
Proof. destruct o; reflexivity. Qed.

Lemma optional_method_dict (o : option PaymentMethod) :
  optional PaymentMethod_validator (Some (opt_value VMethod o)) = Some o.
Proof. destruct o as [[ | | | | | | ] | ]; reflexivity. Qed.

Lemma kind_dict (t : TransactionType) :
  required TransactionType_validator (Some (VType t)) = Some t.
Proof. destruct t; reflexivity. Qed.

Lemma tags_dict (l : list string) :
  list_str_validator (VList (VStr <$> l)) = Some l.
Proof.
  unfold list_str_validator. apply mapM_Some.
  induction l; constructor; [reflexivity | assumption].
Qed.

Lemma validate_amount_Some v q :
  validate_amount v = Some q <-> v = q /\ (Q2Qc 0 < q)%Qc.
Proof.
  unfold validate_amount. case_bool_decide as Hv.
  - split; [discriminate | ]. intros [-> Hq].
    destruct (Qclt_not_le _ _ Hq Hv).
  - split; [intros [= ->] | intros [-> _]; reflexivity].
    split; [reflexivity | ]. apply Qcnot_le_lt. exact Hv.
Qed.

Lemma validate_reference_Some v o :
  validate_reference_number v = Some o <->
  v = o /\ match o with
           | Some s => s = "" \/ reference_number_re s = true
           | None => True
           end.
Proof.
  unfold validate_reference_number. destruct v as [s | ].
  - case_bool_decide as Hs; simpl.
    + split; [intros [= <-]; auto | intros [<- _]; reflexivity].
    + destruct (reference_number_re s) eqn:Hr; simpl.
      * split; [intros [= <-]; auto | intros [<- _]; reflexivity].
      * split; [discriminate | ]. intros [<- [Hs' | Hr']]; congruence.
  - split; [intros [= <-]; auto | intros [<- _]; reflexivity].
Qed.

(** What the model accepts satisfies its validators. *)
Lemma Transaction_validate_valid now data x :
  Transaction_validate now data = Some x -> valid_transaction x.
Proof.
  intros Hv. unfold Transaction_validate in Hv.
  do 4 next_field Hv. next_field Hv. do 4 next_field Hv. next_field Hv.
  repeat next_field Hv. injection Hv as <-. unfold valid_transaction. simpl.
  split.
  - destruct (required float_validator (data !! "amount")) as [v | ];
      [ | discriminate E3]. cbn [mbind option_bind] in E3.
    apply validate_amount_Some in E3 as [_ Hq]. exact Hq.
  - destruct (optional str_validator (data !! "reference_number")) as [v | ];
      [ | discriminate E8]. cbn [mbind option_bind] in E8.
    apply validate_reference_Some in E8 as [_ Hr]. exact Hr.
Qed.

(** What the model writes, it reads back unchanged. *)
Lemma Transaction_validate_dict now x :
  valid_transaction x -> Transaction_validate now (Transaction_dict x) = Some x.
Proof.
  intros [Hq Hr]. unfold Transaction_validate.
  replace (Transaction_dict x !! "id")
    with (Some (opt_value VStr (Transaction.id x))) by reflexivity.
  replace (Transaction_dict x !! "user_id")
    with (Some (VStr (Transaction.user_id x))) by reflexivity.
  replace (Transaction_dict x !! "sms_message_id")
    with (Some (opt_value VStr (Transaction.sms_message_id x))) by reflexivity.
  replace (Transaction_dict x !! "transaction_type")
    with (Some (VType (Transaction.transaction_type x))) by reflexivity.
  replace (Transaction_dict x !! "amount")
    with (Some (VNum (Transaction.amount x))) by reflexivity.
  replace (Transaction_dict x !! "currency")
    with (Some (VStr (Transaction.currency x))) by reflexivity.
  replace (Transaction_dict x !! "merchant")
    with (Some (opt_value VStr (Transaction.merchant x))) by reflexivity.
  replace (Transaction_dict x !! "category")
    with (Some (opt_value VStr (Transaction.category x))) by reflexivity.
  replace (Transaction_dict x !! "transaction_date")
    with (Some (VDate (Transaction.transaction_date x))) by reflexivity.
  replace (Transaction_dict x !! "reference_number")
    with (Some (opt_value VStr (Transaction.reference_number x))) by reflexivity.
  replace (Transaction_dict x !! "account_number")
    with (Some (opt_value VStr (Transaction.account_number x))) by reflexivity.
  replace (Transaction_dict x !! "card_number")
    with (Some (opt_value VStr (Transaction.card_number x))) by reflexivity.
  replace (Transaction_dict x !! "payment_method")
    with (Some (opt_value VMethod (Transaction.payment_method x))) by reflexivity.
  replace (Transaction_dict x !! "remarks")
    with (Some (opt_value VStr (Transaction.remarks x))) by reflexivity.
  replace (Transaction_dict x !! "tags")
    with (Some (VList (VStr <$> Transaction.tags x))) by reflexivity.
  replace (Transaction_dict x !! "is_failed")
    with (Some (VBool (Transaction.is_failed x))) by reflexivity.
  replace (Transaction_dict x !! "is_recurring")
    with (Some (VBool (Transaction.is_recurring x))) by reflexivity.
  replace (Transaction_dict x !! "created_at")
    with (Some (VDate (Transaction.created_at x))) by reflexivity.
  replace (Transaction_dict x !! "updated_at")
    with (Some (VDate (Transaction.updated_at x))) by reflexivity.
  rewrite !optional_str_dict, optional_method_dict, kind_dict.
  cbn [required with_default str_validator float_validator py_float
       datetime_validator bool_validator mbind option_bind].
  rewrite tags_dict.
  rewrite (proj2 (validate_amount_Some _ _) (conj eq_refl Hq)).
  rewrite (proj2 (validate_reference_Some _ _) (conj eq_refl Hr)).
  cbn [mbind option_bind]. destruct x; reflexivity.
Qed.

End ModelFacts.

(** *** Queries that select nothing *)

Lemma update_first_miss q upd l :
  List.find q l = None -> update_first q upd l = (l, 0%nat).
Proof.
  induction l as [ | [i d] l IH]; [reflexivity | ].
  cbn [List.find update_first]. destruct (q (i, d)); [discriminate | ].
  intros Hl. rewrite (IH Hl). reflexivity.
Qed.

Lemma delete_first_miss q l :
  List.find q l = None -> delete_first q l = (l, 0%nat).
Proof.
  induction l as [ | x l IH]; [reflexivity | ].
  cbn [List.find delete_first]. destruct (q x); [discriminate | ].
  intros Hl. rewrite (IH Hl). reflexivity.
Qed.

Lemma find_app_miss {A} (q : A -> bool) (l1 l2 : list A) :
  List.find q l1 = None -> List.find q (l1 ++ l2) = List.find q l2.
Proof.
  induction l1 as [ | x l1 IH]; [reflexivity | ].
  cbn [List.find app]. destruct (q x); [discriminate | exact IH].
Qed.

Lemma update_first_app q upd l1 l2 :
  List.find q l1 = None ->
  update_first q upd (l1 ++ l2)
  = ((l1 ++ (update_first q upd l2).1)%list, (update_first q upd l2).2).
Proof.
  induction l1 as [ | [i d] l1 IH]; [intros _; simpl; destruct (update_first _ _ _); reflexivity | ].
  cbn [List.find app update_first]. destruct (q (i, d)); [discriminate | ].
  intros Hl. rewrite (IH Hl). reflexivity.
Qed.

Lemma find_other_id i u (l : list (string * gmap string value)) :
  i ∉ l.*1 -> List.find (by_id_and_user i u) l = None.
Proof.
  induction l as [ | [j d] l IH]; [reflexivity | ].
  rewrite fmap_cons, not_elem_of_cons. intros [Hne Hl]. cbn [List.find].
  unfold by_id_and_user at 1. cbn [fst].
  rewrite bool_decide_eq_false_2 by (intros ->; apply Hne; reflexivity).
  apply IH, Hl.
Qed.

Lemma issued_fresh c : issued c -> pretty (next_id c) ∉ (docs c).*1.
Proof.
  intros [_ Hi] Hin. destruct (Hi _ Hin) as (n & Hn & Hlt).
  apply (inj pretty) in Hn. lia.
Qed.

Lemma issued_insert c d : issued c -> issued (insert_one c d).1.
Proof.
  intros Hc. pose proof (issued_fresh c Hc) as Hfresh. destruct Hc as [Hnd Hi].
  unfold insert_one. split; cbn [fst docs next_id]; rewrite fmap_app.
  - apply NoDup_app. split; [exact Hnd | ]. split; [ | apply NoDup_singleton].
    intros i Hin Hin'. apply list_elem_of_singleton in Hin'. simpl in Hin'. congruence.
  - intros i Hin. apply elem_of_app in Hin as [Hin | Hin].
    + destruct (Hi i Hin) as (n & -> & Hlt). exists n. split; [reflexivity | lia].
    + apply list_elem_of_singleton in Hin. simpl in Hin.
      exists (next_id c). split; [exact Hin | lia].
Qed.

Lemma issued_empty : issued empty_collection.
Proof.
  split; simpl; [constructor | ].
  intros i Hi. apply not_elem_of_nil in Hi. destruct Hi.
Qed.

(** *** Documents of the model *)

Lemma Transaction_dict_id i x :
  <["id" := VStr i]> (Transaction_dict x) = Transaction_dict (Transaction_with_id i x).
Proof. vm_compute. exact eq_refl. Qed.

Lemma Transaction_dict_category category now x :
  set_fields
    (<["updated_at" := VDate now]>
       (filter (fun kv : string * value => kv.2 ≠ VNone) {[ "category" := VStr category ]}))
    (Transaction_dict x)
  = Transaction_dict (with_category category now x).
Proof. vm_compute. exact eq_refl. Qed.

Lemma categorised_with_id now i x :
  categorised now (Transaction_with_id i x) = Transaction_with_id i (categorised now x).
Proof.
  unfold categorised. cbn [Transaction_with_id Transaction.merchant Transaction.category].
  destruct (Transaction.merchant x) as [m | ]; [ | reflexivity].
  destruct (_ || _); [reflexivity | ].
  destruct (table_category m); reflexivity.
Qed.

Lemma categorised_valid now x : valid_transaction x -> valid_transaction (categorised now x).
Proof.
  unfold categorised. destruct (Transaction.merchant x) as [m | ]; [ | auto].
  destruct (_ || _); [auto | ]. destruct (table_category m); auto.
Qed.

Lemma categorised_user now x :
  Transaction.user_id (categorised now x) = Transaction.user_id x.
Proof.
  unfold categorised. destruct (Transaction.merchant x) as [m | ]; [ | auto].
  destruct (_ || _); [auto | ]. destruct (table_category m); auto.
Qed.

Lemma by_id_and_user_dict i x :
  by_id_and_user i (Transaction.user_id x) (i, Transaction_dict x) = true.
Proof.
  unfold by_id_and_user. apply andb_true_iff.
  split; apply bool_decide_eq_true_2; reflexivity.
Qed.

Section CreateFacts.
Context `{PyRuntime}.

Lemma Transaction_validate_user now data x u :
  data !! "user_id" = Some (VStr u) ->
  Transaction_validate now data = Some x -> Transaction.user_id x = u.
Proof.
  intros Hu Hv. unfold Transaction_validate in Hv. next_field Hv.
  rewrite Hu in Hv. cbn [required str_validator mbind option_bind] in Hv.
  repeat next_field Hv. injection Hv as <-. reflexivity.
Qed.

(** The categoriser, on the collection that ends with the document of
    the transaction. *)
Lemma auto_categorize_last now l n i x :
  i ∉ l.*1 ->
  _auto_categorize_transaction now
    {| docs := l ++ [(i, Transaction_dict x)]; next_id := n |}
    (Transaction_with_id i x)
  = {| docs := l ++ [(i, Transaction_dict (categorised now x))]; next_id := n |}.
Proof.
  intros Hfresh. unfold _auto_categorize_transaction, categorised, table_category.
  cbn [Transaction_with_id Transaction.merchant Transaction.category Transaction.id
       Transaction.user_id].
  destruct (Transaction.merchant x) as [m | ]; [ | reflexivity].
  destruct (_ || _); [reflexivity | ].
  destruct (List.find _ category_mapping) as [[category keywords] | ]; [ | reflexivity].
  cbn [fmap option_fmap option_map fst].
  unfold update_transaction.
  rewrite bool_decide_eq_false_2.
  2:{ intros [v Hv]. vm_compute in Hv. discriminate Hv. }
  unfold update_one. cbn [docs next_id].
  rewrite update_first_app by (apply find_other_id, Hfresh).
  cbn [update_first]. rewrite by_id_and_user_dict.
  cbn [fst snd]. rewrite Transaction_dict_category.
  destruct (0 <? _)%nat; reflexivity.
Qed.

Lemma create_transaction_stored now c u data x :
  issued c ->
  Transaction_validate now (<["user_id" := VStr u]> data) = Some x ->
  create_transaction now c u data
  = ({| docs := docs c ++ [(pretty (next_id c), Transaction_dict (categorised now x))];
        next_id := N.succ (next_id c) |},
     Some (Transaction_with_id (pretty (next_id c)) x)).
Proof.
  intros Hc Hv. unfold create_transaction. rewrite Hv. unfold insert_one.
  rewrite auto_categorize_last by (apply issued_fresh, Hc). reflexivity.
Qed.

End CreateFacts.



(** X7: a transaction that [create_transaction] has returned is found by
    [get_transaction] under its identifier by the caller, and by nobody
    else. What is read is the transaction returned, with the category of
    the table (and the time of that write) where the categoriser has
    applied: the object returned was not refreshed after the categoriser
    wrote. *)
Theorem created_transaction_read_back `{PyRuntime}
    (now now' : Z) (c c' : collection) (user_id : string)
    (data : gmap string value) (t : Transaction.t) :
  issued c ->
  create_transaction now c user_id data = (c', Some t) ->
  exists i,
    Transaction.id t = Some i
    /\ get_transaction now' c' user_id i = Some (categorised now t)
    /\ forall other, other <> user_id -> get_transaction now' c' other i = None.
Proof.
  intros Hc Hr.
  destruct (Transaction_validate now (<["user_id" := VStr user_id]> data))
    as [x | ] eqn:Hv.
  2:{ unfold create_transaction in Hr. rewrite Hv in Hr. discriminate Hr. }
  rewrite (create_transaction_stored now c user_id data x Hc Hv) in Hr.
  injection Hr as <- <-.
  assert (Hu : Transaction.user_id x = user_id)
    by (eapply Transaction_validate_user; [apply lookup_insert_eq | exact Hv]).
  pose proof (issued_fresh c Hc) as Hfresh.
  exists (pretty (next_id c)). split; [reflexivity | ]. split.
  - unfold get_transaction, find_one. cbn [docs].
    rewrite find_app_miss by (apply find_other_id, Hfresh). cbn [List.find].
    rewrite <- Hu, <- (categorised_user now x), by_id_and_user_dict.
    rewrite Transaction_dict_id, <- categorised_with_id.
    apply Transaction_validate_dict. apply categorised_valid.
    exact (Transaction_validate_valid _ _ _ Hv).
  - intros other Hne. unfold get_transaction, find_one. cbn [docs].
    rewrite find_app_miss by (apply find_other_id, Hfresh). cbn [List.find].
    unfold by_id_and_user. cbn [fst snd].
    replace (Transaction_dict (categorised now x) !! "user_id")
      with (Some (VStr (Transaction.user_id (categorised now x)))) by reflexivity.
    rewrite categorised_user, Hu.
    rewrite (bool_decide_eq_false_2 (Some (VStr user_id) = Some (VStr other)))
      by congruence.
    rewrite andb_false_r. reflexivity.
Qed.

Lemma created_transaction_read_back_witness :
  exists i,
    Transaction.id
      (Transaction_with_id "0"
         (Transaction.mk None "u1" None SPENT (Qc_of_Z 500) "INR" (Some "Amazon") None
            (datetime 2025 1 15 12 0 0) (Some "REF123") None None (Some CARD) None []
            false false 5 5)) = Some i
    /\ get_transaction (H := example_runtime) 6
         {| docs := [("0", Transaction_dict
                             (Transaction.mk None "u1" None SPENT (Qc_of_Z 500) "INR"
                                (Some "Amazon") (Some "shopping")
                                (datetime 2025 1 15 12 0 0) (Some "REF123") None None
                                (Some CARD) None [] false false 5 5))];
            next_id := 1%N |} "u1" i
       = Some (categorised 5
                 (Transaction_with_id "0"
                    (Transaction.mk None "u1" None SPENT (Qc_of_Z 500) "INR"
                       (Some "Amazon") None (datetime 2025 1 15 12 0 0) (Some "REF123")
                       None None (Some CARD) None [] false false 5 5)))
    /\ forall other, other <> "u1" ->
         get_transaction (H := example_runtime) 6
           {| docs := [("0", Transaction_dict
                               (Transaction.mk None "u1" None SPENT (Qc_of_Z 500) "INR"
                                  (Some "Amazon") (Some "shopping")
                                  (datetime 2025 1 15 12 0 0) (Some "REF123") None None
                                  (Some CARD) None [] false false 5 5))];
              next_id := 1%N |} other i = None.
Proof.
  apply (created_transaction_read_back (H := example_runtime) 5 6 empty_collection _ "u1"
           (TransactionCreate_dict amazon_purchase)).
  - split; simpl; [constructor | ].
    intros i Hi. apply not_elem_of_nil in Hi. destruct Hi.
  - vm_compute. reflexivity.
Defined.

(** The purchase at Amazon: the transaction returned has no category,
    the one stored has the category of the table. *)
Example returned_transaction_lacks_category :
  let r := create_transaction (H := example_runtime) 5 empty_collection "u1"
             (TransactionCreate_dict amazon_purchase) in
  Transaction.category <$> r.2 = Some None
  /\ Transaction.category <$> get_transaction (H := example_runtime) 6 r.1 "u1" "0"
     = Some (Some "shopping").
Proof. split; vm_compute; reflexivity. Qed.

(** ** Transactions of other users, and transactions that are not there *)

Lemma not_owned_find c user_id transaction_id :
  not_owned c user_id transaction_id ->
  List.find (by_id_and_user transaction_id user_id) (docs c) = None.
Proof.
  intros Hn. destruct (List.find _ (docs c)) as [[i d] | ] eqn:Hf; [ | reflexivity].
  apply find_some in Hf as [Hin Hq]. apply list_elem_of_In in Hin.
  unfold by_id_and_user in Hq. apply andb_true_iff in Hq as [Hi Hu].
  apply bool_decide_eq_true_1 in Hi. apply bool_decide_eq_true_1 in Hu.
  simpl in Hi, Hu. subst i. destruct (Hn d Hin Hu).
Qed.

(** X8: when no document under the identifier belongs to the caller
    (there is none, or it is another user's), [get_transaction] returns
    [None], [update_transaction] returns [None] and [delete_transaction]
    returns [False], and the collection is left exactly as it was,
    whatever the update holds. *)
Theorem foreign_transaction_untouched `{PyRuntime}
    (now : Z) (c : collection) (user_id transaction_id : string)
    (update_data : gmap string value) :
  not_owned c user_id transaction_id ->
  get_transaction now c user_id transaction_id = None
  /\ update_transaction now c user_id transaction_id update_data = (c, None)
  /\ delete_transaction c user_id transaction_id = (c, false).
Proof.
  intros Hn. apply not_owned_find in Hn. split; [ | split].
  - unfold get_transaction, find_one. rewrite Hn. reflexivity.
  - unfold update_transaction. destruct (bool_decide _); [reflexivity | ].
    unfold update_one. rewrite (update_first_miss _ _ _ Hn). destruct c; reflexivity.
  - unfold delete_transaction, delete_one. rewrite (delete_first_miss _ _ Hn).
    destruct c; reflexivity.
Qed.

Lemma foreign_transaction_untouched_witness :
  get_transaction (H := example_runtime) 5 shared_store "u1" "1" = None
  /\ update_transaction (H := example_runtime) 5 shared_store "u1" "1"
       {[ "amount" := num 1 ]} = (shared_store, None)
  /\ delete_transaction shared_store "u1" "1" = (shared_store, false).
Proof.
  apply (foreign_transaction_untouched (H := example_runtime) 5 shared_store "u1" "1"
           {[ "amount" := num 1 ]}).
  intros d Hd. apply elem_of_cons in Hd as [Hd | Hd]; [discriminate Hd | ].
  apply list_elem_of_singleton in Hd. apply (f_equal snd) in Hd.
  cbn [snd] in Hd. subst d. vm_compute. discriminate.
Defined.

(** *** Deleting *)

Lemma delete_first_filter q (l : list (string * gmap string value)) i :
  (forall x, q x = true -> x.1 = i) ->
  NoDup l.*1 ->
  delete_first q l
  = (List.filter (fun x => negb (q x)) l,
     match List.find q l with Some _ => 1%nat | None => 0%nat end).
Proof.
  intros Hq. induction l as [ | x l IH]; intros Hnd; [reflexivity | ].
  rewrite fmap_cons in Hnd. apply NoDup_cons in Hnd as [Hx Hnd].
  cbn [delete_first List.find List.filter]. destruct (q x) eqn:Hqx; cbn [negb].
  - f_equal. symmetry. apply forallb_filter_id. apply forallb_forall.
    intros y Hy. destruct (q y) eqn:Hqy; [ | reflexivity].
    destruct Hx. rewrite (Hq x Hqx), <- (Hq y Hqy).
    apply list_elem_of_fmap_2, list_elem_of_In, Hy.
  - rewrite (IH Hnd). reflexivity.
Qed.

(** X9: on a collection with distinct identifiers, [delete_transaction]
    removes the caller's document under the identifier and nothing else:
    what is left are the other documents, in their order. It returns
    [True] exactly when there was such a document, and afterwards
    [get_transaction] finds nothing under the identifier. No identifier
    is released for reuse. *)
Theorem delete_transaction_removes `{PyRuntime}
    (now : Z) (c : collection) (user_id transaction_id : string) :
  NoDup (docs c).*1 ->
  let r := delete_transaction c user_id transaction_id in
  docs r.1
  = List.filter (fun x => negb (by_id_and_user transaction_id user_id x)) (docs c)
  /\ next_id r.1 = next_id c
  /\ (r.2 = true <->
      exists d, (transaction_id, d) ∈ docs c /\ d !! "user_id" = Some (VStr user_id))
  /\ get_transaction now r.1 user_id transaction_id = None.
Proof.
  intros Hnd r. subst r. unfold delete_transaction, delete_one.
  rewrite (delete_first_filter _ _ transaction_id (by_id_and_user_id _ _) Hnd).
  cbn [fst snd docs next_id]. split; [reflexivity | ]. split; [reflexivity | ]. split.
  - destruct (List.find _ (docs c)) as [[i d] | ] eqn:Hf.
    + split; [intros _ | reflexivity]. apply find_some in Hf as [Hin Hq].
      apply list_elem_of_In in Hin. unfold by_id_and_user in Hq.
      apply andb_true_iff in Hq as [Hi Hu].
      apply bool_decide_eq_true_1 in Hi. apply bool_decide_eq_true_1 in Hu.
      simpl in Hi, Hu. subst i. exists d. split; assumption.
    + split; [discriminate | ]. intros (d & Hin & Hu). exfalso.
      apply list_elem_of_In in Hin.
      apply (find_none _ _ Hf) in Hin. unfold by_id_and_user in Hin. simpl in Hin.
      rewrite !bool_decide_eq_true_2 in Hin by (assumption || reflexivity).
      discriminate Hin.
  - unfold get_transaction, find_one. cbn [docs].
    destruct (List.find _ (List.filter _ (docs c))) as [[i d] | ] eqn:Hf; [ | reflexivity].
    apply find_some in Hf as [Hin Hq]. apply filter_In in Hin as [_ Hin].
    rewrite Hq in Hin. discriminate Hin.
Qed.

Lemma delete_transaction_removes_witness :
  let r := delete_transaction shared_store "u1" "0" in
  docs r.1 = List.filter (fun x => negb (by_id_and_user "0" "u1" x)) (docs shared_store)
  /\ next_id r.1 = next_id shared_store
  /\ (r.2 = true <->
      exists d, (("0" : string), d) ∈ docs shared_store
                /\ d !! "user_id" = Some (VStr "u1"))
  /\ get_transaction (H := example_runtime) 5 r.1 "u1" "0" = None.
Proof.
  apply (delete_transaction_removes (H := example_runtime) 5 shared_store "u1" "0").
  apply (bool_decide_unpack _). vm_compute. exact I.
Defined.

(** *** Documents of other users *)

Lemma by_id_and_user_other i u (x : string * gmap string value) :
  x.2 !! "user_id" <> Some (VStr u) -> by_id_and_user i u x = false.
Proof.
  intros Hu. unfold by_id_and_user. rewrite (bool_decide_eq_false_2 _ Hu).
  apply andb_false_r.
Qed.

Lemma by_id_and_user_owner i u (x : string * gmap string value) :
  by_id_and_user i u x = true -> x.2 !! "user_id" = Some (VStr u).
Proof.
  unfold by_id_and_user. intros Hq. apply andb_true_iff in Hq as [_ Hq].
  apply bool_decide_eq_true_1 in Hq. exact Hq.
Qed.

(** A write to a document of [u] that does not give [user_id] leaves
    the documents of the others as they were. *)
Lemma update_first_owned u q upd (l : list (string * gmap string value)) :
  (forall x, q x = true -> x.2 !! "user_id" = Some (VStr u)) ->
  upd !! "user_id" = None ->
  filter (fun x : string * gmap string value => x.2 !! "user_id" <> Some (VStr u))
    (update_first q upd l).1
  = filter (fun x : string * gmap string value => x.2 !! "user_id" <> Some (VStr u)) l.
Proof.
  intros Hq Hupd. induction l as [ | [a d] l IH]; [reflexivity | ].
  rewrite update_first_cons. destruct (q (a, d)) eqn:Hqa.
  - pose proof (Hq _ Hqa) as Hu. cbn [snd] in Hu.
    rewrite !filter_cons_False; [reflexivity | | ]; cbn [snd]; intros Hne; apply Hne.
    + exact Hu.
    + unfold set_fields. rewrite lookup_union_r by exact Hupd. exact Hu.
  - rewrite !filter_cons, IH. reflexivity.
Qed.

Lemma delete_first_owned u q (l : list (string * gmap string value)) :
  (forall x, q x = true -> x.2 !! "user_id" = Some (VStr u)) ->
  filter (fun x : string * gmap string value => x.2 !! "user_id" <> Some (VStr u))
    (delete_first q l).1
  = filter (fun x : string * gmap string value => x.2 !! "user_id" <> Some (VStr u)) l.
Proof.
  intros Hq. induction l as [ | x l IH]; [reflexivity | ].
  cbn [delete_first]. destruct (q x) eqn:Hqx.
  - cbn [fst]. rewrite filter_cons_False; [reflexivity | ].
    intros Hne. apply Hne, Hq, Hqx.
  - destruct (delete_first q l) as [l' n]. cbn [fst] in *.
    rewrite !filter_cons, IH. reflexivity.
Qed.

Lemma marked_owned stamp u targets : forall l,
  filter (fun x : string * gmap string value => x.2 !! "user_id" <> Some (VStr u))
    (marked stamp u l targets)
  = filter (fun x : string * gmap string value => x.2 !! "user_id" <> Some (VStr u)) l.
Proof.
  unfold marked. induction targets as [ | i targets IH]; intros l; [reflexivity | ].
  cbn [foldl]. rewrite IH. apply update_first_owned.
  - apply by_id_and_user_owner.
  - reflexivity.
Qed.

Section IsolationFacts.
Context `{PyRuntime}.

Lemma update_transaction_owned now c u i update_data :
  not_given update_data "user_id" ->
  documents_of_others u (update_transaction now c u i update_data).1
  = documents_of_others u c.
Proof.
  intros Hgiven. unfold documents_of_others, update_transaction.
  destruct (bool_decide _); [reflexivity | ].
  unfold update_one.
  pose proof (update_first_owned u (by_id_and_user i u)
                (<["updated_at" := VDate now]>
                   (filter (fun kv : string * value => kv.2 ≠ VNone) update_data))
                (docs c) (by_id_and_user_owner i u)) as Hk.
  destruct (update_first _ _ (docs c)) as [l n]. cbn [fst] in Hk.
  assert (Hupd : (<["updated_at" := VDate now]>
                    (filter (fun kv : string * value => kv.2 ≠ VNone) update_data))
                 !! "user_id" = None).
  { rewrite lookup_insert_ne by discriminate. apply map_lookup_filter_None.
    destruct Hgiven as [Hk' | Hk']; [left; exact Hk' | right].
    intros v Hv. rewrite Hk' in Hv. injection Hv as <-. cbn [snd]. tauto. }
  destruct (0 <? n)%nat; cbn [fst docs]; exact (Hk Hupd).
Qed.

End IsolationFacts.

(** X10: what a user does to the transactions leaves the documents of
    the other users exactly as they were, none added, removed, changed
    or moved: this holds of [create_transaction], of
    [update_transaction] with an update that does not give [user_id],
    of [delete_transaction] and of [detect_recurring_transactions].
    (An update that gives another [user_id] hands the document over to
    that user, as the example after the theorem shows.) *)
Theorem other_users_documents_kept `{PyRuntime}
    (now stamp : Z) (c : collection) (user_id transaction_id : string)
    (data update_data : gmap string value) :
  not_given update_data "user_id" ->
  documents_of_others user_id (create_transaction now c user_id data).1
  = documents_of_others user_id c
  /\ documents_of_others user_id
       (update_transaction now c user_id transaction_id update_data).1
     = documents_of_others user_id c
  /\ documents_of_others user_id (delete_transaction c user_id transaction_id).1
     = documents_of_others user_id c
  /\ documents_of_others user_id (detect_recurring_transactions now stamp c user_id).1
     = documents_of_others user_id c.
Proof.
  intros Hgiven. split; [ | split; [ | split]].
  - unfold create_transaction.
    destruct (Transaction_validate now _) as [x | ] eqn:Hv; [ | reflexivity].
    pose proof (Transaction_validate_user _ _ _ _ (lookup_insert_eq _ _ _) Hv) as Hx.
    unfold insert_one. cbn [fst snd].
    transitivity
      (documents_of_others user_id
         {| docs := docs c ++ [(pretty (next_id c), Transaction_dict x)];
            next_id := N.succ (next_id c) |}).
    + unfold _auto_categorize_transaction.
      destruct (Transaction.merchant _) as [m | ]; [ | reflexivity].
      destruct (_ || _); [reflexivity | ].
      destruct (List.find _ category_mapping) as [[category keywords] | ];
        [ | reflexivity].
      cbn [Transaction_with_id Transaction.id Transaction.user_id].
      rewrite Hx. apply update_transaction_owned.
      left. apply lookup_singleton_ne. discriminate.
    + unfold documents_of_others. cbn [docs]. rewrite filter_app.
      rewrite filter_cons_False, filter_nil, app_nil_r; [reflexivity | ].
      cbn [snd]. intros Hne. apply Hne.
      replace (Transaction_dict x !! "user_id")
        with (Some (VStr (Transaction.user_id x))) by reflexivity.
      rewrite Hx. reflexivity.
  - apply update_transaction_owned, Hgiven.
  - unfold documents_of_others, delete_transaction, delete_one.
    pose proof (delete_first_owned user_id (by_id_and_user transaction_id user_id)
                  (docs c) (by_id_and_user_owner transaction_id user_id)) as Hk.
    destruct (delete_first _ (docs c)) as [l n]. exact Hk.
  - rewrite detect_recurring_unfold. unfold documents_of_others. cbn [fst docs].
    apply marked_owned.
Qed.

Lemma other_users_documents_kept_witness :
  documents_of_others "u1"
    (create_transaction (H := example_runtime) 5 shared_store "u1"
       (TransactionCreate_dict amazon_purchase)).1
  = documents_of_others "u1" shared_store
  /\ documents_of_others "u1"
       (update_transaction (H := example_runtime) 5 shared_store "u1" "0"
          {[ "category" := VStr "food" ]}).1
     = documents_of_others "u1" shared_store
  /\ documents_of_others "u1" (delete_transaction shared_store "u1" "0").1
     = documents_of_others "u1" shared_store
  /\ documents_of_others "u1"
       (detect_recurring_transactions (H := example_runtime) 5 6 shared_store "u1").1
     = documents_of_others "u1" shared_store.
Proof.
  apply (other_users_documents_kept (H := example_runtime) 5 6 shared_store "u1" "0"
           (TransactionCreate_dict amazon_purchase) {[ "category" := VStr "food" ]}).
  left. reflexivity.
Defined.

(** An update that gives [user_id] hands the document over: the other
    users had one document, and have two after the update. *)
Example update_can_hand_over :
  let c' := (update_transaction (H := example_runtime) 5 shared_store "u1" "0"
               {[ "user_id" := VStr "u2" ]}).1 in
  (documents_of_others "u1" shared_store).*1 = ["1"]
  /\ (documents_of_others "u1" c').*1 = ["0"; "1"].
Proof. split; vm_compute; reflexivity. Qed.

(** ** What recurrence detection writes *)

Lemma update_first_frame_query q upd l :
  Forall2 (fun x x' => x'.1 = x.1
                       /\ (x' = x \/ (x'.2 = set_fields upd x.2 /\ q x = true)))
    l (update_first q upd l).1.
Proof.
  induction l as [ | [i d] l IH]; [constructor | ].
  rewrite update_first_cons. destruct (q (i, d)) eqn:Hq.
  - constructor; [split; [reflexivity | right; split; [reflexivity | exact Hq]] | ].
    clear. induction l; constructor; auto.
  - constructor; [split; [reflexivity | left; reflexivity] | exact IH].
Qed.

Lemma set_fields_twice upd d : set_fields upd (set_fields upd d) = set_fields upd d.
Proof. unfold set_fields. rewrite (assoc_L (∪)), (idemp_L (∪)). reflexivity. Qed.

Lemma recurring_update_inserts stamp d :
  set_fields (recurring_update stamp) d
  = <["updated_at" := VDate stamp]> (<["is_recurring" := VBool true]> d).
Proof.
  unfold set_fields, recurring_update.
  rewrite <- insert_union_l, <- insert_union_singleton_l. reflexivity.
Qed.

Lemma marked_frame stamp u targets : forall l,
  Forall2 (fun x x' => x'.1 = x.1
             /\ (x' = x
                 \/ (x'.2 = set_fields (recurring_update stamp) x.2
                     /\ x.2 !! "user_id" = Some (VStr u))))
    l (marked stamp u l targets).
Proof.
  unfold marked. induction targets as [ | i targets IH]; intros l; cbn [foldl].
  - induction l; constructor; auto.
  - eapply Forall2_trans; [ | apply update_first_frame_query | apply IH].
    intros [a d] [a1 d1] [a2 d2]. cbn [fst snd].
    intros [-> H1] [-> H2]. split; [reflexivity | ].
    destruct H1 as [[= ->] | [-> Hq]].
    + destruct H2 as [[= ->] | H2]; [left; reflexivity | right; exact H2].
    + right. unfold by_id_and_user in Hq. apply andb_true_iff in Hq as [_ Hu].
      apply bool_decide_eq_true_1 in Hu. cbn [snd] in Hu. split; [ | exact Hu].
      destruct H2 as [[= ->] | [-> _]]; [reflexivity | apply set_fields_twice].
Qed.

(** X11: [detect_recurring_transactions] adds and removes no document
    and issues no identifier. A document it writes belongs to the
    caller, and the write sets [is_recurring] to true and [updated_at]
    to the time of the call, and nothing else: no other field changes,
    and a flag that was set is never cleared. *)
Theorem detect_recurring_writes_flags_only `{PyRuntime}
    (now stamp : Z) (c : collection) (user_id : string) :
  let c' := (detect_recurring_transactions now stamp c user_id).1 in
  next_id c' = next_id c
  /\ Forall2
       (fun x x' =>
          x'.1 = x.1
          /\ (x' = x
              \/ (x.2 !! "user_id" = Some (VStr user_id)
                  /\ x'.2 = <["updated_at" := VDate stamp]>
                              (<["is_recurring" := VBool true]> x.2)))
          /\ (flagged x.2 -> flagged x'.2))
       (docs c) (docs c').
Proof.
  intros c'. subst c'. rewrite detect_recurring_unfold. cbn [fst docs next_id].
  split; [reflexivity | ].
  eapply Forall2_impl; [apply marked_frame | ].
  intros [i d] [i' d']. cbn [fst snd]. intros [-> Hd]. split; [reflexivity | ].
  destruct Hd as [[= ->] | [-> Hu]].
  - split; [left; reflexivity | auto].
  - split.
    + right. split; [exact Hu | apply recurring_update_inserts].
    + intros _. apply recurring_update_flagged.
Qed.

(** ** What a read depends on *)

Lemma find_refines (q : string * gmap string value -> bool) u c :
  (forall x, q x = true -> by_user u x = true) ->
  find c q = List.filter q (find c (by_user u)).
Proof.
  intros Hq. unfold find. induction (docs c) as [ | x l IH]; [reflexivity | ].
  cbn [List.filter]. destruct (q x) eqn:Hx.
  - rewrite (Hq x Hx). cbn [List.filter]. rewrite Hx, IH. reflexivity.
  - destruct (by_user u x); [cbn [List.filter]; rewrite Hx | ]; exact IH.
Qed.

Lemma andb_true_l_first (a b : bool) : a && b = true -> a = true.
Proof. destruct a; [reflexivity | discriminate]. Qed.

Lemma recurring_match_user u t x : recurring_match u t x = true -> by_user u x = true.
Proof. unfold recurring_match. intros Hq. do 2 apply andb_true_l_first in Hq. exact Hq. Qed.

Lemma analytics_match_user u s e x : analytics_match u s e x = true -> by_user u x = true.
Proof. unfold analytics_match. apply andb_true_l_first. Qed.

Lemma unparsed_of_user u x : unparsed_of u x = true -> by_user u x = true.
Proof. unfold unparsed_of. apply andb_true_l_first. Qed.

Lemma parsed_of_user u x : parsed_of u x = true -> by_user u x = true.
Proof. unfold parsed_of. apply andb_true_l_first. Qed.

Section ReadFacts.
Context `{PyRuntime}.

Lemma query_matches_user u filters q x :
  query_matches (build_query u filters) = Some q -> q x = true -> by_user u x = true.
Proof.
  unfold query_matches. cbn [q_merchant_regex q_user_id build_query].
  destruct (truthy_str (TransactionFilter.merchant filters)) as [pattern | ].
  - destruct (regex_search_i pattern) as [re | ]; [ | discriminate].
    cbn [fmap option_fmap option_map]. intros [= <-] Hq.
    do 8 apply andb_true_l_first in Hq. exact Hq.
  - intros [= <-] Hq. do 8 apply andb_true_l_first in Hq. exact Hq.
Qed.

End ReadFacts.

(** X12: what a user reads of the transactions depends on the documents
    of that user only. Two collections that hold the same documents of
    the user, in the same order, give the same list of transactions for
    every filter, the same analytics for every period and the same
    recurring groups, whatever else they hold. *)
Theorem transaction_reads_are_private `{PyRuntime}
    (now stamp : Z) (c1 c2 : collection) (user_id : string)
    (filters : TransactionFilter.t) (start_date end_date : option Z) :
  find c1 (by_user user_id) = find c2 (by_user user_id) ->
  get_transactions now c1 user_id filters = get_transactions now c2 user_id filters
  /\ get_analytics c1 user_id start_date end_date
     = get_analytics c2 user_id start_date end_date
  /\ (detect_recurring_transactions now stamp c1 user_id).2
     = (detect_recurring_transactions now stamp c2 user_id).2.
Proof.
  intros Hsame. split; [ | split].
  - unfold get_transactions.
    destruct (query_matches (build_query user_id filters)) as [q | ] eqn:Hq;
      [ | reflexivity].
    cbn [mbind option_bind].
    rewrite (find_refines q user_id c1), (find_refines q user_id c2), Hsame;
      [reflexivity | | ]; intros x; apply (query_matches_user _ _ _ _ Hq).
  - unfold get_analytics.
    rewrite (find_refines _ user_id c1 (analytics_match_user user_id start_date end_date)).
    rewrite (find_refines _ user_id c2 (analytics_match_user user_id start_date end_date)).
    rewrite Hsame. reflexivity.
  - rewrite !detect_recurring_unfold. cbn [snd]. unfold recurring_pipeline.
    rewrite (find_refines _ user_id c1 (recurring_match_user user_id _)).
    rewrite (find_refines _ user_id c2 (recurring_match_user user_id _)).
    rewrite Hsame. reflexivity.
Qed.

Lemma transaction_reads_are_private_witness :
  get_transactions (H := example_runtime) 5 shared_store "u1"
    (TransactionFilter.mk None None None None None None None None None None 50 0)
  = get_transactions (H := example_runtime) 5 sample_store "u1"
      (TransactionFilter.mk None None None None None None None None None None 50 0)
  /\ get_analytics (H := example_runtime) shared_store "u1" None None
     = get_analytics (H := example_runtime) sample_store "u1" None None
  /\ (detect_recurring_transactions (H := example_runtime) 5 6 shared_store "u1").2
     = (detect_recurring_transactions (H := example_runtime) 5 6 sample_store "u1").2.
Proof.
  apply (transaction_reads_are_private (H := example_runtime) 5 6 shared_store
           sample_store "u1").
  apply (bool_decide_unpack _). vm_compute. exact I.
Defined.

(** ** Listing *)

Lemma StronglySorted_sublist {A} (R : relation A) (l k : list A) :
  sublist k l -> StronglySorted R l -> StronglySorted R k.
Proof.
  induction 1 as [ | x k l Hs IH | x k l Hs IH]; intros Hl.
  - exact Hl.
  - apply StronglySorted_inv in Hl as [Hl Hx]. constructor; [apply IH, Hl | ].
    apply Forall_forall. intros y Hy. apply (proj1 (Forall_forall _ _) Hx).
    eapply elem_of_sublist; eassumption.
  - apply StronglySorted_inv in Hl as [Hl _]. apply IH, Hl.
Qed.

Lemma StronglySorted_Forall2 {A B} (R : relation A) (S : relation B)
    (P : A -> B -> Prop) (l : list A) (k : list B) :
  (forall x y a b, x ∈ l -> y ∈ l -> R x y -> P x a -> P y b -> S a b) ->
  Forall2 P l k -> StronglySorted R l -> StronglySorted S k.
Proof.
  intros HRS Hlk. induction Hlk as [ | x a l k Hxa Hlk IH]; intros Hl; [constructor | ].
  apply StronglySorted_inv in Hl as [Hl Hx]. constructor.
  - apply IH; [ | exact Hl]. intros x' y' a' b' Hx' Hy'. apply HRS; right; assumption.
  - clear IH Hl. induction Hlk as [ | y b l k Hyb Hlk IH]; [constructor | ].
    apply Forall_cons in Hx as [Hxy Hx]. constructor.
    + apply (HRS x y a b); [left | right; left | assumption..].
    + apply IH; [ | exact Hx]. intros x' y' a' b' Hx' Hy'. apply HRS.
      * apply elem_of_cons in Hx' as [-> | Hx']; [left | right; right; exact Hx'].
      * apply elem_of_cons in Hy' as [-> | Hy']; [left | right; right; exact Hy'].
Qed.

Lemma sort_desc_sorted field l :
  StronglySorted
    (fun x y : string * gmap string value =>
       rank_le (date_rank (y.2 !! field)) (date_rank (x.2 !! field)))
    (sort_desc field l).
Proof.
  unfold sort_desc. apply StronglySorted_merge_sort.
  - intros x y z. destruct (date_rank (x.2 !! field)), (date_rank (y.2 !! field)),
      (date_rank (z.2 !! field)); simpl; try tauto; lia.
  - intros x y. destruct (date_rank (x.2 !! field)), (date_rank (y.2 !! field));
      simpl; try tauto; lia.
Qed.

Lemma skip_limit_sublist {A} offset limit (l k : list A) :
  skip_limit offset limit l = Some k -> sublist k l.
Proof.
  unfold skip_limit. destruct (offset <? 0); [discriminate | ]. intros [= <-].
  destruct (limit =? 0); [apply sublist_drop | ].
  etransitivity; [apply sublist_take | apply sublist_drop].
Qed.

Lemma skip_limit_length {A} offset limit (l k : list A) :
  skip_limit offset limit l = Some k -> limit <> 0 ->
  Z.of_nat (length k) <= Z.abs limit.
Proof.
  unfold skip_limit. destruct (offset <? 0); [discriminate | ]. intros [= <-] Hl.
  apply Z.eqb_neq in Hl. rewrite Hl.
  pose proof (firstn_le_length (Z.to_nat (Z.abs limit)) (drop (Z.to_nat offset) l)).
  lia.
Qed.

Section ListingFacts.
Context `{PyRuntime}.


Lemma Transaction_validate_date now data x t :
  data !! "transaction_date" = Some (VDate t) ->
  Transaction_validate now data = Some x -> Transaction.transaction_date x = t.
Proof.
  intros Hd Hv. unfold Transaction_validate in Hv. do 8 next_field Hv.
  rewrite Hd in Hv. cbn [required datetime_validator mbind option_bind] in Hv.
  repeat next_field Hv. injection Hv as <-. reflexivity.
Qed.

(** The cursor of [get_transactions] and the page read from it. *)
Lemma get_transactions_cursor now c user_id filters :
  get_transactions now c user_id filters = []
  \/ exists q cursor,
       query_matches (build_query user_id filters) = Some q
       /\ skip_limit (TransactionFilter.offset filters) (TransactionFilter.limit filters)
            (sort_desc "transaction_date" (find c q)) = Some cursor
       /\ Forall2 (fun x t => Transaction_validate now (<["id" := VStr x.1]> x.2) = Some t)
            cursor (get_transactions now c user_id filters).
Proof.
  unfold get_transactions.
  destruct (query_matches (build_query user_id filters)) as [q | ]; [ | left; reflexivity].
  cbn [mbind option_bind].
  destruct (skip_limit _ _ _) as [cursor | ] eqn:Hs; [ | left; reflexivity].
  cbn [mbind option_bind].
  destruct (mapM _ cursor) as [page | ] eqn:Hm; [ | left; reflexivity].
  right. exists q, cursor. split; [reflexivity | ]. split; [exact Hs | ].
  apply mapM_Some in Hm. cbn [default].
  eapply Forall2_impl; [exact Hm | ]. intros [i d] t Ht. exact Ht.
Qed.

End ListingFacts.


(** X14: on a collection whose documents all hold a date as
    [transaction_date], as the model writes them, [get_transactions]
    returns the transactions newest first. *)
Theorem get_transactions_newest_first `{PyRuntime}
    (now : Z) (c : collection) (user_id : string) (filters : TransactionFilter.t) :
  Forall (fun x => exists t, x.2 !! "transaction_date" = Some (VDate t)) (docs c) ->
  StronglySorted
    (fun t1 t2 => Transaction.transaction_date t2 <= Transaction.transaction_date t1)
    (get_transactions now c user_id filters).
Proof.
  intros Hdates.
  destruct (get_transactions_cursor now c user_id filters)
    as [-> | (q & cursor & Hq & Hcursor & Hpage)]; [constructor | ].
  pose proof (skip_limit_sublist _ _ _ _ Hcursor) as Hsub.
  eapply StronglySorted_Forall2; [ | exact Hpage | ].
  2:{ eapply StronglySorted_sublist; [exact Hsub | ].
      apply (sort_desc_sorted "transaction_date"). }
  intros x y a b Hx Hy Hxy Ha Hb.
  assert (Hdate : forall z, z ∈ cursor ->
            exists t, z.2 !! "transaction_date" = Some (VDate t)).
  { intros z Hz. eapply elem_of_sublist in Hz; [ | exact Hsub].
    unfold sort_desc in Hz. rewrite merge_sort_Permutation in Hz.
    apply list_elem_of_In, filter_In in Hz as [Hz _]. apply list_elem_of_In in Hz.
    exact (proj1 (Forall_forall _ _) Hdates z Hz). }
  destruct (Hdate x Hx) as [tx Htx]. destruct (Hdate y Hy) as [ty Hty].
  cbv beta in Hxy. rewrite Htx, Hty in Hxy. simpl in Hxy.
  cbv beta in Ha, Hb.
  assert (Hta : Transaction.transaction_date a = tx).
  { eapply Transaction_validate_date; [ | exact Ha].
    rewrite lookup_insert_ne by discriminate. exact Htx. }
  assert (Htb : Transaction.transaction_date b = ty).
  { eapply Transaction_validate_date; [ | exact Hb].
    rewrite lookup_insert_ne by discriminate. exact Hty. }
  rewrite Hta, Htb. exact Hxy.
Qed.

Lemma get_transactions_newest_first_witness :
  StronglySorted
    (fun t1 t2 => Transaction.transaction_date t2 <= Transaction.transaction_date t1)
    (get_transactions (H := example_runtime) 5 netflix_store "u1"
       (TransactionFilter.mk None None None None None None None None None None 50 0)).
Proof.
  apply (get_transactions_newest_first (H := example_runtime) 5 netflix_store "u1").
  repeat constructor; eexists; reflexivity.
Defined.

(** ** Analytics and statistics *)

Lemma top_by_length field label l : (length (top_by field label l) <= 10)%nat.
Proof.
  unfold top_by. rewrite length_fmap.
  etransitivity; [apply filter_length_le | apply firstn_le_length].
Qed.

Lemma top_by_truthy field label l item :
  item ∈ top_by field label l ->
  exists v, item !! label = Some v /\ truthy v = true.
Proof.
  unfold top_by. intros Hin. apply list_elem_of_fmap in Hin as (g & -> & Hg).
  apply list_elem_of_In, filter_In in Hg as [_ Hg].
  exists g.1.1. split; [apply lookup_insert_eq | exact Hg].
Qed.

(** X15: in every response of [get_analytics], the failed and the
    recurring transactions are at most the total, which is at most the
    number of documents of the caller; the lists of top merchants and
    of top categories hold at most ten entries, none of them for a
    missing or empty name. *)
Theorem analytics_counts_bounded `{PyRuntime}
    (c : collection) (user_id : string) (start_date end_date : option Z) :
  let r := get_analytics c user_id start_date end_date in
  (AnalyticsResponse.failed_transactions r <= AnalyticsResponse.total_transactions r)%nat
  /\ (AnalyticsResponse.recurring_transactions r
      <= AnalyticsResponse.total_transactions r)%nat
  /\ (AnalyticsResponse.total_transactions r <= length (find c (by_user user_id)))%nat
  /\ (length (AnalyticsResponse.top_merchants r) <= 10)%nat
  /\ (length (AnalyticsResponse.top_categories r) <= 10)%nat
  /\ (forall item, item ∈ AnalyticsResponse.top_merchants r ->
        exists v, item !! "merchant" = Some v /\ truthy v = true)
  /\ (forall item, item ∈ AnalyticsResponse.top_categories r ->
        exists v, item !! "category" = Some v /\ truthy v = true).
Proof.
  intros r. subst r.
  assert (Hzero :
    let r := zero_analytics in
    (AnalyticsResponse.failed_transactions r <= AnalyticsResponse.total_transactions r)%nat
    /\ (AnalyticsResponse.recurring_transactions r
        <= AnalyticsResponse.total_transactions r)%nat
    /\ (AnalyticsResponse.total_transactions r <= length (find c (by_user user_id)))%nat
    /\ (length (AnalyticsResponse.top_merchants r) <= 10)%nat
    /\ (length (AnalyticsResponse.top_categories r) <= 10)%nat
    /\ (forall item, item ∈ AnalyticsResponse.top_merchants r ->
          exists v, item !! "merchant" = Some v /\ truthy v = true)
    /\ (forall item, item ∈ AnalyticsResponse.top_categories r ->
          exists v, item !! "category" = Some v /\ truthy v = true)).
  { simpl. repeat split; try lia; intros item Hi; apply not_elem_of_nil in Hi; destruct Hi. }
  unfold get_analytics.
  rewrite (find_refines _ user_id c (analytics_match_user user_id start_date end_date)).
  set (own := find c (by_user user_id)).
  set (matched := List.filter (analytics_match user_id start_date end_date) own).
  assert (Hm : (length matched <= length own)%nat) by apply filter_length_le.
  destruct matched as [ | x matched'] eqn:Hmatched; [exact Hzero | ].
  rewrite <- Hmatched in *. clear Hmatched x matched'.
  destruct (of_option (Qc_avg (amounts matched))) as [average | ]; [ | exact Hzero].
  cbn [py_bind].
  destruct (by_type _ _) as [counts | ]; [ | exact Hzero]. cbn [py_bind].
  destruct (by_type _ _) as [sums | ]; [ | exact Hzero]. cbn [py_bind].
  destruct (monthly matched) as [trends | ]; [ | exact Hzero].
  cbn [py_bind except AnalyticsResponse.failed_transactions
       AnalyticsResponse.recurring_transactions AnalyticsResponse.total_transactions
       AnalyticsResponse.top_merchants AnalyticsResponse.top_categories].
  split; [apply filter_length_le | ]. split; [apply filter_length_le | ].
  split; [exact Hm | ]. split; [apply top_by_length | ].
  split; [apply top_by_length | ]. split; intros item; apply top_by_truthy.
Qed.

Lemma Qc_of_nat_le (n m : nat) : (n <= m)%nat -> (Qc_of_nat n <= Qc_of_nat m)%Qc.
Proof.
  intros Hnm. unfold Qc_of_nat, Qcle. cbn [this Q2Qc]. rewrite !Qred_correct.
  unfold Qle. simpl. lia.
Qed.

Lemma Qc_of_nat_pos (n : nat) : (0 < n)%nat -> (Q2Qc 0 < Qc_of_nat n)%Qc.
Proof.
  intros Hn. unfold Qc_of_nat, Qclt. cbn [this Q2Qc]. rewrite !Qred_correct.
  unfold Qlt. simpl. lia.
Qed.

Lemma filter_pair_length {A} (p q r : A -> bool) (l : list A) :
  (forall x, p x = true -> r x = true) ->
  (forall x, q x = true -> r x = true) ->
  (forall x, p x = true -> q x = false) ->
  (length (List.filter p l) + length (List.filter q l) <= length (List.filter r l))%nat.
Proof.
  intros Hp Hq Hpq. induction l as [ | x l IH]; [reflexivity | ].
  cbn [List.filter]. destruct (p x) eqn:Hpx.
  - rewrite (Hpq x Hpx), (Hp x Hpx). simpl. lia.
  - destruct (q x) eqn:Hqx; [rewrite (Hq x Hqx); simpl; lia | ].
    destruct (r x); simpl; lia.
Qed.

Lemma group_by_sizes {K A} `{EqDecision K} (key : A -> K) (l : list A) g :
  g ∈ group_by key l -> (1 <= length g.2 <= length l)%nat.
Proof.
  unfold group_by. intros Hg. apply list_elem_of_fmap in Hg as (k & -> & Hk).
  apply elem_of_remove_dups, list_elem_of_fmap in Hk as (a & -> & Ha). cbn [snd].
  split; [ | apply length_filter].
  assert (Hin : a ∈ filter (fun b => key b = key a) l)
    by (apply list_elem_of_filter; split; [reflexivity | exact Ha]).
  destruct (filter _ l); [apply not_elem_of_nil in Hin; destruct Hin | simpl; lia].
Qed.

(** X16: in the statistics of [get_sms_statistics], the parsed and the
    unparsed messages together are at most the total; the parsing rate
    lies between 0 and 100, and is 0 when the user has no message (the
    division is not attempted); at most ten senders are listed, by
    descending count, each with at least one message and at most the
    total. *)
Theorem sms_statistics_bounded (c : collection) (user_id : string) :
  let s := get_sms_statistics c user_id in
  (parsed_sms s + unparsed_sms s <= total_sms s)%nat
  /\ (Q2Qc 0 <= parsing_rate s <= Qc_of_Z 100)%Qc
  /\ (total_sms s = 0%nat -> parsing_rate s = Q2Qc 0)
  /\ (length (top_senders s) <= 10)%nat
  /\ Forall (fun sender => (1 <= sender.2 <= total_sms s)%nat) (top_senders s)
  /\ StronglySorted (fun s1 s2 => (s2.2 <= s1.2)%nat) (top_senders s).
Proof.
  intros s. subst s. unfold get_sms_statistics.
  cbn [parsed_sms unparsed_sms total_sms parsing_rate top_senders].
  set (own := find c (by_user user_id)).
  assert (Hsum : (length (find c (parsed_of user_id))
                  + length (find c (unparsed_of user_id)) <= length own)%nat).
  { apply filter_pair_length.
    - apply parsed_of_user.
    - apply unparsed_of_user.
    - intros x Hx. unfold parsed_of in Hx. apply andb_true_iff in Hx as [_ Hx].
      apply bool_decide_eq_true_1 in Hx. unfold unparsed_of. rewrite Hx.
      apply andb_false_r. }
  split; [exact Hsum | ]. split; [ | split; [ | split; [ | split]]].
  - destruct (0 <? length own)%nat eqn:Hpos; [ | split; vm_compute; discriminate].
    apply Nat.ltb_lt in Hpos.
    assert (Ht : (Q2Qc 0 < Qc_of_nat (length own))%Qc) by apply Qc_of_nat_pos, Hpos.
    assert (Hne : Qc_of_nat (length own) <> Q2Qc 0).
    { apply not_eq_sym, Qclt_not_eq, Ht. }
    set (rate := (Qc_of_nat (length (find c (parsed_of user_id)))
                  / Qc_of_nat (length own))%Qc).
    assert (Hrate : (Q2Qc 0 <= rate <= 1)%Qc).
    { split; apply (Qcmult_lt_0_le_reg_r _ _ _ Ht); unfold rate;
        rewrite test_field by exact Hne.
      - rewrite Qcmult_0_l. apply (Qc_of_nat_le 0). lia.
      - rewrite Qcmult_1_l. apply Qc_of_nat_le. lia. }
    assert (Hhundred : (Q2Qc 0 <= Qc_of_Z 100)%Qc) by (vm_compute; discriminate).
    split.
    + apply Qcmult_nonneg_nonneg; [apply Hrate | exact Hhundred].
    + rewrite <- (Qcmult_1_l (Qc_of_Z 100)) at 2.
      apply Qcmult_le_compat_r; [apply Hrate | exact Hhundred].
  - intros ->. reflexivity.
  - rewrite length_fmap. apply firstn_le_length.
  - apply Forall_fmap, Forall_forall. intros g Hg. cbn [snd].
    eapply elem_of_sublist in Hg; [ | apply sublist_take].
    rewrite merge_sort_Permutation in Hg. exact (group_by_sizes _ own g Hg).
  - eapply (StronglySorted_Forall2 count_desc _ (fun g sender => sender = (g.1, length g.2))).
    + intros g1 g2 s1 s2 _ _ Hg -> ->. exact Hg.
    + apply Forall2_fmap_r, Forall_Forall2_diag, Forall_forall. reflexivity.
    + eapply StronglySorted_sublist; [apply sublist_take | ].
      apply StronglySorted_merge_sort.
      * intros x y z. unfold count_desc. lia.
      * intros x y. unfold count_desc. lia.
Qed.

(** ** Messages *)

Lemma SMSMessage_dict_id i m :
  <["id" := VStr i]> (SMSMessage_dict m) = SMSMessage_dict (SMSMessage_with_id i m).
Proof. vm_compute. exact eq_refl. Qed.

Lemma by_id_and_user_message i u m :
  SMSMessage.user_id m = u -> by_id_and_user i u (i, SMSMessage_dict m) = true.
Proof.
  intros <-. unfold by_id_and_user. apply andb_true_iff.
  split; apply bool_decide_eq_true_2; reflexivity.
Qed.

Section MessageFacts.
Context `{PyRuntime}.

Lemma SMSMessage_validate_dict now m :
  SMSMessage_validate now (SMSMessage_dict m) = Some m.
Proof.
  unfold SMSMessage_validate.
  replace (SMSMessage_dict m !! "id")
    with (Some (opt_value VStr (SMSMessage.id m))) by reflexivity.
  rewrite optional_str_dict. destruct m; reflexivity.
Qed.

End MessageFacts.

(** X17: [save_sms] appends the message under an identifier no message
    bore and returns it with that identifier, the sender, text and
    timestamp of the request, and not parsed. [get_sms_message] then
    reads that same message for the caller, and nothing for anybody
    else. *)
Theorem saved_message_read_back `{PyRuntime}
    (now now' : Z) (c : collection) (user_id : string) (sms_data : SMSRequest.t) :
  issued c ->
  let r := save_sms now c user_id sms_data in
  issued r.1
  /\ exists m i,
       r.2 = Some m
       /\ SMSMessage.id m = Some i
       /\ (i ∉ (docs c).*1)
       /\ m = SMSMessage.mk (Some i) user_id (SMSRequest.sender sms_data)
                (SMSRequest.message_text sms_data) (SMSRequest.timestamp sms_data)
                false now now
       /\ docs r.1
          = (docs c ++ [(i, SMSMessage_dict
                              (SMSMessage.mk None user_id (SMSRequest.sender sms_data)
                                 (SMSRequest.message_text sms_data)
                                 (SMSRequest.timestamp sms_data) false now now))])%list
       /\ get_sms_message now' r.1 user_id i = Some m
       /\ forall other, other <> user_id -> get_sms_message now' r.1 other i = None.
Proof.
  intros Hc r. subst r. unfold save_sms, insert_one. cbn [fst snd].
  pose proof (issued_fresh c Hc) as Hfresh.
  split; [apply (issued_insert c _ Hc) | ].
  eexists. exists (pretty (next_id c)). split; [reflexivity | ].
  split; [reflexivity | ]. split; [exact Hfresh | ]. split; [reflexivity | ].
  split; [reflexivity | ]. split.
  - unfold get_sms_message, find_one. cbn [docs].
    rewrite find_app_miss by (apply find_other_id, Hfresh). cbn [List.find].
    rewrite by_id_and_user_message by reflexivity.
    rewrite SMSMessage_dict_id. apply SMSMessage_validate_dict.
  - intros other Hne. unfold get_sms_message, find_one. cbn [docs].
    rewrite find_app_miss by (apply find_other_id, Hfresh). cbn [List.find].
    rewrite by_id_and_user_other; [reflexivity | ].
    cbn [snd]. intros Hu. apply Hne. vm_compute in Hu. congruence.
Qed.

Lemma saved_message_read_back_witness :
  let r := save_sms 7 empty_collection "u1" example_request in
  issued r.1
  /\ exists m i,
       r.2 = Some m
       /\ SMSMessage.id m = Some i
       /\ (i ∉ (docs empty_collection).*1)
       /\ m = SMSMessage.mk (Some i) "u1" (SMSRequest.sender example_request)
                (SMSRequest.message_text example_request)
                (SMSRequest.timestamp example_request) false 7 7
       /\ docs r.1
          = (docs empty_collection
             ++ [(i, SMSMessage_dict
                       (SMSMessage.mk None "u1" (SMSRequest.sender example_request)
                          (SMSRequest.message_text example_request)
                          (SMSRequest.timestamp example_request) false 7 7))])%list
       /\ get_sms_message (H := example_runtime) 8 r.1 "u1" i = Some m
       /\ forall other, other <> "u1" ->
            get_sms_message (H := example_runtime) 8 r.1 other i = None.
Proof.
  apply (saved_message_read_back (H := example_runtime) 7 8 empty_collection "u1"
           example_request).
  split; simpl; [constructor | ].
  intros i Hi. apply not_elem_of_nil in Hi. destruct Hi.
Defined.

(** ** The parsed flag and what ingestion keeps *)

Lemma parsed_update_other now d k :
  k <> "parsed" -> k <> "updated_at" -> set_fields (parsed_update now) d !! k = d !! k.
Proof.
  intros Hp Hu. unfold set_fields, parsed_update. apply lookup_union_r.
  apply not_elem_of_list_to_map_1. cbn [fmap list_fmap fst].
  rewrite !not_elem_of_cons. split; [exact Hp | ]. split; [exact Hu | ].
  apply not_elem_of_nil.
Qed.

Lemma messages_kept_refl c : messages_kept c c.
Proof. intros i d Hin. exists d. auto. Qed.

Lemma messages_kept_trans c1 c2 c3 :
  messages_kept c1 c2 -> messages_kept c2 c3 -> messages_kept c1 c3.
Proof.
  intros H12 H23 i d Hin. destruct (H12 i d Hin) as (d2 & Hin2 & Hk2 & Hp2).
  destruct (H23 i d2 Hin2) as (d3 & Hin3 & Hk3 & Hp3).
  exists d3. split; [exact Hin3 | ]. split; [ | auto].
  intros k Hp Hu. rewrite Hk3, Hk2; auto.
Qed.

Lemma grows_refl w : grows w w.
Proof. split; [reflexivity | apply messages_kept_refl]. Qed.

Lemma grows_trans w1 w2 w3 : grows w1 w2 -> grows w2 w3 -> grows w1 w3.
Proof.
  intros [Ht12 Hm12] [Ht23 Hm23].
  split; [etransitivity; eassumption | eapply messages_kept_trans; eassumption].
Qed.

Section FlagFacts.
Context `{PyRuntime}.

Lemma mark_docs now c s :
  docs (mark_sms_as_parsed now c (Some s)).1
  = (update_first (by_id s) (parsed_update now) (docs c)).1.
Proof.
  unfold mark_sms_as_parsed, update_one. fold (parsed_update now).
  destruct (update_first _ _ (docs c)) as [l n]. reflexivity.
Qed.

Lemma mark_elements now c s i d' :
  (i, d') ∈ docs (mark_sms_as_parsed now c (Some s)).1 ->
  (i, d') ∈ docs c
  \/ (i = s /\ exists d, (s, d) ∈ docs c /\ d' = set_fields (parsed_update now) d).
Proof.
  rewrite mark_docs. intros Hin. apply list_elem_of_lookup in Hin as [n Hn].
  destruct (Forall2_lookup_r _ _ _ _ _
              (update_first_frame_query (by_id s) (parsed_update now) (docs c)) Hn)
    as ([j d] & Hx & Hj & Hd).
  cbn [fst snd] in Hj, Hd. subst j.
  assert (Hin : (i, d) ∈ docs c) by (apply list_elem_of_lookup; eauto).
  destruct Hd as [[= ->] | [-> Hq]]; [left; exact Hin | right].
  unfold by_id in Hq. apply bool_decide_eq_true_1 in Hq. cbn [fst] in Hq. subst i.
  split; [reflexivity | ]. exists d. split; [exact Hin | reflexivity].
Qed.

Lemma mark_kept now c o : messages_kept c (mark_sms_as_parsed now c o).1.
Proof.
  destruct o as [s | ]; [ | apply messages_kept_refl].
  intros i d Hin. rewrite mark_docs.
  destruct (frame_elem _ _ _ i d
              (update_first_frame (by_id s) (parsed_update now) (docs c)) Hin)
    as (d' & Hin' & [-> | ->]).
  - exists d. auto.
  - eexists. split; [exact Hin' | ]. split; [apply parsed_update_other | ].
    intros _. apply parsed_update_parsed.
Qed.

Lemma flags_exact_process now w user_id m reply :
  flags_exact w -> flags_exact (process_sms_for_transactions now w user_id m reply).1.
Proof.
  intros [Hbool Href].
  destruct (process_sms_effect now w user_id m reply) as [-> | [Hrefs Hsms]];
    [split; assumption | ].
  destruct (SMSMessage.id m) as [s | ].
  - split.
    + intros i d. rewrite Hsms. intros Hin.
      apply mark_elements in Hin as [Hin | (-> & d0 & _ & ->)]; [eauto | ].
      exists true. apply parsed_update_parsed.
    + intros i d. rewrite Hsms, Hrefs. intros Hin Hp. apply elem_of_app.
      apply mark_elements in Hin as [Hin | (-> & d0 & _ & ->)]; [left; eauto | ].
      right. left.
  - cbn [mark_sms_as_parsed fst] in Hsms. split.
    + intros i d. rewrite Hsms. apply Hbool.
    + intros i d. rewrite Hsms, Hrefs. intros Hin Hp. apply elem_of_app. left. eauto.
Qed.

Lemma flags_exact_save now w user_id sms_data :
  flags_exact w ->
  flags_exact {| sms_messages := (save_sms now (sms_messages w) user_id sms_data).1;
                 transactions := transactions w |}.
Proof.
  intros [Hbool Href]. unfold save_sms, insert_one. cbn [fst]. split; cbn [sms_messages
    transactions docs].
  - intros i d Hin. apply elem_of_app in Hin as [Hin | Hin]; [eauto | ].
    apply list_elem_of_singleton in Hin. apply (f_equal snd) in Hin. cbn [snd] in Hin.
    subst d. exists false. reflexivity.
  - intros i d Hin Hp. apply elem_of_app in Hin as [Hin | Hin]; [eauto | ].
    apply list_elem_of_singleton in Hin. apply (f_equal snd) in Hin. cbn [snd] in Hin.
    subst d. discriminate Hp.
Qed.

(** What every turn of the loop of a rescan preserves, the loop
    preserves. *)
Lemma rescan_preserves (P : world -> Prop) now user_id replies :
  (forall w m, P w -> P (process_sms_for_transactions now w user_id m (replies m)).1) ->
  forall ms w acc,
    P w ->
    P (foldl
         (fun '(w, processed_results) sms =>
            let '(w, result) :=
              process_sms_for_transactions now w user_id sms (replies sms) in
            match result with
            | Some r => (w, (processed_results ++ [r])%list)
            | None => (w, processed_results)
            end)
         (w, acc) ms).1.
Proof.
  intros Hstep. induction ms as [ | m ms IH]; intros w acc Hw; [exact Hw | ].
  cbn [foldl]. pose proof (Hstep w m Hw) as Hw'.
  destruct (process_sms_for_transactions now w user_id m (replies m)) as [w' result].
  destruct result; apply IH; exact Hw'.
Qed.

Lemma flags_exact_run_operation w o : flags_exact w -> flags_exact (run_operation w o).
Proof.
  intros Hw. destruct o as [now user_id sms_data reply | now user_id replies];
    cbn [run_operation].
  - unfold receive_sms.
    pose proof (flags_exact_save now w user_id sms_data Hw) as Hs.
    destruct (save_sms now (sms_messages w) user_id sms_data) as [sms [m | ]];
      [apply flags_exact_process, Hs | exact Hs].
  - unfold reprocess_unparsed_sms.
    apply (rescan_preserves flags_exact); [ | exact Hw].
    intros w0 m. apply flags_exact_process.
Qed.

Lemma flags_exact_run ops : forall w, flags_exact w -> flags_exact (run w ops).
Proof.
  unfold run. induction ops as [ | o ops IH]; intros w Hw; [exact Hw | ].
  cbn [foldl]. apply IH, flags_exact_run_operation, Hw.
Qed.

End FlagFacts.

Lemma flags_exact_empty : flags_exact empty_world.
Proof.
  split; intros i d Hin; apply not_elem_of_nil in Hin; destruct Hin.
Qed.

(** X18: after any sequence of ingest and rescan operations the
    [parsed] flag of a message tells exactly whether a transaction was
    derived from it: a message is flagged if and only if one
    transaction refers to it, and its flag is [False] if and only if
    none does. *)
Theorem parsed_flag_exact `{PyRuntime}
    (ops : list operation) (i : string) (d : gmap string value) :
  let w := run empty_world ops in
  (i, d) ∈ docs (sms_messages w) ->
  (is_parsed d <-> derived i w = 1%nat)
  /\ (d !! "parsed" = Some (VBool false) <-> derived i w = 0%nat).
Proof.
  intros w Hin.
  assert (Hc : consistent w) by (apply consistent_run, consistent_empty).
  assert (Hf : flags_exact w) by (apply flags_exact_run, flags_exact_empty).
  assert (Hone : is_parsed d -> derived i w = 1%nat).
  { intros Hp. pose proof (parsed_has_transaction w Hf i d Hin Hp) as Href.
    pose proof (at_most_one w Hc i) as Hle.
    destruct (derived i w) as [ | n] eqn:Hd; [ | lia].
    apply derived_zero in Hd. destruct (Hd Href). }
  assert (Hzero : d !! "parsed" = Some (VBool false) -> derived i w = 0%nat)
    by (intros Hp; eapply unparsed_not_derived; eassumption).
  split; split; [exact Hone | | exact Hzero | ].
  - intros Hd. destruct (parsed_boolean w Hf i d Hin) as [[ | ] Hb]; [exact Hb | ].
    rewrite (Hzero Hb) in Hd. discriminate Hd.
  - intros Hd. destruct (parsed_boolean w Hf i d Hin) as [[ | ] Hb]; [ | exact Hb].
    rewrite (Hone Hb) in Hd. discriminate Hd.
Qed.

Lemma parsed_flag_exact_witness :
  (is_parsed retried_message
   <-> derived "0" (run (H := example_runtime) empty_world retried_ingestion) = 1%nat)
  /\ (retried_message !! "parsed" = Some (VBool false)
      <-> derived "0" (run (H := example_runtime) empty_world retried_ingestion) = 0%nat).
Proof.
  apply (parsed_flag_exact (H := example_runtime) retried_ingestion "0" retried_message).
  apply (bool_decide_unpack _). vm_compute. exact I.
Defined.

Section GrowthFacts.
Context `{PyRuntime}.

Lemma create_transaction_prefix now c user_id data :
  issued c ->
  issued (create_transaction now c user_id data).1
  /\ docs c `prefix_of` docs (create_transaction now c user_id data).1.
Proof.
  intros Hc.
  destruct (Transaction_validate now (<["user_id" := VStr user_id]> data))
    as [x | ] eqn:Hv.
  - rewrite (create_transaction_stored now c user_id data x Hc Hv). cbn [fst docs].
    split; [apply (issued_insert c (Transaction_dict (categorised now x)) Hc) | ].
    apply prefix_app_r. reflexivity.
  - rewrite (create_transaction_invalid now c user_id data Hv). auto.
Qed.

Lemma process_grows now w user_id m reply :
  issued (transactions w) ->
  issued (transactions (process_sms_for_transactions now w user_id m reply).1)
  /\ grows w (process_sms_for_transactions now w user_id m reply).1.
Proof.
  intros Hw. unfold process_sms_for_transactions.
  destruct (process_sms_intelligently now reply) as [p | ];
    [ | split; [exact Hw | apply grows_refl]].
  match goal with
  | |- context [create_transaction now (transactions w) user_id ?data] =>
      pose proof (create_transaction_prefix now (transactions w) user_id data Hw)
        as [Hi Hp];
      destruct (create_transaction now (transactions w) user_id data) as [txs created]
  end.
  cbn [fst] in Hi, Hp. destruct created as [t | ].
  - pose proof (mark_kept now (sms_messages w) (SMSMessage.id m)) as Hk.
    destruct (mark_sms_as_parsed now (sms_messages w) (SMSMessage.id m)) as [sms b].
    cbn [fst transactions]. split; [exact Hi | ]. split; [exact Hp | exact Hk].
  - cbn [fst transactions]. split; [exact Hi | ].
    split; [exact Hp | apply messages_kept_refl].
Qed.

Lemma run_operation_grows w o :
  issued (transactions w) ->
  issued (transactions (run_operation w o)) /\ grows w (run_operation w o).
Proof.
  intros Hw. destruct o as [now user_id sms_data reply | now user_id replies];
    cbn [run_operation].
  - unfold receive_sms.
    assert (Hs : grows w {| sms_messages := (save_sms now (sms_messages w) user_id
                                               sms_data).1;
                            transactions := transactions w |}).
    { split; [reflexivity | ]. unfold save_sms, insert_one. cbn [fst sms_messages docs].
      intros i d Hin. exists d. split; [apply elem_of_app; left; exact Hin | auto]. }
    destruct (save_sms now (sms_messages w) user_id sms_data) as [sms [m | ]];
      cbn [fst] in Hs; [ | split; [exact Hw | exact Hs]].
    destruct (process_grows now {| sms_messages := sms; transactions := transactions w |}
                user_id m reply Hw) as [Hi Hg].
    split; [exact Hi | eapply grows_trans; eassumption].
  - unfold reprocess_unparsed_sms.
    apply (rescan_preserves
             (fun w' => issued (transactions w') /\ grows w w'));
      [ | split; [exact Hw | apply grows_refl]].
    intros w0 m [Hi0 Hg0].
    destruct (process_grows now w0 user_id m (replies m) Hi0) as [Hi Hg].
    split; [exact Hi | eapply grows_trans; eassumption].
Qed.

End GrowthFacts.

(** X19: ingestion only adds. Through any sequence of ingest and rescan
    operations, on transactions with distinct identifiers drawn from
    the counter, the transactions stored before stay as they were, in
    front of those added: none is changed, removed or moved. Every
    message stays under its identifier with its user, sender, text and
    timestamp; only [parsed] and [updated_at] may change, and a message
    that was flagged stays flagged. *)
Theorem ingestion_only_adds `{PyRuntime} (w : world) (ops : list operation) :
  issued (transactions w) ->
  grows w (run w ops) /\ issued (transactions (run w ops)).
Proof.
  unfold run. revert w. induction ops as [ | o ops IH]; intros w Hw;
    [split; [apply grows_refl | exact Hw] | ].
  cbn [foldl]. destruct (run_operation_grows w o Hw) as [Hi Hg].
  destruct (IH _ Hi) as [Hg' Hi']. split; [eapply grows_trans; eassumption | exact Hi'].
Qed.

Lemma ingestion_only_adds_witness :
  grows (run (H := example_runtime) empty_world (take 2 retried_ingestion))
    (run (H := example_runtime)
       (run (H := example_runtime) empty_world (take 2 retried_ingestion))
       (drop 2 retried_ingestion))
  /\ issued (transactions
               (run (H := example_runtime)
                  (run (H := example_runtime) empty_world (take 2 retried_ingestion))
                  (drop 2 retried_ingestion))).
Proof.
  apply (ingestion_only_adds (H := example_runtime)
           (run (H := example_runtime) empty_world (take 2 retried_ingestion))
           (drop 2 retried_ingestion)).
  split.
  - apply (bool_decide_unpack _). vm_compute. exact I.
  - intros i Hi. exists 0%N.
    assert (Hids : (docs (transactions
                            (run (H := example_runtime) empty_world
                               (take 2 retried_ingestion)))).*1 = ["0"])
      by (vm_compute; reflexivity).
    rewrite Hids in Hi. apply list_elem_of_singleton in Hi. subst i.
    split; [reflexivity | vm_compute; reflexivity].
Defined.

(** ** The route that receives a message *)

Lemma categorised_message now x :
  Transaction.sms_message_id (categorised now x) = Transaction.sms_message_id x.
Proof.
  unfold categorised. destruct (Transaction.merchant x) as [m | ]; [ | auto].
  destruct (_ || _); [auto | ]. destruct (table_category m); auto.
Qed.

Section ReceiveFacts.
Context `{PyRuntime}.

(** Marking the message that was appended last. *)
Lemma mark_last now l n s d :
  s ∉ l.*1 ->
  (mark_sms_as_parsed now {| docs := l ++ [(s, d)]; next_id := n |} (Some s)).1
  = {| docs := l ++ [(s, set_fields (parsed_update now) d)]; next_id := n |}.
Proof.
  intros Hfresh. unfold mark_sms_as_parsed, update_one. fold (parsed_update now).
  cbn [docs next_id]. rewrite update_first_app.
  2:{ clear d. induction l as [ | [j d0] l IH]; [reflexivity | ].
      rewrite fmap_cons, not_elem_of_cons in Hfresh. destruct Hfresh as [Hne Hl].
      cbn [List.find]. unfold by_id at 1. cbn [fst].
      rewrite bool_decide_eq_false_2 by (intros ->; apply Hne; reflexivity).
      apply IH, Hl. }
  cbn [update_first]. unfold by_id. cbn [fst].
  rewrite bool_decide_eq_true_2 by reflexivity. reflexivity.
Qed.

End ReceiveFacts.

(** X20: what [receive_sms] reports is what it has done. The message is
    appended to the messages in either case. When a transaction is
    reported, exactly one transaction was appended; it bears the
    reported identifier, belongs to the caller and refers to the
    message saved, and that message is flagged parsed. When none is
    reported, the transactions are as they were and the message is
    stored unparsed, where a later rescan finds it. *)
Theorem receive_sms_outcome `{PyRuntime}
    (now : Z) (w : world) (user_id : string) (sms_data : SMSRequest.t)
    (reply : gemini_reply) :
  issued (sms_messages w) ->
  issued (transactions w) ->
  let r := receive_sms now w user_id sms_data reply in
  let s := pretty (next_id (sms_messages w)) in
  exists d,
    docs (sms_messages r.1) = (docs (sms_messages w) ++ [(s, d)])%list
    /\ d !! "user_id" = Some (VStr user_id)
    /\ d !! "message_text" = Some (VStr (SMSRequest.message_text sms_data))
    /\ match r.2 with
       | Some result =>
           is_parsed d
           /\ result !! "sms_id" = Some (VStr s)
           /\ exists i t,
                result !! "transaction_id" = Some (VStr i)
                /\ docs (transactions r.1) = (docs (transactions w) ++ [(i, t)])%list
                /\ t !! "sms_message_id" = Some (VStr s)
                /\ t !! "user_id" = Some (VStr user_id)
       | None =>
           d !! "parsed" = Some (VBool false)
           /\ transactions r.1 = transactions w
       end.
Proof.
  intros Hsms Htxs r s. subst r s.
  pose proof (issued_fresh _ Hsms) as Hfresh.
  unfold receive_sms, save_sms, insert_one.
  set (s := pretty (next_id (sms_messages w))).
  set (m := SMSMessage.mk None user_id (SMSRequest.sender sms_data)
              (SMSRequest.message_text sms_data) (SMSRequest.timestamp sms_data)
              false now now).
  unfold process_sms_for_transactions. cbn [sms_messages transactions].
  assert (Hplain :
    (docs (sms_messages w) ++ [(s, SMSMessage_dict m)])%list
    = (docs (sms_messages w) ++ [(s, SMSMessage_dict m)])%list
    /\ SMSMessage_dict m !! "user_id" = Some (VStr user_id)
    /\ SMSMessage_dict m !! "message_text"
       = Some (VStr (SMSRequest.message_text sms_data))
    /\ SMSMessage_dict m !! "parsed" = Some (VBool false))
    by (repeat split; reflexivity).
  destruct (process_sms_intelligently now reply) as [p | ] eqn:Hp.
  2:{ exists (SMSMessage_dict m). cbn [fst snd sms_messages transactions docs].
      tauto. }
  cbn [SMSMessage_with_id SMSMessage.id].
  set (data := p ∪ list_to_map
                     [ ("user_id", VStr user_id);
                       ("sms_message_id", opt_value VStr (Some s)) ]).
  destruct (Transaction_validate now (<["user_id" := VStr user_id]> data))
    as [x | ] eqn:Hv.
  2:{ rewrite (create_transaction_invalid now _ user_id data Hv).
      exists (SMSMessage_dict m). cbn [fst snd sms_messages transactions docs].
      tauto. }
  rewrite (create_transaction_stored now _ user_id data x Htxs Hv).
  rewrite (surjective_pairing (mark_sms_as_parsed _ _ _)).
  rewrite (mark_last now _ _ s (SMSMessage_dict m) Hfresh).
  cbn [fst snd sms_messages transactions docs].
  exists (set_fields (parsed_update now) (SMSMessage_dict m)).
  split; [reflexivity | ].
  split; [rewrite parsed_update_other by discriminate; reflexivity | ].
  split; [rewrite parsed_update_other by discriminate; reflexivity | ].
  split; [apply parsed_update_parsed | ]. split; [reflexivity | ].
  exists (pretty (next_id (transactions w))), (Transaction_dict (categorised now x)).
  split; [reflexivity | ]. split; [reflexivity | ].
  assert (Hs : Transaction.sms_message_id x = Some s).
  { eapply Transaction_validate_message; [ | exact Hv].
    rewrite lookup_insert_ne by discriminate. unfold data.
    destruct reply as [ | | | v]; try discriminate Hp.
    apply process_sms_Some in Hp. apply sms_fields_no_message_id in Hp as [Hp _].
    rewrite lookup_union_r by exact Hp. reflexivity. }
  pose proof (Transaction_validate_user _ _ _ _ (lookup_insert_eq _ _ _) Hv) as Hu.
  split.
  - replace (Transaction_dict (categorised now x) !! "sms_message_id")
      with (Some (opt_value VStr (Transaction.sms_message_id (categorised now x))))
      by reflexivity.
    rewrite categorised_message, Hs. reflexivity.
  - replace (Transaction_dict (categorised now x) !! "user_id")
      with (Some (VStr (Transaction.user_id (categorised now x)))) by reflexivity.
    rewrite categorised_user, Hu. reflexivity.
Qed.

Lemma receive_sms_outcome_witness :
  let r := receive_sms (H := example_runtime) 7 empty_world "u1" example_request
             (Json amazon_reply) in
  exists d,
    docs (sms_messages r.1) = (docs (sms_messages empty_world) ++ [("0", d)])%list
    /\ d !! "user_id" = Some (VStr "u1")
    /\ d !! "message_text" = Some (VStr (SMSRequest.message_text example_request))
    /\ match r.2 with
       | Some result =>
           is_parsed d
           /\ result !! "sms_id" = Some (VStr "0")
           /\ exists i t,
                result !! "transaction_id" = Some (VStr i)
                /\ docs (transactions r.1)
                   = (docs (transactions empty_world) ++ [(i, t)])%list
                /\ t !! "sms_message_id" = Some (VStr "0")
                /\ t !! "user_id" = Some (VStr "u1")
       | None =>
           d !! "parsed" = Some (VBool false)
           /\ transactions r.1 = transactions empty_world
       end.
Proof.
  apply (receive_sms_outcome (H := example_runtime) 7 empty_world "u1" example_request
           (Json amazon_reply)).
  - split; simpl; [constructor | ].
    intros i Hi. apply not_elem_of_nil in Hi. destruct Hi.
  - split; simpl; [constructor | ].
    intros i Hi. apply not_elem_of_nil in Hi. destruct Hi.
Defined.

(** ** Updates are not validated *)

Lemma find_own (l : list (string * gmap string value)) i u d :
  NoDup l.*1 -> (i, d) ∈ l -> d !! "user_id" = Some (VStr u) ->
  List.find (by_id_and_user i u) l = Some (i, d).
Proof.
  intros Hnd Hin Hu.
  destruct (find_is_Some (by_id_and_user i u) l (i, d) Hin) as [[j d0] Hx].
  { unfold by_id_and_user. cbn [fst snd].
    rewrite !bool_decide_eq_true_2 by (reflexivity || exact Hu). reflexivity. }
  rewrite Hx. pose proof Hx as Hx'. apply find_some in Hx' as [Hxin Hq].
  apply by_id_and_user_id in Hq. cbn [fst] in Hq. subst j.
  apply list_elem_of_In in Hxin.
  rewrite (NoDup_fst_unique l i d0 d Hnd Hxin Hin). reflexivity.
Qed.

Section UnvalidatedFacts.
Context `{PyRuntime}.

Lemma all_transactions_query u :
  exists q, query_matches (build_query u all_transactions) = Some q
            /\ forall x, q x = by_user u x.
Proof.
  unfold query_matches, build_query, all_transactions.
  cbn [q_merchant_regex q_user_id q_date_gte q_date_lte q_amount_gte q_amount_lte
       q_transaction_type q_category q_payment_method q_is_failed q_tags_in
       TransactionFilter.start_date TransactionFilter.end_date
       TransactionFilter.min_amount TransactionFilter.max_amount
       TransactionFilter.transaction_type TransactionFilter.merchant
       TransactionFilter.category TransactionFilter.payment_method
       TransactionFilter.is_failed TransactionFilter.tags
       truthy_num truthy_str truthy_list fmap option_fmap option_map
       date_in_range amount_in_range field_is tags_in].
  eexists. split; [reflexivity | ]. intros x. cbv beta. unfold by_user.
  rewrite !andb_true_r.
  destruct (x.2 !! "merchant") as [[ | | | | | | ] | ]; rewrite ?andb_true_r; reflexivity.
Qed.

End UnvalidatedFacts.

(** X21: [update_transaction] writes without validating. Given an
    amount that is not positive for a transaction of the caller, it
    stores that amount and returns [None], as if the transaction were
    not there. The transaction can then not be read any more:
    [get_transaction] returns [None] for it, and the listing of all
    transactions of the user, which fails as a whole on the first
    document the model refuses, is empty. *)
Theorem update_is_not_validated `{PyRuntime}
    (now now' : Z) (c : collection) (user_id transaction_id : string)
    (d : gmap string value) (q : Qc) :
  NoDup (docs c).*1 ->
  (transaction_id, d) ∈ docs c ->
  d !! "user_id" = Some (VStr user_id) ->
  (q <= Q2Qc 0)%Qc ->
  let r := update_transaction now c user_id transaction_id {[ "amount" := VNum q ]} in
  (transaction_id, <["updated_at" := VDate now]> (<["amount" := VNum q]> d)) ∈ docs r.1
  /\ r.2 = None
  /\ get_transaction now' r.1 user_id transaction_id = None
  /\ get_transactions now' r.1 user_id all_transactions = [].
Proof.
  intros Hnd Hin Hu Hq r.
  set (upd := <["updated_at" := VDate now]> ({[ "amount" := VNum q ]} : gmap string value)).
  set (d' := <["updated_at" := VDate now]> (<["amount" := VNum q]> d)).
  set (c' := {| docs := (update_first (by_id_and_user transaction_id user_id) upd
                           (docs c)).1;
                next_id := next_id c |}).
  assert (Hd' : set_fields upd d = d').
  { unfold set_fields, upd, d'.
    rewrite <- insert_union_l, <- insert_union_singleton_l. reflexivity. }
  assert (Hin' : (transaction_id, d') ∈ docs c').
  { rewrite <- Hd'.
    apply (update_first_hits _ upd (docs c) (transaction_id, d)).
    apply find_own; assumption. }
  assert (Hnd' : NoDup (docs c').*1).
  { cbn [docs c']. rewrite (frame_ids upd (docs c)); [exact Hnd | ].
    apply update_first_frame. }
  assert (Hu' : d' !! "user_id" = Some (VStr user_id)).
  { unfold d'. rewrite !lookup_insert_ne by discriminate. exact Hu. }
  assert (Hbad : forall t, Transaction_validate t (<["id" := VStr transaction_id]> d') = None).
  { intros t. apply (Transaction_validate_nonpositive t _ q); [ | exact Hq].
    unfold d'. rewrite !lookup_insert_ne by discriminate. apply lookup_insert_eq. }
  assert (Hget : forall t, get_transaction t c' user_id transaction_id = None).
  { intros t. unfold get_transaction, find_one.
    rewrite (find_own (docs c') transaction_id user_id d' Hnd' Hin' Hu'). apply Hbad. }
  assert (Hr : r = (c', if (0 <? (update_first (by_id_and_user transaction_id user_id)
                                    upd (docs c)).2)%nat
                        then get_transaction now c' user_id transaction_id else None)).
  { subst r. unfold update_transaction.
    rewrite map_filter_singleton_True by discriminate. fold upd.
    rewrite bool_decide_eq_false_2.
    2:{ unfold upd. rewrite lookup_insert_ne by discriminate.
        rewrite lookup_singleton_ne by discriminate. apply is_Some_None. }
    unfold update_one, c'.
    destruct (update_first _ upd (docs c)) as [l n]. cbn [fst snd].
    destruct (0 <? n)%nat; reflexivity. }
  rewrite Hr. cbn [fst snd]. split; [exact Hin' | ].
  split; [rewrite Hget; destruct (0 <? _)%nat; reflexivity | ].
  split; [apply Hget | ].
  destruct (get_transactions_cursor now' c' user_id all_transactions)
    as [Hnil | (q0 & cursor & Hq0 & Hcursor & Hpage)]; [exact Hnil | exfalso].
  destruct (all_transactions_query user_id) as (q1 & Hq1 & Hby).
  rewrite Hq1 in Hq0. injection Hq0 as <-.
  unfold skip_limit, all_transactions in Hcursor.
  cbn [TransactionFilter.offset TransactionFilter.limit Z.ltb Z.eqb Z.compare Z.to_nat
       drop] in Hcursor.
  injection Hcursor as <-.
  assert (Hc : (transaction_id, d') ∈ sort_desc "transaction_date" (find c' q1)).
  { unfold sort_desc. rewrite merge_sort_Permutation.
    apply list_elem_of_In, filter_In. split; [apply list_elem_of_In, Hin' | ].
    rewrite Hby. unfold by_user. apply bool_decide_eq_true_2. exact Hu'. }
  apply list_elem_of_lookup in Hc as [n Hn].
  destruct (Forall2_lookup_l _ _ _ _ _ Hpage Hn) as (t & _ & Ht).
  cbn [fst snd] in Ht. rewrite Hbad in Ht. discriminate Ht.
Qed.

Lemma update_is_not_validated_witness :
  let r := update_transaction (H := example_runtime) 5 sample_store "u1" "0"
             {[ "amount" := num (-5) ]} in
  (("0" : string),
   <["updated_at" := VDate 5]>
     (<["amount" := num (-5)]> (Transaction_dict sample_transaction))) ∈ docs r.1
  /\ r.2 = None
  /\ get_transaction (H := example_runtime) 6 r.1 "u1" "0" = None
  /\ get_transactions (H := example_runtime) 6 r.1 "u1" all_transactions = [].
Proof.
  apply (update_is_not_validated (H := example_runtime) 5 6 sample_store "u1" "0"
           (Transaction_dict sample_transaction) (Qc_of_Z (-5))).
  - apply (bool_decide_unpack _). vm_compute. exact I.
  - left.
  - reflexivity.
  - vm_compute. discriminate.
Defined.

(** ** Manual entries *)

Section ManualFacts.
Context `{PyRuntime}.


End ManualFacts.



(** ** Rescans *)

Section RescanAccounting.
Context `{PyRuntime}.

Lemma auto_categorize_length now c x :
  length (docs (_auto_categorize_transaction now c x)) = length (docs c).
Proof.
  unfold _auto_categorize_transaction.
  destruct (Transaction.merchant x) as [m | ]; [ | reflexivity].
  destruct (_ || _); [reflexivity | ].
  destruct (List.find _ category_mapping) as [[category keywords] | ]; [ | reflexivity].
  destruct (Transaction.id x) as [i | ]; [ | reflexivity].
  symmetry. eapply Forall2_length. apply update_transaction_docs.
Qed.

Lemma create_transaction_length now c user_id data :
  length (docs (create_transaction now c user_id data).1)
  = (length (docs c)
     + match (create_transaction now c user_id data).2 with
       | Some _ => 1
       | None => 0
       end)%nat.
Proof.
  unfold create_transaction.
  destruct (Transaction_validate now _) as [x | ]; cbn [fst snd]; [ | lia].
  unfold insert_one. cbn [fst snd]. rewrite auto_categorize_length. cbn [docs].
  rewrite length_app. reflexivity.
Qed.

Lemma process_length now w user_id m reply :
  length (docs (transactions (process_sms_for_transactions now w user_id m reply).1))
  = (length (docs (transactions w))
     + match (process_sms_for_transactions now w user_id m reply).2 with
       | Some _ => 1
       | None => 0
       end)%nat.
Proof.
  unfold process_sms_for_transactions.
  destruct (process_sms_intelligently now reply) as [p | ]; cbn [fst snd]; [ | lia].
  match goal with
  | |- context [create_transaction now (transactions w) user_id ?data] =>
      pose proof (create_transaction_length now (transactions w) user_id data) as Hl;
      destruct (create_transaction now (transactions w) user_id data) as [txs created]
  end.
  cbn [fst snd] in Hl. destruct created as [t | ].
  - destruct (mark_sms_as_parsed now (sms_messages w) (SMSMessage.id m)) as [sms b].
    cbn [fst snd transactions]. exact Hl.
  - cbn [fst snd transactions]. exact Hl.
Qed.

Lemma rescan_lengths now user_id replies ms : forall w acc,
  let r :=
    foldl
      (fun '(w, processed_results) sms =>
         let '(w, result) :=
           process_sms_for_transactions now w user_id sms (replies sms) in
         match result with
         | Some r => (w, (processed_results ++ [r])%list)
         | None => (w, processed_results)
         end)
      (w, acc) ms in
  (length (docs (transactions r.1)) + length acc
   = length (docs (transactions w)) + length r.2)%nat
  /\ (length r.2 <= length acc + length ms)%nat.
Proof.
  induction ms as [ | m ms IH]; intros w acc; cbn [foldl]; [simpl; lia | ].
  pose proof (process_length now w user_id m (replies m)) as Hl.
  destruct (process_sms_for_transactions now w user_id m (replies m)) as [w' result].
  cbn [fst snd] in Hl. destruct result as [res | ].
  - specialize (IH w' (acc ++ [res])%list). cbn zeta in IH. rewrite length_app in IH.
    cbn [length] in *. lia.
  - specialize (IH w' acc). cbn zeta in IH. cbn [length] in *. lia.
Qed.

End RescanAccounting.

(** X23: [reprocess_unparsed_sms] reports what it stores: the list it
    returns has one result for each transaction the rescan has added,
    and no more results than there were unparsed messages of the
    user. *)
Theorem rescan_accounting `{PyRuntime}
    (now : Z) (w : world) (user_id : string) (replies : SMSMessage.t -> gemini_reply) :
  let r := reprocess_unparsed_sms now w user_id replies in
  length (docs (transactions r.1))
  = (length (docs (transactions w)) + length r.2)%nat
  /\ (length r.2
      <= length (get_unparsed_sms_messages now (sms_messages w) user_id))%nat.
Proof.
  intros r. subst r. unfold reprocess_unparsed_sms.
  pose proof (rescan_lengths now user_id replies
                (get_unparsed_sms_messages now (sms_messages w) user_id) w []) as Hl.
  cbn zeta in Hl. cbn [length] in Hl. lia.
Qed.

(** ** Filters *)

Lemma date_in_range_lower s hi o :
  date_in_range (Some s) hi o = true -> exists t, o = Some (VDate t) /\ s <= t.
Proof.
  unfold date_in_range. destruct o as [[ | | | | t | | ] | ]; try discriminate.
  cbn [from_option]. intros Hq. apply andb_true_iff in Hq as [Hq _].
  apply bool_decide_eq_true_1 in Hq. eauto.
Qed.

Lemma date_in_range_upper lo e o :
  date_in_range lo (Some e) o = true -> exists t, o = Some (VDate t) /\ t <= e.
Proof.
  unfold date_in_range. destruct lo; (destruct o as [[ | | | | t | | ] | ]; try discriminate);
    cbn [from_option]; intros Hq; apply andb_true_iff in Hq as [_ Hq];
    apply bool_decide_eq_true_1 in Hq; eauto.
Qed.

Lemma amount_in_range_lower q hi o :
  amount_in_range (Some q) hi o = true -> exists a, o = Some (VNum a) /\ (q <= a)%Qc.
Proof.
  unfold amount_in_range. destruct o as [[ | | a | | | | ] | ]; try discriminate.
  cbn [from_option]. intros Hq. apply andb_true_iff in Hq as [Hq _].
  apply bool_decide_eq_true_1 in Hq. eauto.
Qed.

Lemma amount_in_range_upper lo q o :
  amount_in_range lo (Some q) o = true -> exists a, o = Some (VNum a) /\ (a <= q)%Qc.
Proof.
  unfold amount_in_range. destruct lo; (destruct o as [[ | | a | | | | ] | ]; try discriminate);
    cbn [from_option]; intros Hq; apply andb_true_iff in Hq as [_ Hq];
    apply bool_decide_eq_true_1 in Hq; eauto.
Qed.

Section FilterFacts.
Context `{PyRuntime}.

Lemma query_matches_fields user_id filters q x :
  query_matches (build_query user_id filters) = Some q -> q x = true ->
  date_in_range (TransactionFilter.start_date filters)
    (TransactionFilter.end_date filters) (x.2 !! "transaction_date") = true
  /\ amount_in_range (truthy_num (TransactionFilter.min_amount filters))
       (truthy_num (TransactionFilter.max_amount filters)) (x.2 !! "amount") = true
  /\ field_is (VType <$> TransactionFilter.transaction_type filters)
       (x.2 !! "transaction_type") = true
  /\ field_is (VBool <$> TransactionFilter.is_failed filters) (x.2 !! "is_failed") = true.
Proof.
  unfold query_matches.
  cbn [q_merchant_regex q_user_id q_date_gte q_date_lte q_amount_gte q_amount_lte
       q_transaction_type q_category q_payment_method q_is_failed q_tags_in build_query].
  intros Hq Hx.
  assert (Hbase : exists re,
    bool_decide (x.2 !! "user_id" = Some (VStr user_id))
    && date_in_range (TransactionFilter.start_date filters)
         (TransactionFilter.end_date filters) (x.2 !! "transaction_date")
    && amount_in_range (truthy_num (TransactionFilter.min_amount filters))
         (truthy_num (TransactionFilter.max_amount filters)) (x.2 !! "amount")
    && field_is (VType <$> TransactionFilter.transaction_type filters)
         (x.2 !! "transaction_type")
    && match x.2 !! "merchant" with
       | Some (VStr m) => re m
       | _ => negb (bool_decide
                      (is_Some (truthy_str (TransactionFilter.merchant filters))))
       end
    && field_is (VStr <$> truthy_str (TransactionFilter.category filters))
         (x.2 !! "category")
    && field_is (VMethod <$> TransactionFilter.payment_method filters)
         (x.2 !! "payment_method")
    && field_is (VBool <$> TransactionFilter.is_failed filters) (x.2 !! "is_failed")
    && tags_in (truthy_list (TransactionFilter.tags filters)) (x.2 !! "tags") = true).
  { destruct (truthy_str (TransactionFilter.merchant filters)) as [pattern | ].
    - destruct (regex_search_i pattern) as [re | ]; [ | discriminate Hq].
      cbn [fmap option_fmap option_map] in Hq. injection Hq as <-. exists re. exact Hx.
    - injection Hq as <-. exists (fun _ => true). exact Hx. }
  destruct Hbase as [re Hbase].
  apply andb_true_iff in Hbase as [Hbase _].
  apply andb_true_iff in Hbase as [Hbase Hfailed].
  apply andb_true_iff in Hbase as [Hbase _].
  apply andb_true_iff in Hbase as [Hbase _].
  apply andb_true_iff in Hbase as [Hbase _].
  apply andb_true_iff in Hbase as [Hbase Htype].
  apply andb_true_iff in Hbase as [Hbase Hamount].
  apply andb_true_iff in Hbase as [_ Hdate].
  auto.
Qed.

Lemma Transaction_validate_amount now data x a :
  data !! "amount" = Some (VNum a) ->
  Transaction_validate now data = Some x -> Transaction.amount x = a.
Proof.
  intros Ha Hv. unfold Transaction_validate in Hv. do 4 next_field Hv.
  rewrite Ha in Hv. cbn [required float_validator py_float mbind option_bind] in Hv.
  next_field Hv. apply validate_amount_Some in E3 as [-> _].
  repeat next_field Hv. injection Hv as <-. reflexivity.
Qed.

Lemma Transaction_validate_kind now data x ty :
  data !! "transaction_type" = Some (VType ty) ->
  Transaction_validate now data = Some x -> Transaction.transaction_type x = ty.
Proof.
  intros Ht Hv. unfold Transaction_validate in Hv. do 3 next_field Hv.
  rewrite Ht, kind_dict in Hv. cbn [mbind option_bind] in Hv.
  repeat next_field Hv. injection Hv as <-. reflexivity.
Qed.

Lemma Transaction_validate_failed now data x b :
  data !! "is_failed" = Some (VBool b) ->
  Transaction_validate now data = Some x -> Transaction.is_failed x = b.
Proof.
  intros Hb Hv. unfold Transaction_validate in Hv. do 15 next_field Hv.
  rewrite Hb in Hv. cbn [with_default bool_validator mbind option_bind] in Hv.
  repeat next_field Hv. injection Hv as <-. reflexivity.
Qed.

End FilterFacts.

(** X24: [get_transactions] honours its filters: every transaction it
    returns is dated within the bounds given, has an amount within the
    bounds given (a bound of 0 counts as not given), and has the kind
    and the failure flag asked for. *)
Theorem get_transactions_honours_filters `{PyRuntime}
    (now : Z) (c : collection) (user_id : string) (filters : TransactionFilter.t) :
  Forall
    (fun t =>
       (forall s, TransactionFilter.start_date filters = Some s ->
                  s <= Transaction.transaction_date t)
       /\ (forall e, TransactionFilter.end_date filters = Some e ->
                     Transaction.transaction_date t <= e)
       /\ (forall q, TransactionFilter.min_amount filters = Some q -> q <> Q2Qc 0 ->
                     (q <= Transaction.amount t)%Qc)
       /\ (forall q, TransactionFilter.max_amount filters = Some q -> q <> Q2Qc 0 ->
                     (Transaction.amount t <= q)%Qc)
       /\ (forall ty, TransactionFilter.transaction_type filters = Some ty ->
                      Transaction.transaction_type t = ty)
       /\ (forall b, TransactionFilter.is_failed filters = Some b ->
                     Transaction.is_failed t = b))
    (get_transactions now c user_id filters).
Proof.
  destruct (get_transactions_cursor now c user_id filters)
    as [-> | (q & cursor & Hq & Hcursor & Hpage)]; [constructor | ].
  pose proof (skip_limit_sublist _ _ _ _ Hcursor) as Hsub.
  apply Forall_forall. intros t Ht. apply list_elem_of_lookup in Ht as [n Hn].
  destruct (Forall2_lookup_r _ _ _ _ _ Hpage Hn) as ([i d] & Hx & Hv).
  cbn [fst snd] in Hv.
  assert (Hin : (i, d) ∈ cursor) by (apply list_elem_of_lookup; eauto).
  eapply elem_of_sublist in Hin; [ | exact Hsub].
  unfold sort_desc in Hin. rewrite merge_sort_Permutation in Hin.
  apply list_elem_of_In, filter_In in Hin as [_ Hqx].
  destruct (query_matches_fields _ _ _ _ Hq Hqx) as (Hdate & Hamount & Htype & Hfailed).
  cbn [snd] in Hdate, Hamount, Htype, Hfailed.
  assert (Hlook : forall k, k <> "id" -> (<["id" := VStr i]> d) !! k = d !! k)
    by (intros k Hk; apply lookup_insert_ne; congruence).
  split; [ | split; [ | split; [ | split; [ | split]]]].
  - intros s Hs. rewrite Hs in Hdate.
    apply date_in_range_lower in Hdate as (t0 & Hd & Hle).
    assert (Hdt : Transaction.transaction_date t = t0).
    { eapply Transaction_validate_date; [ | exact Hv].
      rewrite Hlook by discriminate. exact Hd. }
    rewrite Hdt. exact Hle.
  - intros e He. rewrite He in Hdate.
    apply date_in_range_upper in Hdate as (t0 & Hd & Hle).
    assert (Hdt : Transaction.transaction_date t = t0).
    { eapply Transaction_validate_date; [ | exact Hv].
      rewrite Hlook by discriminate. exact Hd. }
    rewrite Hdt. exact Hle.
  - intros q0 Hq0 Hne. rewrite Hq0 in Hamount.
    assert (Ht : truthy_num (Some q0) = Some q0)
      by (unfold truthy_num; rewrite bool_decide_eq_false_2 by exact Hne; reflexivity).
    rewrite Ht in Hamount. apply amount_in_range_lower in Hamount as (a & Ha & Hle).
    assert (Hat : Transaction.amount t = a).
    { eapply Transaction_validate_amount; [ | exact Hv].
      rewrite Hlook by discriminate. exact Ha. }
    rewrite Hat. exact Hle.
  - intros q0 Hq0 Hne. rewrite Hq0 in Hamount.
    assert (Ht : truthy_num (Some q0) = Some q0)
      by (unfold truthy_num; rewrite bool_decide_eq_false_2 by exact Hne; reflexivity).
    rewrite Ht in Hamount. apply amount_in_range_upper in Hamount as (a & Ha & Hle).
    assert (Hat : Transaction.amount t = a).
    { eapply Transaction_validate_amount; [ | exact Hv].
      rewrite Hlook by discriminate. exact Ha. }
    rewrite Hat. exact Hle.
  - intros ty Hty. rewrite Hty in Htype. cbn [fmap option_fmap option_map field_is] in Htype.
    apply bool_decide_eq_true_1 in Htype.
    eapply Transaction_validate_kind; [ | exact Hv].
    rewrite Hlook by discriminate. exact Htype.
  - intros b Hb. rewrite Hb in Hfailed.
    cbn [fmap option_fmap option_map field_is] in Hfailed.
    apply bool_decide_eq_true_1 in Hfailed.
    eapply Transaction_validate_failed; [ | exact Hv].
    rewrite Hlook by discriminate. exact Hfailed.
Qed.

(** ** Listing messages *)

Section MessageListing.
Context `{PyRuntime}.

Lemma SMSMessage_validate_user now data x u :
  data !! "user_id" = Some (VStr u) ->
  SMSMessage_validate now data = Some x -> SMSMessage.user_id x = u.
Proof.
  intros Hu Hv. unfold SMSMessage_validate in Hv. next_field Hv.
  rewrite Hu in Hv. cbn [required str_validator mbind option_bind] in Hv.
  repeat next_field Hv. injection Hv as <-. reflexivity.
Qed.

Lemma SMSMessage_validate_timestamp now data x t :
  data !! "timestamp" = Some (VDate t) ->
  SMSMessage_validate now data = Some x -> SMSMessage.timestamp x = t.
Proof.
  intros Ht Hv. unfold SMSMessage_validate in Hv. do 4 next_field Hv.
  rewrite Ht in Hv. cbn [required datetime_validator mbind option_bind] in Hv.
  repeat next_field Hv. injection Hv as <-. reflexivity.
Qed.

Lemma get_sms_messages_cursor now c user_id limit offset :
  get_sms_messages now c user_id limit offset = []
  \/ exists cursor,
       skip_limit offset limit (sort_desc "timestamp" (find c (by_user user_id)))
       = Some cursor
       /\ Forall2 (fun x m => SMSMessage_validate now (<["id" := VStr x.1]> x.2) = Some m)
            cursor (get_sms_messages now c user_id limit offset).
Proof.
  unfold get_sms_messages.
  destruct (skip_limit _ _ _) as [cursor | ] eqn:Hs; [ | left; reflexivity].
  cbn [mbind option_bind].
  destruct (mapM _ cursor) as [page | ] eqn:Hm; [ | left; reflexivity].
  right. exists cursor. split; [reflexivity | ].
  apply mapM_Some in Hm. cbn [default].
  eapply Forall2_impl; [exact Hm | ]. intros [i d] t Ht. exact Ht.
Qed.

End MessageListing.

(** X25: every message that [get_sms_messages] returns is the caller's
    and bears the identifier of the document it is read from. With a
    limit other than 0 the page holds no more messages than the
    absolute value of the limit; with a negative offset it is empty;
    and when every stored timestamp is a date, as [save_sms] writes it,
    the messages come newest first. *)
Theorem get_sms_messages_page `{PyRuntime}
    (now : Z) (c : collection) (user_id : string) (limit offset : Z) :
  let page := get_sms_messages now c user_id limit offset in
  Forall (fun m =>
            SMSMessage.user_id m = user_id
            /\ exists i d, SMSMessage.id m = Some i /\ (i, d) ∈ docs c
                           /\ d !! "user_id" = Some (VStr user_id)) page
  /\ (limit <> 0 -> Z.of_nat (length page) <= Z.abs limit)
  /\ (offset < 0 -> page = [])
  /\ (Forall (fun x => exists t, x.2 !! "timestamp" = Some (VDate t)) (docs c) ->
      StronglySorted (fun m1 m2 => SMSMessage.timestamp m2 <= SMSMessage.timestamp m1)
        page).
Proof.
  intros page. subst page.
  destruct (get_sms_messages_cursor now c user_id limit offset)
    as [-> | (cursor & Hcursor & Hpage)].
  { split; [constructor | ]. split; [simpl; lia | ]. split; [reflexivity | ].
    intros _. constructor. }
  pose proof (skip_limit_sublist _ _ _ _ Hcursor) as Hsub.
  assert (Hin : forall x, x ∈ cursor -> x ∈ docs c /\ by_user user_id x = true).
  { intros x Hx. eapply elem_of_sublist in Hx; [ | exact Hsub].
    unfold sort_desc in Hx. rewrite merge_sort_Permutation in Hx.
    apply list_elem_of_In, filter_In in Hx as [Hx Hqx].
    apply list_elem_of_In in Hx. auto. }
  split; [ | split; [ | split]].
  - apply Forall_forall. intros m Hm. apply list_elem_of_lookup in Hm as [n Hn].
    destruct (Forall2_lookup_r _ _ _ _ _ Hpage Hn) as ([i d] & Hx & Hv).
    cbn [fst snd] in Hv.
    destruct (Hin (i, d)) as [Hd Hu]; [apply list_elem_of_lookup; eauto | ].
    unfold by_user in Hu. apply bool_decide_eq_true_1 in Hu. cbn [snd] in Hu. split.
    + eapply SMSMessage_validate_user; [ | exact Hv].
      rewrite lookup_insert_ne by discriminate. exact Hu.
    + exists i, d. split; [ | split; assumption].
      eapply SMSMessage_validate_id; [apply lookup_insert_eq | exact Hv].
  - intros Hl. rewrite <- (Forall2_length _ _ _ Hpage).
    eapply skip_limit_length; eassumption.
  - intros Ho. unfold skip_limit in Hcursor. apply Z.ltb_lt in Ho.
    rewrite Ho in Hcursor. discriminate Hcursor.
  - intros Hdates. eapply StronglySorted_Forall2; [ | exact Hpage | ].
    2:{ eapply StronglySorted_sublist; [exact Hsub | ].
        apply (sort_desc_sorted "timestamp"). }
    intros x y a b Hx Hy Hxy Ha Hb.
    assert (Hdate : forall z, z ∈ cursor -> exists t, z.2 !! "timestamp" = Some (VDate t)).
    { intros z Hz. apply Hin in Hz as [Hz _].
      exact (proj1 (Forall_forall _ _) Hdates z Hz). }
    destruct (Hdate x Hx) as [tx Htx]. destruct (Hdate y Hy) as [ty Hty].
    cbv beta in Hxy, Ha, Hb. rewrite Htx, Hty in Hxy. simpl in Hxy.
    assert (Hta : SMSMessage.timestamp a = tx).
    { eapply SMSMessage_validate_timestamp; [ | exact Ha].
      rewrite lookup_insert_ne by discriminate. exact Htx. }
    assert (Htb : SMSMessage.timestamp b = ty).
    { eapply SMSMessage_validate_timestamp; [ | exact Hb].
      rewrite lookup_insert_ne by discriminate. exact Hty. }
    rewrite Hta, Htb. exact Hxy.
Qed.
